(** * dusk-blockchain: chain acceptance, reduction coordinator and wire format

    A shallow embedding of the Go sources
      - pkg/core/chain/chain.go              (module [CurrentChain])
      - pkg/core/chain/blockverification.go  (module [LegacyChain])
      - pkg/core/consensus/reduction/coordinator.go (module [Reduction])
      - the block marshalling file of package message (module [Wire])
    together with the properties the specification states about them.
    Module [Encoding] and module [Verifiers] hold what the sources call but
    do not contain; module [Examples] holds concrete collaborators on which
    the definitions run.

    Conventions.  A [*bytes.Buffer] is the list of its unread bytes: writes
    append at the end, reads consume from the front.  Go's [error] is
    [option error] ([None] is [nil]); a function returning [(v, error)] is a
    [result], or the pair itself where the caller keeps the value returned
    beside an error.  Unsigned machine integers are [Z] with the wrap-around
    written where the code computes. *)

From Stdlib Require Import ZArith List Lia Bool.
From Stdlib Require Import Strings.String.
From Stdlib Require Import Strings.Byte.
From Stdlib Require DecimalString.
Import ListNotations.
Open Scope Z_scope.

(** ** Errors and results *)

(** Go errors are compared by identity ([err != database.ErrBlockNotFound]),
    so sentinel errors are constructors; [errors_New] carries the message of
    an [errors.New] call; [External] stands for an error produced by a
    collaborator that is not part of the sources. *)
Inductive error : Type :=
| ErrBlockNotFound
| errors_New (msg : String.string)
| External (code : nat).

Definition error_eqb (a b : error) : bool :=
  match a, b with
  | ErrBlockNotFound, ErrBlockNotFound => true
  | errors_New s, errors_New t => String.eqb s t
  | External n, External m => Nat.eqb n m
  | _, _ => false
  end.

Inductive result (A : Type) : Type :=
| Ok (a : A)
| Err (e : error).
Arguments Ok {A} a.
Arguments Err {A} e.

(** ** Bytes and fixed-width integers *)

Definition bytes := list byte.
Definition Buffer := list byte.

Definition Z_of_byte (b : byte) : Z := Z.of_N (Byte.to_N b).

Definition byte_of_Z (z : Z) : byte :=
  match Byte.of_N (Z.to_N (z mod 256)) with
  | Some b => b
  | None => x00
  end.

Definition wrap8 (z : Z) : Z := z mod 2 ^ 8.
Definition wrap64 (z : Z) : Z := z mod 2 ^ 64.

(** [int64(x)] for [x : uint64], and [uint64(x)] for [x : int64]. *)
Definition to_int64 (z : Z) : Z :=
  let u := wrap64 z in if u <? 2 ^ 63 then u else u - 2 ^ 64.
Definition to_uint64 (z : Z) : Z := wrap64 z.

(** [make([]byte, n)] *)
Definition make_bytes (n : nat) : bytes := repeat x00 n.

(** Little-endian encoding of the low [n] bytes of [v]. *)
Fixpoint le_encode (n : nat) (v : Z) : bytes :=
  match n with
  | O => []
  | S k => byte_of_Z v :: le_encode k (v / 256)
  end.

Fixpoint le_decode (bs : bytes) : Z :=
  match bs with
  | [] => 0
  | b :: t => Z_of_byte b + 256 * le_decode t
  end.

Definition bytes_eqb (a b : bytes) : bool :=
  if list_eq_dec byte_eq_dec a b then true else false.

(** ** Package encoding *)

Module Encoding.

(** Package [encoding] is not under src/.  Its functions are modelled from
    the wire format of the specification (section 6): integers are
    little-endian, a hash is 32 bytes, a BLS signature 33 bytes. *)

(** Modelled from the spec: the error a reader of package [encoding]
    returns when the buffer holds fewer bytes than the field needs. *)
Definition ErrShortBuffer : error := errors_New "EOF"%string.

(** Modelled from the spec: [encoding.WriteUint8], "u8". *)
Definition WriteUint8 (r : Buffer) (v : Z) : option error * Buffer :=
  (None, r ++ [byte_of_Z v]).

(** Modelled from the spec: [encoding.WriteUint64LE], "u64",
    little-endian. *)
Definition WriteUint64LE (r : Buffer) (v : Z) : option error * Buffer :=
  (None, r ++ le_encode 8 v).

(** Modelled from the spec: [encoding.WriteBool], one byte. *)
Definition WriteBool (r : Buffer) (b : bool) : option error * Buffer :=
  (None, r ++ [if b then x01 else x00]).

(** Modelled from the spec: the writer of a field of [n] bytes
    ([encoding.Write256], [encoding.WriteBLS]); a slice of another length
    is refused and nothing is written. *)
Definition writeFixed (n : nat) (what : String.string) (r : Buffer) (b : bytes)
  : option error * Buffer :=
  if Nat.eqb (List.length b) n then (None, r ++ b)
  else (Some (errors_New what), r).

(** Modelled from the spec: [encoding.Write256], "32B". *)
Definition Write256 := writeFixed 32 "b is not proper size - expected 32 bytes"%string.
(** Modelled from the spec: [encoding.WriteBLS], "33B". *)
Definition WriteBLS := writeFixed 33 "b is not proper size - expected 33 bytes"%string.

(** Modelled from the spec: [encoding.ReadUint8], "u8". *)
Definition ReadUint8 (r : Buffer) : result Z * Buffer :=
  match r with
  | [] => (Err ErrShortBuffer, r)
  | b :: r' => (Ok (Z_of_byte b), r')
  end.

(** Modelled from the spec: the reader of a little-endian integer of [n]
    bytes; on a shorter buffer it fails and consumes nothing. *)
Definition readLE (n : nat) (r : Buffer) : result Z * Buffer :=
  if Nat.leb n (List.length r) then (Ok (le_decode (firstn n r)), skipn n r)
  else (Err ErrShortBuffer, r).

(** Modelled from the spec: [encoding.ReadUint16LE], [ReadUint32LE] and
    [ReadUint64LE]. *)
Definition ReadUint16LE := readLE 2.
Definition ReadUint32LE := readLE 4.
Definition ReadUint64LE := readLE 8.

(** Modelled from the spec: the reader of a field of [n] bytes
    ([encoding.Read256], [encoding.ReadBLS]).  It fills a destination slice
    [b] the caller allocated, which must have the length of the field; the
    filled slice is returned.  On a shorter buffer it fails and consumes
    nothing. *)
Definition readFixed (n : nat) (what : String.string) (r : Buffer) (b : bytes)
  : result bytes * Buffer :=
  if Nat.eqb (List.length b) n then
    if Nat.leb n (List.length r) then (Ok (firstn n r), skipn n r)
    else (Err ErrShortBuffer, r)
  else (Err (errors_New what), r).

(** Modelled from the spec: [encoding.Read256], "32B". *)
Definition Read256 := readFixed 32 "buffer for Read256 should be 32 bytes"%string.
(** Modelled from the spec: [encoding.ReadBLS], "33B". *)
Definition ReadBLS := readFixed 33 "buffer for ReadBLS should be 33 bytes"%string.

(** Modelled from the spec: [encoding.ReadVarInt], "VarInt follows the
    Bitcoin convention (0xFD/0xFE/0xFF prefix)": a first byte below 0xFD is
    the value; 0xFD, 0xFE and 0xFF announce a 16-, 32- and 64-bit
    little-endian value. *)
Definition ReadVarInt (r : Buffer) : result Z * Buffer :=
  match ReadUint8 r with
  | (Err e, r') => (Err e, r')
  | (Ok d, r') =>
      if d =? 255 then ReadUint64LE r'
      else if d =? 254 then ReadUint32LE r'
      else if d =? 253 then ReadUint16LE r'
      else (Ok d, r')
  end.

End Encoding.

(** ** Blocks, headers, certificates *)

(** [block.Certificate]: Step is a uint8, the committees are uint64 bitmaps. *)
Record Certificate : Type := mkCertificate {
  StepOneBatchedSig : bytes;
  StepTwoBatchedSig : bytes;
  Step : Z;
  StepOneCommittee : Z;
  StepTwoCommittee : Z
}.

(** [block.Header]: Version uint8, Height uint64, Timestamp int64.  The Go
    field [Certificate] is a pointer; the model holds the pointee. *)
Record Header : Type := mkHeader {
  Version : Z;
  Height : Z;
  Timestamp : Z;
  PrevBlockHash : bytes;
  Seed : bytes;
  TxRoot : bytes;
  HCertificate : Certificate;
  Hash : bytes
}.

(** [block.Block]; a transaction slot is an interface value, [None] is the
    nil interface. *)
Record Block (ContractCall : Type) : Type := mkBlock {
  BHeader : Header;
  Txs : list (option ContractCall)
}.
Arguments mkBlock {ContractCall} _ _.
Arguments BHeader {ContractCall} _.
Arguments Txs {ContractCall} _.

(** The values a Go variable of the field's type can hold. *)
Definition is_uint8 (z : Z) : Prop := 0 <= z < 2 ^ 8.
Definition is_uint64 (z : Z) : Prop := 0 <= z < 2 ^ 64.

Definition Certificate_typed (c : Certificate) : Prop :=
  is_uint8 (Step c) /\ is_uint64 (StepOneCommittee c) /\
  is_uint64 (StepTwoCommittee c).

(** The wire format of a certificate in the words of the specification:
    33B step_one_sig, 33B step_two_sig, u8 step, u64 step-one bitmap,
    u64 step-two bitmap. *)
Definition certificate_bytes (c : Certificate) : bytes :=
  StepOneBatchedSig c ++ StepTwoBatchedSig c ++ [byte_of_Z (Step c)]
  ++ le_encode 8 (StepOneCommittee c) ++ le_encode 8 (StepTwoCommittee c).

(** ** Package message: marshalling of blocks and certificates *)

Module Wire.

(** [if err := w; err != nil { return err }] for a writer on the buffer. *)
Notation "'try!' r '<-' w ';' k" :=
  (match w with
   | (Some err, r) => (Some err, r)
   | (None, r) => k
   end)
  (at level 10, r name, w at level 100, k at level 200, only parsing).

(** The same for a reader that fills part of the struct [c] under
    construction: on failure the struct is left as built so far. *)
Notation "'read!' x ',' r '<-' rd 'into' c ';' k" :=
  (match rd with
   | (Err err, r) => (Some err, r, c)
   | (Ok x, r) => k
   end)
  (at level 10, x name, r name, rd at level 100, c at level 9,
   k at level 200, only parsing).

Definition set_StepOneBatchedSig (b : bytes) (c : Certificate) :=
  mkCertificate b (StepTwoBatchedSig c) (Step c) (StepOneCommittee c) (StepTwoCommittee c).
Definition set_StepTwoBatchedSig (b : bytes) (c : Certificate) :=
  mkCertificate (StepOneBatchedSig c) b (Step c) (StepOneCommittee c) (StepTwoCommittee c).
Definition set_Step (v : Z) (c : Certificate) :=
  mkCertificate (StepOneBatchedSig c) (StepTwoBatchedSig c) v (StepOneCommittee c) (StepTwoCommittee c).
Definition set_StepOneCommittee (v : Z) (c : Certificate) :=
  mkCertificate (StepOneBatchedSig c) (StepTwoBatchedSig c) (Step c) v (StepTwoCommittee c).
Definition set_StepTwoCommittee (v : Z) (c : Certificate) :=
  mkCertificate (StepOneBatchedSig c) (StepTwoBatchedSig c) (Step c) (StepOneCommittee c) v.

(** MarshalCertificate marshals a certificate *)
Definition MarshalCertificate (r : Buffer) (c : Certificate)
  : option error * Buffer :=
  try! r <- Encoding.WriteBLS r (StepOneBatchedSig c);
  try! r <- Encoding.WriteBLS r (StepTwoBatchedSig c);
  try! r <- Encoding.WriteUint8 r (Step c);
  try! r <- Encoding.WriteUint64LE r (StepOneCommittee c);
  try! r <- Encoding.WriteUint64LE r (StepTwoCommittee c);
  (None, r).

(** UnmarshalCertificate unmarshals a certificate *)
Definition UnmarshalCertificate (r : Buffer) (c : Certificate)
  : option error * Buffer * Certificate :=
  let c := set_StepOneBatchedSig (make_bytes 33) c in
  read! b, r <- Encoding.ReadBLS r (StepOneBatchedSig c) into c;
  let c := set_StepOneBatchedSig b c in
  let c := set_StepTwoBatchedSig (make_bytes 33) c in
  read! b, r <- Encoding.ReadBLS r (StepTwoBatchedSig c) into c;
  let c := set_StepTwoBatchedSig b c in
  read! v, r <- Encoding.ReadUint8 r into c;
  let c := set_Step v c in
  read! v, r <- Encoding.ReadUint64LE r into c;
  let c := set_StepOneCommittee v c in
  read! v, r <- Encoding.ReadUint64LE r into c;
  let c := set_StepTwoCommittee v c in
  (None, r, c).

Definition set_Version (v : Z) (h : Header) :=
  mkHeader v (Height h) (Timestamp h) (PrevBlockHash h) (Seed h) (TxRoot h) (HCertificate h) (Hash h).
Definition set_Height (v : Z) (h : Header) :=
  mkHeader (Version h) v (Timestamp h) (PrevBlockHash h) (Seed h) (TxRoot h) (HCertificate h) (Hash h).
Definition set_Timestamp (v : Z) (h : Header) :=
  mkHeader (Version h) (Height h) v (PrevBlockHash h) (Seed h) (TxRoot h) (HCertificate h) (Hash h).
Definition set_PrevBlockHash (b : bytes) (h : Header) :=
  mkHeader (Version h) (Height h) (Timestamp h) b (Seed h) (TxRoot h) (HCertificate h) (Hash h).
Definition set_Seed (b : bytes) (h : Header) :=
  mkHeader (Version h) (Height h) (Timestamp h) (PrevBlockHash h) b (TxRoot h) (HCertificate h) (Hash h).
Definition set_TxRoot (b : bytes) (h : Header) :=
  mkHeader (Version h) (Height h) (Timestamp h) (PrevBlockHash h) (Seed h) b (HCertificate h) (Hash h).
Definition set_Certificate (c : Certificate) (h : Header) :=
  mkHeader (Version h) (Height h) (Timestamp h) (PrevBlockHash h) (Seed h) (TxRoot h) c (Hash h).
Definition set_Hash (b : bytes) (h : Header) :=
  mkHeader (Version h) (Height h) (Timestamp h) (PrevBlockHash h) (Seed h) (TxRoot h) (HCertificate h) b.

(** MarshalHashable marshals the hashable part of the block *)
Definition MarshalHashable (r : Buffer) (h : Header) : option error * Buffer :=
  try! r <- Encoding.WriteUint8 r (Version h);
  try! r <- Encoding.WriteUint64LE r (Height h);
  try! r <- Encoding.WriteUint64LE r (to_uint64 (Timestamp h));
  try! r <- Encoding.Write256 r (PrevBlockHash h);
  try! r <- Encoding.WriteBLS r (Seed h);
  (None, r).

(** MarshalHeader marshals the header of a block *)
Definition MarshalHeader (r : Buffer) (h : Header) : option error * Buffer :=
  try! r <- MarshalHashable r h;
  try! r <- Encoding.Write256 r (TxRoot h);
  try! r <- MarshalCertificate r (HCertificate h);
  try! r <- Encoding.Write256 r (Hash h);
  (None, r).

(** UnmarshalHeader unmarshals a block header *)
Definition UnmarshalHeader (r : Buffer) (h : Header)
  : option error * Buffer * Header :=
  read! v, r <- Encoding.ReadUint8 r into h;
  let h := set_Version v h in
  read! v, r <- Encoding.ReadUint64LE r into h;
  let h := set_Height v h in
  read! timestamp, r <- Encoding.ReadUint64LE r into h;
  let h := set_Timestamp (to_int64 timestamp) h in
  let h := set_PrevBlockHash (make_bytes 32) h in
  read! b, r <- Encoding.Read256 r (PrevBlockHash h) into h;
  let h := set_PrevBlockHash b h in
  let h := set_Seed (make_bytes 33) h in
  read! b, r <- Encoding.ReadBLS r (Seed h) into h;
  let h := set_Seed b h in
  let h := set_TxRoot (make_bytes 32) h in
  read! b, r <- Encoding.Read256 r (TxRoot h) into h;
  let h := set_TxRoot b h in
  match UnmarshalCertificate r (HCertificate h) with
  | (Some err, r, c) => (Some err, r, set_Certificate c h)
  | (None, r, c) =>
      let h := set_Certificate c h in
      let h := set_Hash (make_bytes 32) h in
      read! b, r <- Encoding.Read256 r (Hash h) into h;
      let h := set_Hash b h in
      (None, r, h)
  end.

Definition MaxInt32 : Z := 2147483647.

Section BlockTxs.
Variable ContractCall : Type.

(** [type unmarfunc func(r *bytes.Buffer, c transactions.ContractCall) error]:
    the call receives the interface value of the slot, by value. *)
Definition unmarfunc : Type :=
  Buffer -> option ContractCall -> option error * Buffer.

(** [for i, c := range b.Txs { ... b.Txs[i] = c }] over the slots not
    yet visited; [done] are the slots already written back. *)
Fixpoint unmarshalLoop (unmarshalTx : unmarfunc) (r : Buffer)
    (done todo : list (option ContractCall))
  : option error * Buffer * list (option ContractCall) :=
  match todo with
  | [] => (None, r, done)
  | c :: rest =>
      match unmarshalTx r c with
      | (Some err, r) => (Some err, r, done ++ c :: rest)
      | (None, r) => unmarshalLoop unmarshalTx r (done ++ [c]) rest
      end
  end.

Definition unmarshalBlockTxs (r : Buffer) (b : Block ContractCall)
    (unmarshalTx : unmarfunc)
  : option error * Buffer * Block ContractCall :=
  match UnmarshalHeader r (BHeader b) with
  | (Some err, r, h) => (Some err, r, mkBlock h (Txs b))
  | (None, r, h) =>
      let b := mkBlock h (Txs b) in
      match Encoding.ReadVarInt r with
      | (Err err, r) => (Some err, r, b)
      | (Ok lTxs, r) =>
          (* Maximum amount of transactions we can decode at once is
             math.MaxInt32 / 8, since they are pointers (uint64) *)
          if lTxs >? MaxInt32 / 8 then
            (Some (errors_New "block tx count too large"%string), r, b)
          else
            let b := mkBlock (BHeader b) (repeat None (Z.to_nat lTxs)) in
            match unmarshalLoop unmarshalTx r [] (Txs b) with
            | (err, r, txs) => (err, r, mkBlock (BHeader b) txs)
            end
      end
  end.

(** [UnmarshalBlock] passes [transactions.Unmarshal], which is not part
    of the sources, as the transaction decoder. *)
Definition UnmarshalBlock (transactions_Unmarshal : unmarfunc)
    (r : Buffer) (b : Block ContractCall) :=
  unmarshalBlockTxs r b transactions_Unmarshal.

(** What "reading [n] transactions" means: [n] successive calls of the
    decoder, each on the buffer the previous one left. *)
Fixpoint read_n_txs (unmarshalTx : unmarfunc) (n : nat) (r : Buffer)
  : option error * Buffer :=
  match n with
  | O => (None, r)
  | S k =>
      match unmarshalTx r None with
      | (Some err, r) => (Some err, r)
      | (None, r) => read_n_txs unmarshalTx k r
      end
  end.

End BlockTxs.

End Wire.

(** ** Panics *)

(** A Go call either returns or panics. *)
Inductive go (A : Type) : Type :=
| Return (a : A)
| Panic.
Arguments Return {A} a.
Arguments Panic {A}.

(** ** Package reduction: the two-phase coordinator (coordinator.go) *)

Module Reduction.

(** A slice is [nil] or a list; its elements are interface values. *)
Definition slice (A : Type) : Type := option (list A).

Definition len {A : Type} (s : slice A) : Z :=
  match s with
  | None => 0
  | Some l => Z.of_nat (List.length l)
  end.

(** [ctx.state]: Step is a uint8. *)
Record consensusState : Type := mkState {
  Round : Z;
  RStep : Z
}.

Definition incr_Step (s : consensusState) : consensusState :=
  mkState (Round s) (wrap8 (RStep s + 1)).

(** What one call of [eventStopWatch.fetch] selects. *)
Inductive fetched (Event : Type) : Type :=
| TimerFired
| Collected (collectedVotes : slice (option Event))
| Stopped.
Arguments TimerFired {Event}.
Arguments Collected {Event} _.
Arguments Stopped {Event}.

(** Values sent on the channels of the context. *)
Inductive sent : Type :=
| timeoutChan (b : bool)
| reductionVoteChan (hash : Buffer)
| agreementVoteChan (hash : Buffer).

Section Coordinator.
Variable Event : Type.

(** [ctx.handler] and [ctx.committee] are interfaces implemented outside
    the sources. *)
Variable EmbedVoteHash : option Event -> Buffer -> option error * Buffer.
Variable MarshalHeader : Buffer -> consensusState -> option error * Buffer.
Variable MarshalVoteSet : Buffer -> slice (option Event) -> option error * Buffer.
Variable Quorum : Z.

Definition fetch (f : fetched Event) : slice (option Event) * list sent :=
  match f with
  | TimerFired => (None, [timeoutChan true])
  | Collected collectedVotes => (collectedVotes, [])
  | Stopped => (None, [])
  end.

(** [encodeEv]: [events[0]] panics on an empty slice that is not nil. *)
Definition encodeEv (events : slice (option Event))
  : go (result Buffer) :=
  let events :=
    match events with
    | None => Some [None]
    | Some l => Some l
    end in
  let hash := make_bytes 32 in
  match events with
  | Some (ev0 :: _) =>
      match EmbedVoteHash ev0 hash with
      | (Some err, _) => Return (Err err)
      | (None, hash) => Return (Ok hash)
      end
  | _ => Panic
  end.

(** [isReductionSuccessful]: [hash1.Bytes()] dereferences the pointers
    before the conjunction is taken, so a nil buffer panics. *)
Definition isReductionSuccessful (hash1 hash2 : option Buffer)
    (events : slice (option Event)) : go bool :=
  let bothNotNil :=
    match hash1, hash2 with
    | Some _, Some _ => true
    | _, _ => false
    end in
  match hash1, hash2 with
  | Some b1, Some b2 =>
      let identicalResults := bytes_eqb b1 b2 in
      let voteSetCorrectLength := len events >=? to_int64 (Quorum * 2) in
      Return (bothNotNil && identicalResults && voteSetCorrectLength)
  | _, _ => Panic
  end.

(** [coordinator.begin]; [f1] and [f2] are what the two blocking fetches
    select.  The result carries the state and the channel sends made up
    to the point the call ended.  [hash1] is compared after [MarshalHeader]
    wrote to it and after it was sent on [reductionVoteChan]: the bytes
    compared are those [MarshalHeader] left, the receiver not yet having
    read from the buffer. *)
Definition begin (state : consensusState) (f1 f2 : fetched Event)
  : go (option error) * consensusState * list sent :=
  let '(events, out) := fetch f1 in
  let state := incr_Step state in
  match encodeEv events with
  | Panic => (Panic, state, out)
  | Return (Err err) => (Return (Some err), state, out)
  | Return (Ok hash1) =>
  match MarshalHeader hash1 state with
  | (Some err, _) => (Return (Some err), state, out)
  | (None, hash1) =>
  let out := out ++ [reductionVoteChan hash1] in
  let '(eventsSecondStep, out2) := fetch f2 in
  let out := out ++ out2 in
  match encodeEv eventsSecondStep with
  | Panic => (Panic, state, out)
  | Return (Err err) => (Return (Some err), state, out)
  | Return (Ok hash2) =>
  match isReductionSuccessful (Some hash1) (Some hash2) events with
  | Panic => (Panic, state, out)
  | Return true =>
      match MarshalVoteSet hash2 events with
      | (Some err, _) => (Return (Some err), state, out)
      | (None, hash2) =>
      match MarshalHeader hash2 state with
      | (Some err, _) => (Return (Some err), state, out)
      | (None, hash2) =>
          let out := out ++ [agreementVoteChan hash2] in
          (Return None, incr_Step state, out)
      end end
  | Return false => (Return None, incr_Step state, out)
  end end end end.

(** Whether a run forwarded a result toward agreement. *)
Definition forwarded (out : list sent) : bool :=
  existsb (fun s => match s with agreementVoteChan _ => true | _ => false end) out.

(** The success condition in the words of the specification: the two
    phase hashes are equal and not the empty (all-zero) hash, and the
    votes of both phases together number at least twice the quorum. *)
Definition spec_success (hash1 hash2 : Buffer)
    (events eventsSecondStep : slice (option Event)) : bool :=
  bytes_eqb hash1 hash2
  && negb (bytes_eqb hash1 (make_bytes 32))
  && (len events + len eventsSecondStep >=? 2 * Quorum).

End Coordinator.

End Reduction.

(** ** The legacy chain (blockverification.go) *)

Module LegacyChain.

(** The header of the legacy block type: Version uint8, Timestamp int64,
    Height uint64.  [block.Block] holds a pointer to it, so a method
    called on a copy of the block still writes the caller's header. *)
Record Header : Type := mkHeader {
  Version : Z;
  Timestamp : Z;
  Height : Z;
  PrevBlock : bytes;
  TxRoot : bytes;
  Seed : bytes;
  CertHash : bytes;
  Hash : bytes
}.

Record Block (Payload : Type) : Type := mkBlock {
  BHeader : Header;
  Txs : list Payload
}.
Arguments mkBlock {Payload} _ _.
Arguments BHeader {Payload} _.
Arguments Txs {Payload} _.

Definition set_TxRoot (root : bytes) (h : Header) : Header :=
  mkHeader (Version h) (Timestamp h) (Height h) (PrevBlock h) root
           (Seed h) (CertHash h) (Hash h).

(** What the chain did to its collaborators, in order. *)
Inductive call (Payload : Type) : Type :=
| StoreBlock (blk : Block Payload)
| RemoveAccepted (blk : Block Payload)
| propagateBlock (blk : Block Payload).
Arguments StoreBlock {Payload} _.
Arguments RemoveAccepted {Payload} _.
Arguments propagateBlock {Payload} _.

Section Chain.
(** [merkletree.Payload], [transactions.Transaction] and the database
    are declared outside the sources. *)
Variable Payload : Type.
Variable Transaction : Type.
Variable DB : Type.

(** [t.FetchBlockExists(hash)]: nil when the block is stored,
    [database.ErrBlockNotFound] when it is not. *)
Variable db_FetchBlockExists : DB -> bytes -> option error.
Variable db_StoreBlock : DB -> Block Payload -> option error * DB.
(** [blk.SetRoot()] computes the Merkle root of the transactions. *)
Variable merkleRoot : list Payload -> result bytes.
Variable checkMultiCoinbases : list Payload -> option error.
(** [merklePayload.(transactions.Transaction)] *)
Variable asTransaction : Payload -> option Transaction.
Variable verifyTX : DB -> Z -> Z -> Transaction -> option error.
(** [c.propagateBlock(blk)] encodes the block and streams it to gossip. *)
Variable propagate : Block Payload -> option error.

Record Chain : Type := mkChain {
  db : DB;
  PrevBlockOf : Block Payload;
  calls : list (call Payload)
}.

Definition SetRoot (blk : Block Payload) : option error * Block Payload :=
  match merkleRoot (Txs blk) with
  | Err e => (Some e, blk)
  | Ok root => (None, mkBlock (set_TxRoot root (BHeader blk)) (Txs blk))
  end.

(** checks whether a block header is malformed.  The block comes back
    too: [SetRoot] writes the header the caller shares. *)
Definition checkBlockHeader (c : Chain) (blk : Block Payload) : option error * Block Payload :=
  let prev := BHeader (PrevBlockOf c) in
  (* Version *)
  if Version (BHeader blk) >? 0 then
    (Some (errors_New "unsupported block version"%string), blk)
  (* blk.Headerhash = prevHeaderHash *)
  else if negb (bytes_eqb (PrevBlock (BHeader blk)) (Hash prev)) then
    (Some (errors_New "Previous block hash does not equal the previous hash in the current block"%string), blk)
  (* blk.Headerheight = prevHeaderHeight +1 *)
  else if negb (Height (BHeader blk) =? wrap64 (Height prev + 1)) then
    (Some (errors_New "current block height is not one plus the previous block height"%string), blk)
  (* blk.Timestamp > prevTimestamp *)
  else if Timestamp (BHeader blk) <=? Timestamp prev then
    (Some (errors_New "current timestamp is less than the previous timestamp"%string), blk)
  else
    (* Merkle tree check *)
    let tR := TxRoot (BHeader blk) in
    match SetRoot blk with
    | (Some _, blk) =>
        (Some (errors_New "could not calculate the merkle tree root for this header"%string), blk)
    | (None, blk) =>
        if negb (bytes_eqb tR (TxRoot (BHeader blk))) then
          (Some (errors_New "merkle root mismatch"%string), blk)
        else (None, blk)
    end.

(** [for i, merklePayload := range blk.Txs] of verifyBlock *)
Fixpoint verifyTxs (c : Chain) (timestamp : Z) (i : Z) (txs : list Payload)
  : option error :=
  match txs with
  | [] => None
  | merklePayload :: rest =>
      match asTransaction merklePayload with
      | None => Some (errors_New "tx does not implement the transaction interface"%string)
      | Some tx =>
          match verifyTX (db c) i (to_uint64 timestamp) tx with
          | Some err => Some err
          | None => verifyTxs c timestamp (i + 1) rest
          end
      end
  end.

(** VerifyBlock will verify whether a block is valid according to the
    rules of the consensus; returns nil if a block is valid *)
Definition verifyBlock (c : Chain) (blk : Block Payload) : option error * Block Payload :=
  match checkBlockHeader c blk with
  | (Some err, blk) => (None, blk)        (* [return nil] *)
  | (None, blk) =>
      match checkMultiCoinbases (Txs blk) with
      | Some err => (Some err, blk)
      | None => (verifyTxs c (Timestamp (BHeader blk)) 0 (Txs blk), blk)
      end
  end.

Definition log (e : call Payload) (c : Chain) : Chain :=
  mkChain (db c) (PrevBlockOf c) (calls c ++ [e]).

(** AcceptBlock will accept a block if
    1. We have not seen it before
    2. All stateless and statefull checks are true
    Returns nil, if checks passed and block was successfully saved *)
Definition AcceptBlock (c : Chain) (blk : Block Payload) : option error * Chain :=
  (* 1. Check that we have not seen this block before *)
  let err := db_FetchBlockExists (db c) (Hash (BHeader blk)) in
  match err with
  | None => (Some (errors_New "block already exists"%string), c)
  | Some e =>
  if negb (error_eqb e ErrBlockNotFound) then (Some e, c) else
  (* 2. Check that stateless and stateful checks pass *)
  match verifyBlock c blk with
  | (Some err, _) => (Some err, c)
  | (None, blk) =>
  (* 3. Save block in database *)
  match db_StoreBlock (db c) blk with
  | (Some err, d) => (Some err, log (StoreBlock blk) (mkChain d (PrevBlockOf c) (calls c)))
  | (None, d) =>
      let c := log (StoreBlock blk) (mkChain d (PrevBlockOf c) (calls c)) in
      let c := mkChain (db c) blk (calls c) in
      (* 4. Clean up all txs from the mempool *)
      let c := log (RemoveAccepted blk) c in
      (* 5. Gossip block *)
      let c := log (propagateBlock blk) c in
      match propagate blk with
      | Some err => (Some err, c)
      | None => (None, c)
      end
  end end end.

End Chain.

End LegacyChain.

(** ** The current chain (chain.go) *)

Module CurrentChain.

Inductive Topic : Type :=
| StopConsensus | AcceptedBlock | RoundUpdate | Gossip | Inv
| BlockTopic | Initialization
| VerifyCandidateBlock | GetLastCertificate | GetLastCommittee
| GetCandidate | ClearWalletDatabase.

(** [peermsg.InvType] *)
Inductive InvType : Type := InvTypeMempoolTx | InvTypeBlock.

(** [consensus.RoundUpdate] *)
Record RoundUpdateT (Provisioners : Type) : Type := mkRoundUpdate {
  RU_Round : Z;
  RU_P : Provisioners;
  RU_Seed : bytes;
  RU_Hash : bytes
}.
Arguments mkRoundUpdate {Provisioners} _ _ _ _.
Arguments RU_Round {Provisioners} _.
Arguments RU_P {Provisioners} _.
Arguments RU_Seed {Provisioners} _.
Arguments RU_Hash {Provisioners} _.

(** The payload of a [message.Message]. *)
Inductive payload (ContractCall Provisioners : Type) : Type :=
| EMPTY
| Nil
| OfBlock (blk : Block ContractCall)
| OfRoundUpdate (ru : RoundUpdateT Provisioners)
| OfBuffer (buf : Buffer).
Arguments EMPTY {ContractCall Provisioners}.
Arguments Nil {ContractCall Provisioners}.
Arguments OfBlock {ContractCall Provisioners} _.
Arguments OfRoundUpdate {ContractCall Provisioners} _.
Arguments OfBuffer {ContractCall Provisioners} _.

(** [message.New(topic, payload)] *)
Record Message (ContractCall Provisioners : Type) : Type := message_New {
  Category : Topic;
  Payload : payload ContractCall Provisioners
}.
Arguments message_New {ContractCall Provisioners} _ _.
Arguments Category {ContractCall Provisioners} _.
Arguments Payload {ContractCall Provisioners} _.

(** [rpcbus.Response] as the chain's request handlers build it. *)
Inductive Response : Type :=
| RespBuffer (buf : Buffer) (err : option error)
| RespCommittee (keys : list bytes)
| RespCandidate (err : option error).

(** The calls the chain makes on its collaborators (event bus, tip
    provider, loader, sync counter, verifier, RPC bus, request channels),
    in the order it makes them.  [Go_Publish] is a publication handed to
    a new goroutine. *)
Inductive call (ContractCall Provisioners : Type) : Type :=
| Publish (t : Topic) (m : Message ContractCall Provisioners)
| Go_Publish (t : Topic) (m : Message ContractCall Provisioners)
| tip_Set (blk : Block ContractCall)
| loader_Clear
| loader_LoadTip
| loader_Append (blk : Block ContractCall)
| counter_Decrement
| verifier_PerformSanityCheck
| rpcBus_Call (t : Topic) (params : Buffer)
| RespChan (r : Response).
Arguments Publish {ContractCall Provisioners} _ _.
Arguments Go_Publish {ContractCall Provisioners} _ _.
Arguments tip_Set {ContractCall Provisioners} _.
Arguments loader_Clear {ContractCall Provisioners}.
Arguments loader_LoadTip {ContractCall Provisioners}.
Arguments loader_Append {ContractCall Provisioners} _.
Arguments counter_Decrement {ContractCall Provisioners}.
Arguments verifier_PerformSanityCheck {ContractCall Provisioners}.
Arguments rpcBus_Call {ContractCall Provisioners} _ _.
Arguments RespChan {ContractCall Provisioners} _.

(** [certMsg] of the certificate collector *)
Record certMsg : Type := mkCertMsg {
  cm_hash : bytes;
  cm_cert : Certificate;
  cm_committee : option (list bytes)
}.

(** The Chain: the fields of the Go struct that hold data, the
    collaborators that have state of their own shown by that state
    ([counter], [loader], [tip]), and the calls made so far. *)
Record Chain (ContractCall Provisioners Counter Storage : Type) : Type := mkChain {
  p : Provisioners;
  counter : Counter;
  loader : Storage;
  tip : Block ContractCall;
  lastCertificate : option Certificate;
  lastCommittee : option (list bytes);
  highestSeen : Z;
  calls : list (call ContractCall Provisioners)
}.
Arguments mkChain {ContractCall Provisioners Counter Storage} _ _ _ _ _ _ _ _.
Arguments p {ContractCall Provisioners Counter Storage} _.
Arguments counter {ContractCall Provisioners Counter Storage} _.
Arguments loader {ContractCall Provisioners Counter Storage} _.
Arguments tip {ContractCall Provisioners Counter Storage} _.
Arguments lastCertificate {ContractCall Provisioners Counter Storage} _.
Arguments lastCommittee {ContractCall Provisioners Counter Storage} _.
Arguments highestSeen {ContractCall Provisioners Counter Storage} _.
Arguments calls {ContractCall Provisioners Counter Storage} _.

(** [message.Candidate], of which the chain reads the block; the block is
    held by pointer and may be nil.  A block itself always carries its
    header and the header its certificate, as [block.NewBlock] and the
    decoders build them. *)
Record Candidate (ContractCall : Type) : Type := mkCandidate {
  Candidate_Block : option (Block ContractCall)
}.
Arguments mkCandidate {ContractCall} _.
Arguments Candidate_Block {ContractCall} _.

(** A value of static type [interface{}] on which the chain asserts
    [message.Candidate]: the [Params] of a request and the response of an
    RPC call.  Every other dynamic type, the nil interface included, is
    [NotCandidate]. *)
Inductive any (ContractCall : Type) : Type :=
| IsCandidate (cm : Candidate ContractCall)
| NotCandidate.
Arguments IsCandidate {ContractCall} _.
Arguments NotCandidate {ContractCall}.

(** What the main loop selects in one iteration of [Listen]; a request on
    [verifyCandidateBlockChan] is given by its [Params]. *)
Inductive received (ContractCall Provisioners : Type) : Type :=
| blockChan (m : Message ContractCall Provisioners)
| initializationChan (m : Message ContractCall Provisioners)
| certificateChan (certificateMsg : certMsg)
| highestSeenChan (height : Z)
| verifyCandidateBlockChan (r_Params : any ContractCall)
| getLastCertificateChan
| getLastCommitteeChan
| ctx_Done.
Arguments blockChan {ContractCall Provisioners} _.
Arguments initializationChan {ContractCall Provisioners} _.
Arguments certificateChan {ContractCall Provisioners} _.
Arguments highestSeenChan {ContractCall Provisioners} _.
Arguments verifyCandidateBlockChan {ContractCall Provisioners} _.
Arguments getLastCertificateChan {ContractCall Provisioners}.
Arguments getLastCommitteeChan {ContractCall Provisioners}.
Arguments ctx_Done {ContractCall Provisioners}.

(** The collaborators of the chain: interfaces and packages whose
    implementations are outside the sources. *)
Record Collaborators (ContractCall Provisioners Counter Storage : Type) : Type := mkCollaborators {
  (* user.NewProvisioners() and block.EmptyCertificate() *)
  NewProvisioners : Provisioners;
  EmptyCertificate : Certificate;
  (* chainsync.Counter *)
  IsSyncing : Counter -> bool;
  Decrement : Counter -> Counter;
  (* Loader *)
  LoadTip : Storage -> result (Block ContractCall) * Storage;
  Clear : Storage -> option error * Storage;
  Append : Storage -> Block ContractCall -> option error * Storage;
  (* Verifier *)
  PerformSanityCheck : Storage -> Z -> Z -> Z -> option error;
  SanityCheckBlock : Block ContractCall -> Block ContractCall -> option error;
  SanityCheckHeight : Z;
  (* transactions.Executor; ExecuteStateTransition returns a provisioner
     set beside its error, and the chain stores both *)
  GetProvisioners : result Provisioners;
  VerifyStateTransition : list (option ContractCall) -> Z -> option error;
  ExecuteStateTransition : list (option ContractCall) -> Z -> Provisioners * option error;
  (* verifiers.CheckBlockCertificate *)
  CheckBlockCertificate : Provisioners -> Block ContractCall -> option error;
  (* peermsg.Inv.Encode and topics.Prepend *)
  Inv_Encode : Buffer -> list (InvType * bytes) -> option error * Buffer;
  topics_Prepend : Buffer -> Topic -> option error * Buffer;
  (* rpcBus.Register, rpcBus.Call, newLastBlockProvider *)
  rpcBus_Register : Topic -> option error;
  rpcBus_GetCandidate : Buffer -> result (any ContractCall);
  rpcBus_ClearWalletDatabase : Buffer -> option error;
  newLastBlockProvider : Block ContractCall -> option error;
  (* config.Get().Genesis.Legacy and the test-harness setup *)
  Genesis_Legacy : bool;
  setupBidValues : option error;
  reconstructCommittee : Provisioners -> Block ContractCall -> option error * Provisioners
}.

Arguments NewProvisioners {ContractCall Provisioners Counter Storage} _.
Arguments EmptyCertificate {ContractCall Provisioners Counter Storage} _.
Arguments IsSyncing {ContractCall Provisioners Counter Storage} _ _.
Arguments Decrement {ContractCall Provisioners Counter Storage} _ _.
Arguments LoadTip {ContractCall Provisioners Counter Storage} _ _.
Arguments Clear {ContractCall Provisioners Counter Storage} _ _.
Arguments Append {ContractCall Provisioners Counter Storage} _ _ _.
Arguments PerformSanityCheck {ContractCall Provisioners Counter Storage} _ _ _ _ _.
Arguments SanityCheckBlock {ContractCall Provisioners Counter Storage} _ _ _.
Arguments SanityCheckHeight {ContractCall Provisioners Counter Storage} _.
Arguments GetProvisioners {ContractCall Provisioners Counter Storage} _.
Arguments VerifyStateTransition {ContractCall Provisioners Counter Storage} _ _ _.
Arguments ExecuteStateTransition {ContractCall Provisioners Counter Storage} _ _ _.
Arguments CheckBlockCertificate {ContractCall Provisioners Counter Storage} _ _ _.
Arguments Inv_Encode {ContractCall Provisioners Counter Storage} _ _ _.
Arguments topics_Prepend {ContractCall Provisioners Counter Storage} _ _ _.
Arguments rpcBus_Register {ContractCall Provisioners Counter Storage} _ _.
Arguments rpcBus_GetCandidate {ContractCall Provisioners Counter Storage} _ _.
Arguments rpcBus_ClearWalletDatabase {ContractCall Provisioners Counter Storage} _ _.
Arguments newLastBlockProvider {ContractCall Provisioners Counter Storage} _ _.
Arguments Genesis_Legacy {ContractCall Provisioners Counter Storage} _.
Arguments setupBidValues {ContractCall Provisioners Counter Storage} _.
Arguments reconstructCommittee {ContractCall Provisioners Counter Storage} _ _ _.

Section Chain.
Variables ContractCall Provisioners Counter Storage : Type.
Variable E : Collaborators ContractCall Provisioners Counter Storage.

Definition ChainT : Type := Chain ContractCall Provisioners Counter Storage.
Definition BlockT : Type := Block ContractCall.
Definition MessageT : Type := Message ContractCall Provisioners.

Definition set_p (v : Provisioners) (c : ChainT) : ChainT :=
  mkChain v (counter c) (loader c) (tip c) (lastCertificate c)
          (lastCommittee c) (highestSeen c) (calls c).
Definition set_counter (v : Counter) (c : ChainT) : ChainT :=
  mkChain (p c) v (loader c) (tip c) (lastCertificate c)
          (lastCommittee c) (highestSeen c) (calls c).
Definition set_loader (v : Storage) (c : ChainT) : ChainT :=
  mkChain (p c) (counter c) v (tip c) (lastCertificate c)
          (lastCommittee c) (highestSeen c) (calls c).
Definition set_tip (v : BlockT) (c : ChainT) : ChainT :=
  mkChain (p c) (counter c) (loader c) v (lastCertificate c)
          (lastCommittee c) (highestSeen c) (calls c).
Definition set_lastCertificate (v : option Certificate) (c : ChainT) : ChainT :=
  mkChain (p c) (counter c) (loader c) (tip c) v
          (lastCommittee c) (highestSeen c) (calls c).
Definition set_lastCommittee (v : option (list bytes)) (c : ChainT) : ChainT :=
  mkChain (p c) (counter c) (loader c) (tip c) (lastCertificate c)
          v (highestSeen c) (calls c).
Definition set_highestSeen (v : Z) (c : ChainT) : ChainT :=
  mkChain (p c) (counter c) (loader c) (tip c) (lastCertificate c)
          (lastCommittee c) v (calls c).
Definition record (e : call ContractCall Provisioners) (c : ChainT) : ChainT :=
  mkChain (p c) (counter c) (loader c) (tip c) (lastCertificate c)
          (lastCommittee c) (highestSeen c) (calls c ++ [e]).

(** [c.eventBus.Publish(topic, msg)]; the error list is only logged. *)
Definition eventBus_Publish (t : Topic) (m : MessageT) (c : ChainT) : ChainT :=
  record (Publish t m) c.

(** [c.tip.Set(blk)], [c.loader.Append(blk)], [c.counter.Decrement()] *)
Definition do_tip_Set (blk : BlockT) (c : ChainT) : ChainT :=
  record (tip_Set blk) (set_tip blk c).

Definition do_loader_Append (blk : BlockT) (c : ChainT) : option error * ChainT :=
  let '(err, st) := Append E (loader c) blk in
  (err, record (loader_Append blk) (set_loader st c)).

Definition do_counter_Decrement (c : ChainT) : ChainT :=
  record counter_Decrement (set_counter (Decrement E (counter c)) c).

Definition beginAccepting (c : ChainT) (blk : BlockT) : bool * ChainT :=
  (* Ignore blocks from peers if we are only one behind - we are most
     likely just about to finalize consensus. *)
  if negb (IsSyncing E (counter c)) then (false, c)
  else
    (* If we are more than one block behind, stop the consensus *)
    (true, eventBus_Publish StopConsensus (message_New StopConsensus EMPTY) c).

(** Send Inventory message to all peers *)
Definition advertiseBlock (c : ChainT) (b : BlockT) : go (option error) * ChainT :=
  let msg := [(InvTypeBlock, Hash (BHeader b))] in
  let buf : Buffer := [] in
  match Inv_Encode E buf msg with
  | (Some err, _) => (Panic, c)
  | (None, buf) =>
  match topics_Prepend E buf Inv with
  | (Some err, _) => (Panic, c)
  | (None, buf) =>
      let m := message_New Inv (OfBuffer buf) in
      (Return None, eventBus_Publish Gossip m c)
  end end.

(** AcceptBlock will accept a block if
    1. We have not seen it before
    2. All stateless and stateful checks are true
    Returns nil, if checks passed and block was successfully saved.
    The goroutine that dumps the provisioners to the API store when
    [config.Get().API.Enabled] writes only that store and is left out. *)
Definition AcceptBlock (c : ChainT) (blk : BlockT) : go (option error) * ChainT :=
  let prevBlock := tip c in
  (* 1. Check that stateless and stateful checks pass *)
  match SanityCheckBlock E prevBlock blk with
  | Some err => (Return (Some err), c)
  | None =>
  match GetProvisioners E with
  | Err err => (Return (Some err), c)
  | Ok provisioners =>
  (* Set provisioners list. *)
  let c := set_p provisioners c in
  (* 2. Check the certificate *)
  match CheckBlockCertificate E (p c) blk with
  | Some err => (Return (Some err), c)
  | None =>
  (* 3. Call ExecuteStateTransitionFunction.  [c.p] points to the variable
     [provisioners] since step 1, so the assignment of the call's results
     writes the chain's provisioners, also when the call fails *)
  let '(provisioners, err) :=
    ExecuteStateTransition E (Txs blk) (Height (BHeader blk)) in
  let c := set_p provisioners c in
  match err with
  | Some err => (Return (Some err), c)
  | None =>
  (* Update the provisioners as blk.Txs may bring new provisioners *)
  let c := set_p provisioners c in
  let c := do_tip_Set blk c in
  (* 4. Store the approved block *)
  match do_loader_Append blk c with
  | (Some err, c) => (Return (Some err), c)
  | (None, c) =>
  (* 5. Gossip advertise block Hash *)
  match advertiseBlock c blk with
  | (Panic, c) => (Panic, c)
  | (Return (Some err), c) => (Return (Some err), c)
  | (Return None, c) =>
  (* 6. Notify other subsystems for the accepted block *)
  let msg := message_New AcceptedBlock (OfBlock blk) in
  let c := eventBus_Publish AcceptedBlock msg c in
  (* decrement the counter *)
  let c := do_counter_Decrement c in
  (Return None, c)
  end end end end end end.

Definition getRoundUpdate (c : ChainT) : RoundUpdateT Provisioners :=
  let prevBlock := tip c in
  let hdr := BHeader prevBlock in
  mkRoundUpdate (wrap64 (Height hdr + 1)) (p c) (Seed hdr) (Hash hdr).

Definition sendRoundUpdate (c : ChainT) (ru : RoundUpdateT Provisioners)
  : option error * ChainT :=
  let msg := message_New RoundUpdate (OfRoundUpdate ru) in
  (None, eventBus_Publish RoundUpdate msg c).

(** [go func() { c.sendRoundUpdate(ru) }()] *)
Definition go_sendRoundUpdate (c : ChainT) (ru : RoundUpdateT Provisioners) : ChainT :=
  record (Go_Publish RoundUpdate (message_New RoundUpdate (OfRoundUpdate ru))) c.

Definition onInitialization (c : ChainT) (m : MessageT) : option error * ChainT :=
  let ru := getRoundUpdate c in
  sendRoundUpdate c ru.

(** [onAcceptBlock]; [c.onBeginAccepting] is the function [New] stores
    there, [beginAccepting].  The payload assertion
    [m.Payload().(block.Block)] panics on any other payload. *)
Definition onAcceptBlock (c : ChainT) (m : MessageT) : go (option error) * ChainT :=
  match Payload m with
  | OfBlock blk =>
      (* Prepare component and the node for accepting new block *)
      match beginAccepting c blk with
      | (false, c) => (Return None, c)
      | (true, c) =>
      (* Accepting the block decrements the sync counter *)
      match AcceptBlock c blk with
      | (Panic, c) => (Panic, c)
      | (Return (Some err), c) => (Return (Some err), c)
      | (Return None, c) =>
          let c := set_lastCertificate (Some (HCertificate (BHeader blk))) c in
          (* If we are no longer syncing after accepting this block,
             re-start consensus. *)
          if negb (IsSyncing E (counter c)) then
            let ru := getRoundUpdate c in
            (Return None, go_sendRoundUpdate c ru)
          else (Return None, c)
      end end
  | _ => (Panic, c)
  end.

(** [handleCertificateMessage].  The assertion [resp.(message.Candidate)]
    panics on any other response, and the assignment to
    [cm.Block.Header.Certificate] on a candidate without a block. *)
Definition handleCertificateMessage (c : ChainT) (cMsg : certMsg) : go unit * ChainT :=
  (* Set latest certificate and committee *)
  let c := set_lastCertificate (Some (cm_cert cMsg)) c in
  let c := set_lastCommittee (cm_committee cMsg) c in
  (* Fetch new intermediate block and corresponding certificate *)
  let params : Buffer := [] in
  let params := snd (Encoding.Write256 params (cm_hash cMsg)) in
  let params := snd (Encoding.WriteBool params true) in
  let c := record (rpcBus_Call GetCandidate params) c in
  match rpcBus_GetCandidate E params with
  | Err err => (Return tt, c)
  | Ok resp =>
  match resp with
  | NotCandidate => (Panic, c)
  | IsCandidate cm =>
  match Candidate_Block cm with
  | None => (Panic, c)
  | Some cmBlock =>
      (* Try to accept candidate block *)
      let cmBlock :=
        mkBlock (Wire.set_Certificate (cm_cert cMsg) (BHeader cmBlock)) (Txs cmBlock) in
      match AcceptBlock c cmBlock with
      | (Panic, c) => (Panic, c)
      | (Return (Some err), c) => (Return tt, c)
      | (Return None, c) =>
          (* propagate round update *)
          let ru := getRoundUpdate c in
          (Return tt, go_sendRoundUpdate c ru)
      end
  end end end.

(** [processCandidateVerificationRequest].  The assertion
    [r.Params.(message.Candidate)] panics on any other value, and the
    dereference [*cm.Block] on a candidate without a block. *)
Definition processCandidateVerificationRequest (c : ChainT)
    (r_Params : any ContractCall) : go unit * ChainT :=
  match r_Params with
  | NotCandidate => (Panic, c)
  | IsCandidate cm =>
  match Candidate_Block cm with
  | None => (Panic, c)
  | Some candidateBlock =>
  let chainTip := tip c in
  (* We first perform a quick check on the Block Header and *)
  match SanityCheckBlock E chainTip candidateBlock with
  | Some err => (Return tt, record (RespChan (RespCandidate (Some err))) c)
  | None =>
      match VerifyStateTransition E (Txs candidateBlock) (Height (BHeader candidateBlock)) with
      | Some err => (Return tt, record (RespChan (RespCandidate (Some err))) c)
      | None => (Return tt, record (RespChan (RespCandidate None)) c)
      end
  end end end.

Definition provideLastCertificate (c : ChainT) : ChainT :=
  match lastCertificate c with
  | None =>
      record (RespChan (RespBuffer [] (Some (errors_New "no last certificate present"%string)))) c
  | Some cert =>
      let '(err, buf) := Wire.MarshalCertificate [] cert in
      record (RespChan (RespBuffer buf err)) c
  end.

Definition provideLastCommittee (c : ChainT) : ChainT :=
  match lastCommittee c with
  | None =>
      record (RespChan (RespBuffer [] (Some (errors_New "no last committee present"%string)))) c
  | Some keys => record (RespChan (RespCommittee keys)) c
  end.

(** One iteration of the [select] in [Listen]; handler errors are only
    logged. *)
Definition Listen (c : ChainT) (ev : received ContractCall Provisioners) : go unit * ChainT :=
  match ev with
  | blockChan m =>
      match onAcceptBlock c m with
      | (Panic, c) => (Panic, c)
      | (Return _, c) => (Return tt, c)
      end
  | initializationChan m => (Return tt, snd (onInitialization c m))
  | certificateChan certificateMsg => handleCertificateMessage c certificateMsg
  | highestSeenChan height => (Return tt, set_highestSeen height c)
  | verifyCandidateBlockChan r_Params => processCandidateVerificationRequest c r_Params
  | getLastCertificateChan => (Return tt, provideLastCertificate c)
  | getLastCommitteeChan => (Return tt, provideLastCommittee c)
  | ctx_Done => (Return tt, c)
  end.

Definition resetState (c : ChainT) : ChainT :=
  let c := set_p (NewProvisioners E) c in
  set_lastCertificate (Some (EmptyCertificate E)) c.

Definition RebuildResponse : String.string :=
  "Blockchain deleted. Syncing from scratch..."%string.

(** RebuildChain will delete all blocks except for the genesis block,
    to allow for a full re-sync. *)
Definition RebuildChain (c : ChainT) : go (result String.string) * ChainT :=
  (* Halt consensus *)
  let msg := message_New StopConsensus Nil in
  let c := eventBus_Publish StopConsensus msg c in
  (* Remove EVERYTHING from the database. *)
  let '(err, st) := Clear E (loader c) in
  let c := record loader_Clear (set_loader st c) in
  match err with
  | Some err => (Return (Err err), c)
  | None =>
  (* beyond this point, any error encountered is answered by a panic *)
  let '(tipRes, st) := LoadTip E (loader c) in
  let c := record loader_LoadTip (set_loader st c) in
  match tipRes with
  | Err tipErr => (Panic, c)
  | Ok newTip =>
  let c := do_tip_Set newTip c in
  let c := record verifier_PerformSanityCheck c in
  match PerformSanityCheck E (loader c) 0 (SanityCheckHeight E) 0 with
  | Some unrecoverable => (Panic, c)
  | None =>
  (* Reset in-memory values *)
  let c := resetState c in
  (* Clear walletDB *)
  let c := record (rpcBus_Call ClearWalletDatabase []) c in
  match rpcBus_ClearWalletDatabase E [] with
  | Some err => (Panic, c)
  | None => (Return (Ok RebuildResponse), c)
  end end end end.

(** New returns a new chain object: the registrations on the RPC bus,
    the tip loaded from the loader, and for a genesis tip the empty
    certificate (with the committee of the test harness when
    [Genesis.Legacy] is set). *)
Definition New (counter0 : Counter) (loader0 : Storage) : result ChainT :=
  match rpcBus_Register E VerifyCandidateBlock with
  | Some err => Err err
  | None =>
  match rpcBus_Register E GetLastCertificate with
  | Some err => Err err
  | None =>
  match rpcBus_Register E GetLastCommittee with
  | Some err => Err err
  | None =>
  let chain_p := NewProvisioners E in
  let chain_lastCommittee : option (list bytes) := Some [] in
  let '(tipRes, st) := LoadTip E loader0 in
  match tipRes with
  | Err err => Err err
  | Ok prevBlock =>
  let genesis :=
    if Height (BHeader prevBlock) =? 0 then
      if Genesis_Legacy E then
        match setupBidValues E with
        | Some errV => Err errV
        | None =>
            match reconstructCommittee E chain_p prevBlock with
            | (Some errV, _) => Err errV
            | (None, chain_p) => Ok (chain_p, Some (EmptyCertificate E))
            end
        end
      else Ok (chain_p, Some (EmptyCertificate E))
    else Ok (chain_p, None) in
  match genesis with
  | Err err => Err err
  | Ok (chain_p, chain_lastCertificate) =>
  match newLastBlockProvider E prevBlock with
  | Some err => Err err
  | None =>
      Ok (mkChain chain_p counter0 st prevBlock chain_lastCertificate
                  chain_lastCommittee 0 [])
  end end end end end end.

End Chain.

End CurrentChain.

(** ** The sanity check of a block against its parent *)

Module Verifiers.

Section SanityCheck.
Variable ContractCall : Type.
(** The Merkle root of the transactions and the hash of a header are
    computed by packages outside the sources. *)
Variable rootOf : list (option ContractCall) -> bytes.
Variable hashOf : Header -> bytes.

(** Modelled from the spec: the implementation of the [Verifier]
    interface (package verifiers) is not under src/.  Section 4.6,
    step 1: "version = 0, prev_hash equals tip hash, height = tip.height
    + 1, timestamp strictly greater, Merkle root matches, self-hash
    matches", checked in that order. *)
Definition SanityCheckBlock (prevBlock blk : Block ContractCall) : option error :=
  let hdr := BHeader blk in
  let prev := BHeader prevBlock in
  if negb (Version hdr =? 0) then
    Some (errors_New "unsupported block version"%string)
  else if negb (bytes_eqb (PrevBlockHash hdr) (Hash prev)) then
    Some (errors_New "previous block hash does not equal the hash of the tip"%string)
  else if negb (Height hdr =? wrap64 (Height prev + 1)) then
    Some (errors_New "block height is not one plus the height of the tip"%string)
  else if Timestamp hdr <=? Timestamp prev then
    Some (errors_New "block timestamp is not after the timestamp of the tip"%string)
  else if negb (bytes_eqb (TxRoot hdr) (rootOf (Txs blk))) then
    Some (errors_New "merkle root mismatch"%string)
  else if negb (bytes_eqb (Hash hdr) (hashOf hdr)) then
    Some (errors_New "block hash mismatch"%string)
  else None.

End SanityCheck.

End Verifiers.

(** ** Concrete collaborators, used to run the definitions *)

Module Examples.

(** *** Wire format *)

Definition cert1 : Certificate :=
  mkCertificate (repeat x01 33) (repeat x02 33) 3 45 (2 ^ 64 - 1).

Definition header0 : Header :=
  mkHeader 0 0 0 [] [] [] (mkCertificate [] [] 0 0 0) [].

(** A header as it travels: 229 bytes, here all zero. *)
Definition header_bytes : Buffer := make_bytes 229.

(** A transaction decoder that consumes one byte per transaction. *)
Definition oneByteTx : Wire.unmarfunc nat :=
  fun r _ =>
    match r with
    | [] => (Some Encoding.ErrShortBuffer, r)
    | _ :: r' => (None, r')
    end.

(** count 2, then two transaction bytes *)
Definition block_two_txs : Buffer := header_bytes ++ [x02; xaa; xbb].

(** count 0x10000000 = MaxInt32 / 8 + 1, announced by 0xFE *)
Definition block_too_many : Buffer :=
  header_bytes ++ [xfe; x00; x00; x00; x10; xaa].

(** *** Reduction *)

(** An event is the hash it votes for. *)
Definition hashOfVote : option bytes -> Buffer -> option error * Buffer :=
  fun ev hash =>
    match ev with
    | None => (None, hash)
    | Some votedHash => (None, votedHash)
    end.

Definition noHeader : Buffer -> Reduction.consensusState -> option error * Buffer :=
  fun b _ => (None, b).

Definition noVoteSet : Buffer -> Reduction.slice (option bytes) -> option error * Buffer :=
  fun b _ => (None, b).

Definition emptyHash : bytes := make_bytes 32.
Definition someHash : bytes := repeat x07 32.

Definition votes (n : nat) (h : bytes) : Reduction.fetched bytes :=
  Reduction.Collected (Some (repeat (Some h) n)).

Definition state0 : Reduction.consensusState := Reduction.mkState 1 1.

(** Quorum 2; each phase delivers two votes for the same non-empty hash. *)
Definition run_quorum_per_phase :=
  Reduction.begin bytes hashOfVote noHeader noVoteSet 2
    state0 (votes 2 someHash) (votes 2 someHash).

(** Quorum 1; phase 1 delivers two votes for the empty hash, phase 2 one. *)
Definition run_empty_hash :=
  Reduction.begin bytes hashOfVote noHeader noVoteSet 1
    state0 (votes 2 emptyHash) (votes 1 emptyHash).

(** *** Legacy chain *)

(** The database is the list of stored block hashes. *)
Definition legacy_Fetch (d : list bytes) (h : bytes) : option error :=
  if existsb (bytes_eqb h) d then None else Some ErrBlockNotFound.

Definition legacy_Store (d : list bytes) (blk : LegacyChain.Block nat)
  : option error * list bytes :=
  (None, d ++ [LegacyChain.Hash (LegacyChain.BHeader blk)]).

Definition legacy_root (txs : list nat) : result bytes := Ok (make_bytes 32).

Definition legacy_genesis : LegacyChain.Block nat :=
  LegacyChain.mkBlock
    (LegacyChain.mkHeader 0 1000 10 (make_bytes 32) (make_bytes 32) [] []
                          (repeat x0a 32))
    [].

(** A block 5 heights ahead of the tip, not linked to it, and no younger. *)
Definition legacy_bad : LegacyChain.Block nat :=
  LegacyChain.mkBlock
    (LegacyChain.mkHeader 0 1000 15 (repeat xff 32) (make_bytes 32) [] []
                          (repeat x0b 32))
    [].

Definition legacy_chain : LegacyChain.Chain nat (list bytes) :=
  LegacyChain.mkChain nat (list bytes) [repeat x0a 32] legacy_genesis [].

Definition legacy_AcceptBlock :=
  LegacyChain.AcceptBlock nat nat (list bytes) legacy_Fetch legacy_Store
    legacy_root (fun _ => None) (fun n => Some n) (fun _ _ _ _ => None)
    (fun _ => None).

Definition legacy_checkBlockHeader :=
  LegacyChain.checkBlockHeader nat (list bytes) legacy_root.

(** *** Current chain *)

Definition emptyCert : Certificate :=
  mkCertificate (make_bytes 33) (make_bytes 33) 0 0 0.

Definition rootOf (txs : list (option nat)) : bytes := make_bytes 32.
Definition hashOf (h : Header) : bytes := repeat (byte_of_Z (Height h + 10)) 32.

Definition genesis : Block nat :=
  mkBlock (mkHeader 0 0 0 (make_bytes 32) (make_bytes 33) (make_bytes 32)
                    emptyCert (repeat x0a 32)) [].

Definition cert45 : Certificate :=
  mkCertificate (repeat x01 33) (repeat x02 33) 2 (2 ^ 45 - 1) (2 ^ 45 - 1).

(** A well-formed successor of the genesis block. *)
Definition block1 : Block nat :=
  mkBlock (mkHeader 0 1 5 (repeat x0a 32) (repeat x03 33) (make_bytes 32)
                    cert45 (repeat x0b 32)) [Some 7%nat].

(** The same block with the timestamp of the tip. *)
Definition block1_stale : Block nat :=
  mkBlock (mkHeader 0 1 0 (repeat x0a 32) (repeat x03 33) (make_bytes 32)
                    cert45 (repeat x0b 32)) [Some 7%nat].


(** The collaborators: a counter of the blocks still to fetch, a loader
    over a list of blocks whose [Append] can be made to fail, an executor
    that knows three provisioners before the block and four after, a
    certificate check that wants a signed bitmap, and a wallet whose
    clearing can be made to fail. *)
Definition env (appendFails walletFails : bool)
  : CurrentChain.Collaborators nat (list nat) Z (list (Block nat)) :=
  CurrentChain.mkCollaborators nat (list nat) Z (list (Block nat))
    [] emptyCert
    (fun n => 0 <? n)
    (fun n => if 0 <? n then n - 1 else n)
    (fun st => (Ok (last st genesis),
                match st with [] => [genesis] | _ => st end))
    (fun st => (None, []))
    (fun st blk => if appendFails then (Some (External 5), st)
                   else (None, st ++ [blk]))
    (fun _ _ _ _ => None)
    (Verifiers.SanityCheckBlock nat rootOf hashOf)
    0
    (Ok [1; 2; 3]%nat)
    (fun _ _ => None)
    (fun _ _ => ([1; 2; 3; 4]%nat, None))
    (fun _ blk => if StepOneCommittee (HCertificate (BHeader blk)) =? 0
                  then Some (External 7) else None)
    (fun buf items => (None, buf ++ List.concat (map snd items)))
    (fun buf _ => (None, x0e :: buf))
    (fun _ => None)
    (fun _ => Err (External 9))
    (fun _ => if walletFails then Some (External 11) else None)
    (fun _ => None)
    false
    None
    (fun ps _ => (None, ps)).


Definition chainAt (blocksRemaining : Z)
  : CurrentChain.Chain nat (list nat) Z (list (Block nat)) :=
  CurrentChain.mkChain [1%nat] blocksRemaining [genesis] genesis
                       (Some emptyCert) (Some []) 0 [].

Definition blockMsg (blk : Block nat) : CurrentChain.Message nat (list nat) :=
  CurrentChain.message_New CurrentChain.BlockTopic (CurrentChain.OfBlock blk).

End Examples.

(** ** Package message: marshalling a whole block *)

Module WireBlock.

(** Modelled from the spec: [encoding.WriteVarInt] is not under src/.
    "VarInt follows the Bitcoin convention (0xFD/0xFE/0xFF prefix)": a value
    below 0xFD is one byte; up to 16, 32 and 64 bits it is the prefix 0xFD,
    0xFE, 0xFF and the value, little-endian. *)
Definition WriteVarInt (r : Buffer) (v : Z) : option error * Buffer :=
  if v <? 253 then Encoding.WriteUint8 r v
  else if v <=? 65535 then (None, r ++ xfd :: le_encode 2 v)
  else if v <=? 4294967295 then (None, r ++ xfe :: le_encode 4 v)
  else (None, r ++ xff :: le_encode 8 v).

Section MarshalBlock.
Variable ContractCall : Type.

(** [MarshalTx] is outside the sources. *)
Variable MarshalTx : Buffer -> option ContractCall -> option error * Buffer.

(** [for _, tx := range b.Txs { if err := MarshalTx(r, tx) ... }] *)
Fixpoint marshalTxs (r : Buffer) (txs : list (option ContractCall))
  : option error * Buffer :=
  match txs with
  | [] => (None, r)
  | tx :: rest =>
      match MarshalTx r tx with
      | (Some err, r) => (Some err, r)
      | (None, r) => marshalTxs r rest
      end
  end.

(** MarshalBlock marshals a block into a binary buffer *)
Definition MarshalBlock (r : Buffer) (b : Block ContractCall)
  : option error * Buffer :=
  match Wire.MarshalHeader r (BHeader b) with
  | (Some err, r) => (Some err, r)
  | (None, r) =>
      let lenTxs := to_uint64 (Z.of_nat (List.length (Txs b))) in
      match WriteVarInt r lenTxs with
      | (Some err, r) => (Some err, r)
      | (None, r) => marshalTxs r (Txs b)
      end
  end.

End MarshalBlock.

(** The values a Go header can hold: Version uint8, Height uint64,
    Timestamp int64, with the byte fields at their wire lengths. *)
Definition Header_typed (h : Header) : Prop :=
  is_uint8 (Version h) /\ is_uint64 (Height h)
  /\ - 2 ^ 63 <= Timestamp h < 2 ^ 63
  /\ List.length (PrevBlockHash h) = 32%nat
  /\ List.length (Seed h) = 33%nat
  /\ List.length (TxRoot h) = 32%nat
  /\ List.length (Hash h) = 32%nat
  /\ List.length (StepOneBatchedSig (HCertificate h)) = 33%nat
  /\ List.length (StepTwoBatchedSig (HCertificate h)) = 33%nat
  /\ Certificate_typed (HCertificate h).

(** The bytes of a header on the wire, field by field. *)
Definition header_bytes (h : Header) : bytes :=
  [byte_of_Z (Version h)] ++ le_encode 8 (Height h)
  ++ le_encode 8 (to_uint64 (Timestamp h))
  ++ PrevBlockHash h ++ Seed h ++ TxRoot h
  ++ certificate_bytes (HCertificate h) ++ Hash h.

End WireBlock.

(** ** The legacy chain: forging a candidate (blockverification.go) *)

Module LegacyForge.

Section Forge.
Variable Payload : Type.
Variable Transaction : Type.
Variable DB : Type.
Variable merkleRoot : list Payload -> result bytes.
(** [b.SetHash()] computes the hash of the header. *)
Variable hashOf : LegacyChain.Header -> result bytes.
Variable checkMultiCoinbases : list Payload -> option error.
Variable asTransaction : Payload -> option Transaction.
Variable verifyTX : DB -> Z -> Z -> Transaction -> option error.

Definition set_Hash (hash : bytes) (h : LegacyChain.Header) : LegacyChain.Header :=
  LegacyChain.mkHeader (LegacyChain.Version h) (LegacyChain.Timestamp h)
    (LegacyChain.Height h) (LegacyChain.PrevBlock h) (LegacyChain.TxRoot h)
    (LegacyChain.Seed h) (LegacyChain.CertHash h) hash.

Definition SetHash (blk : LegacyChain.Block Payload)
  : option error * LegacyChain.Block Payload :=
  match hashOf (LegacyChain.BHeader blk) with
  | Err e => (Some e, blk)
  | Ok hash =>
      (None, LegacyChain.mkBlock (set_Hash hash (LegacyChain.BHeader blk))
                                 (LegacyChain.Txs blk))
  end.

(** The header [ForgeCandidateBlock] starts from; the slices left nil in
    the Go literal are empty. *)
Definition forgedHeader (c : LegacyChain.Chain Payload DB) (now : Z)
  : LegacyChain.Header :=
  let prev := LegacyChain.BHeader (LegacyChain.PrevBlockOf Payload DB c) in
  let nextHeight := wrap64 (LegacyChain.Height prev + 1) in
  let prevHash := LegacyChain.Hash prev in
  LegacyChain.mkHeader 0 now nextHeight prevHash [] [] [] [].

(** ForgeCandidateBlock has the knowledge to forge the next block to
    propose; [txs] is what [c.m.GetVerifiedTxs()] returns and [now] what
    [time.Now().Unix()] returns. *)
Definition ForgeCandidateBlock (c : LegacyChain.Chain Payload DB)
    (txs : list Payload) (now : Z) : result (LegacyChain.Block Payload) :=
  let b := LegacyChain.mkBlock (forgedHeader c now) txs in
  (* Update TxRoot *)
  match LegacyChain.SetRoot Payload merkleRoot b with
  | (Some err, _) => Err err
  | (None, b) =>
  (* Generate the block hash *)
  match SetHash b with
  | (Some err, _) => Err err
  | (None, b) =>
  (* Ensure the forged block satisfies all chain rules *)
  match LegacyChain.verifyBlock Payload Transaction DB merkleRoot
          checkMultiCoinbases asTransaction verifyTX c b with
  | (Some err, _) => Err err
  | (None, b) => Ok b
  end end end.

End Forge.

End LegacyForge.

(** ** The chain of unnamed/part_000 (verifiers.CheckBlock, consensus nodes) *)

Module MidChain.

(** [transactions.Output], [transactions.Stake], [transactions.Bid]: the
    fields the chain reads. *)
Record Output : Type := mkOutput { Commitment : bytes }.

Record Stake : Type := mkStake {
  PubKeyEd : bytes;
  PubKeyBLS : bytes;
  StakeOutputs : list Output
}.

Record Bid : Type := mkBid {
  M : bytes;
  BidOutputs : list Output
}.

(** A transaction by its [Type()]: a stake, a bid, or any other type. *)
Inductive Transaction : Type :=
| StakeTx (stake : Stake)
| BidTx (bid : Bid)
| OtherTx (outputs : list Output).

(** [tx.StandardTX().Outputs] *)
Definition Outputs (tx : Transaction) : list Output :=
  match tx with
  | StakeTx s => StakeOutputs s
  | BidTx b => BidOutputs b
  | OtherTx outs => outs
  end.

Record Block : Type := mkBlock {
  MHeader : Header;
  MTxs : list Transaction
}.

(** The topics published on: the constants of package msg are strings,
    those of package topics are outside the sources. *)
Inductive Topic : Type :=
| msg (name : String.string)
| AcceptedBlock
| Gossip
| Inv.

Definition NewProvisionerTopic : Topic := msg "newprovisioner"%string.
Definition BidListTopic : Topic := msg "bidlistTopic"%string.

(** The calls the chain makes on the event bus and the database. *)
Inductive call : Type :=
| Publish (t : Topic) (buf : Buffer)
| Stream (t : Topic) (buf : Buffer)
| StoreBlock (blk : Block)
| DeleteCandidateBlocks (height : Z)
| StoreCandidateBlock (blk : Block).

Section Chain.
Variable DB : Type.
Variable db_StoreBlock : DB -> Block -> option error * DB.
Variable db_DeleteCandidateBlocks : DB -> Z -> result Z * DB.
Variable db_StoreCandidateBlock : DB -> Block -> option error * DB.
Variable db_FetchCandidateBlock : DB -> bytes -> result Block.
(** [verifiers.CheckBlock(db, prevBlock, blk)] and
    [verifiers.CheckBlockCertificate(committee, blk)] *)
Variable CheckBlock : DB -> Block -> Block -> option error.
Variable CheckBlockCertificate : Block -> option error.
(** [blk.Encode], [blk.Decode], [peermsg.Inv.Encode], [wire.AddTopic],
    [encoding.WriteVarBytes] *)
Variable Encode : Block -> result Buffer.
Variable Decode : Buffer -> result Block.
Variable Inv_Encode : Buffer -> list (CurrentChain.InvType * bytes) -> option error * Buffer.
Variable AddTopic : Buffer -> Topic -> result Buffer.
Variable WriteVarBytes : Buffer -> bytes -> option error * Buffer.
(** [big.NewInt(0).SetBytes(commitment).Uint64()] *)
Variable commitmentAmount : bytes -> Z.
(** [zkproof.CalculateX] on the scalars of the amount and of [m], as the
    32 bytes of a bid. *)
Variable zkproof_CalculateX : Z -> bytes -> bytes.

Record Chain : Type := mkChain {
  db : DB;
  prevBlock : Block;
  calls : list call
}.

Definition record (e : call) (c : Chain) : Chain :=
  mkChain (db c) (prevBlock c) (calls c ++ [e]).

(** [totalAmount += amount] over the outputs, in uint64. *)
Definition getTxTotalOutputAmount (tx : Transaction) : Z :=
  fold_left (fun totalAmount output =>
               wrap64 (totalAmount + commitmentAmount (Commitment output)))
            (Outputs tx) 0.

Definition calculateX (d : Z) (m : bytes) : bytes := zkproof_CalculateX d m.

(** [addProvisioner]; [encoding.WriteUint64(buffer, binary.LittleEndian, v)]
    is the little-endian writer of package encoding. *)
Definition addProvisioner (c : Chain) (tx : Stake) (startHeight : Z)
  : option error * Chain :=
  let buffer : Buffer := PubKeyEd tx in
  match WriteVarBytes buffer (PubKeyBLS tx) with
  | (Some err, _) => (Some err, c)
  | (None, buffer) =>
      let totalAmount := getTxTotalOutputAmount (StakeTx tx) in
      match Encoding.WriteUint64LE buffer totalAmount with
      | (Some err, _) => (Some err, c)
      | (None, buffer) =>
          match Encoding.WriteUint64LE buffer startHeight with
          | (Some err, _) => (Some err, c)
          | (None, buffer) => (None, record (Publish NewProvisionerTopic buffer) c)
          end
      end
  end.

Definition propagateBidList (c : Chain) (bids : list bytes) : Chain :=
  let bidListBytes := List.concat bids in
  record (Publish BidListTopic bidListBytes) c.

(** [bids := &user.BidList{}; bids.AddBid(x)]: the list holding [x]. *)
Definition addBidder (c : Chain) (tx : Bid) : option error * Chain :=
  let totalAmount := getTxTotalOutputAmount (BidTx tx) in
  let x := calculateX totalAmount (M tx) in
  let bids := [x] in
  (None, propagateBidList c bids).

(** [addConsensusNodes]: the errors are only logged. *)
Fixpoint addConsensusNodes (c : Chain) (txs : list Transaction)
    (provisionerStartHeight : Z) : Chain :=
  match txs with
  | [] => c
  | tx :: rest =>
      let c :=
        match tx with
        | StakeTx stake => snd (addProvisioner c stake provisionerStartHeight)
        | BidTx bid => snd (addBidder c bid)
        | OtherTx _ => c
        end in
      addConsensusNodes c rest provisionerStartHeight
  end.

(** Send Inventory message to all peers *)
Definition advertiseBlock (c : Chain) (b : Block) : go (option error) * Chain :=
  let items := [(CurrentChain.InvTypeBlock, Hash (MHeader b))] in
  match Inv_Encode [] items with
  | (Some err, _) => (Panic, c)
  | (None, buf) =>
      match AddTopic buf Inv with
      | Err err => (Return (Some err), c)
      | Ok withTopic => (Return None, record (Stream Gossip withTopic) c)
      end
  end.

(** AcceptBlock will accept a block if
    1. We have not seen it before
    2. All stateless and statefull checks are true
    Returns nil, if checks passed and block was successfully saved *)
Definition AcceptBlock (c : Chain) (blk : Block) : go (option error) * Chain :=
  (* 1. Check that stateless and stateful checks pass *)
  match CheckBlock (db c) (prevBlock c) blk with
  | Some err => (Return (Some err), c)
  | None =>
  (* 2. Check the certificate *)
  match CheckBlockCertificate blk with
  | Some err => (Return (Some err), c)
  | None =>
  (* 3. Add provisioners and block generators *)
  let c := addConsensusNodes c (MTxs blk) (wrap64 (Height (MHeader blk) + 1)) in
  (* 4. Store block in database *)
  let '(err, d) := db_StoreBlock (db c) blk in
  let c := record (StoreBlock blk) (mkChain d (prevBlock c) (calls c)) in
  match err with
  | Some err => (Return (Some err), c)
  | None =>
  let c := mkChain (db c) blk (calls c) in
  (* 5. Notify other subsystems for the accepted block *)
  match Encode blk with
  | Err err => (Return (Some err), c)
  | Ok buf =>
  let c := record (Publish AcceptedBlock buf) c in
  (* 6. Gossip advertise block Hash *)
  match advertiseBlock c blk with
  | (Panic, c) => (Panic, c)
  | (Return (Some err), c) => (Return (Some err), c)
  | (Return None, c) =>
  (* 7. Cleanup obsolete candidate blocks; a failure is not critical
     enough to abort the accepting procedure *)
  let '(_, d) := db_DeleteCandidateBlocks (db c) (Height (MHeader blk)) in
  let c := record (DeleteCandidateBlocks (Height (MHeader blk)))
                  (mkChain d (prevBlock c) (calls c)) in
  (Return None, c)
  end end end end end.

Definition onAcceptBlock (c : Chain) (m : Buffer) : go (option error) * Chain :=
  match Decode m with
  | Err err => (Return (Some err), c)
  | Ok blk => AcceptBlock c blk
  end.

Definition handleCandidateBlock (c : Chain) (candidate : Block)
  : option error * Chain :=
  (* Ensure the candidate block satisfies all chain rules *)
  match CheckBlock (db c) (prevBlock c) candidate with
  | Some err => (Some err, c)
  | None =>
      (* Save it into persistent storage *)
      let '(err, d) := db_StoreCandidateBlock (db c) candidate in
      (err, record (StoreCandidateBlock candidate)
                   (mkChain d (prevBlock c) (calls c)))
  end.

(** [addCertificate]: the result of [AcceptBlock] is dropped. *)
Definition addCertificate (c : Chain) (blockHash : bytes) (cert : Certificate)
  : go unit * Chain :=
  match db_FetchCandidateBlock (db c) blockHash with
  | Err err => (Return tt, c)
  | Ok candidate =>
      let candidate :=
        mkBlock (Wire.set_Certificate cert (MHeader candidate)) (MTxs candidate) in
      match AcceptBlock c candidate with
      | (Panic, c) => (Panic, c)
      | (Return _, c) => (Return tt, c)
      end
  end.

End Chain.

End MidChain.

(** ** Package wire: the step event collector (unnamed/part_006) *)

Module StepCollector.

Section Collector.
(** [wire.Event] is an interface; [Equal] is its method. *)
Variable Event : Type.
Variable Equal : Event -> Event -> bool.

(** [type StepEventCollector map[uint8][]Event]: a step without an entry
    reads as the nil slice. *)
Definition StepEventCollector : Type := Z -> option (list Event).

(** [sec[step]], ranged over or measured. *)
Definition at_step (sec : StepEventCollector) (step : Z) : list Event :=
  match sec step with
  | None => []
  | Some eventList => eventList
  end.

(** The collector [make] returns. *)
Definition empty : StepEventCollector := fun _ => None.

(** Clear up the Collector *)
Definition Clear (sec : StepEventCollector) : StepEventCollector :=
  fun _ => None.

(** Contains checks if we already collected this event *)
Definition Contains (sec : StepEventCollector) (event : Event) (step : Z) : bool :=
  existsb (fun stored => Equal event stored) (at_step sec step).

(** Store the Event keeping track of the step it belongs to. It silently
    ignores duplicates. It returns the number of events stored at specified
    step after the store operation *)
Definition Store (sec : StepEventCollector) (event : Event) (step : Z)
  : Z * StepEventCollector :=
  let eventList := sec step in
  if Contains sec event step then
    (Z.of_nat (List.length (at_step sec step)), sec)
  else
    let eventList :=
      match eventList with
      | None => []
      | Some l => l
      end in
    (* storing the agreement vote for the proper step *)
    let eventList := eventList ++ [event] in
    (Z.of_nat (List.length eventList),
     fun k => if k =? step then Some eventList else sec k).

(** A run of stores, in order. *)
Definition storeAll (sec : StepEventCollector) (events : list (Event * Z))
  : StepEventCollector :=
  fold_left (fun sec ev => snd (Store sec (fst ev) (snd ev))) events sec.

(** No event of the list is [Equal] to one stored before it. *)
Fixpoint no_repeat_rev (stored_rev : list Event) : bool :=
  match stored_rev with
  | [] => true
  | latest :: earlier =>
      negb (existsb (fun stored => Equal latest stored) (rev earlier))
      && no_repeat_rev earlier
  end.

Definition no_repeat (stored : list Event) : bool := no_repeat_rev (rev stored).

End Collector.

End StepCollector.

(** ** Package stakeautomaton (stakeautomaton.go) *)

Module StakeAutomaton.

(** [node.StakeRequest] *)
Record StakeRequest : Type := mkStakeRequest {
  Amount : Z;
  Fee : Z;
  Locktime : Z
}.

(** The configuration read: [config.Get().Consensus], [config.MaxLockTime],
    [config.MinFee] and [wallet.DUSK], all uint64. *)
Record Config : Type := mkConfig {
  DefaultAmount : Z;
  DefaultLockTime : Z;
  MaxLockTime : Z;
  MinFee : Z;
  DUSK : Z
}.

(** The automaton: the height of the last round update, the height at
    which the stake ends, and the requests sent on the RPC bus so far. *)
Record Automaton : Type := mkAutomaton {
  height : Z;
  stakeEndHeight : Z;
  running : bool;
  requests : list StakeRequest
}.

(** How many blocks away from expiration the transactions should be
    renewed. *)
Definition renewalOffset : Z := 100.

(** [%v] of a uint64 *)
Definition fmt_v (z : Z) : String.string :=
  DecimalString.NilEmpty.string_of_uint (N.to_uint (Z.to_N z)).

Section Automaton.
Variable cfg : Config.
(** [rpcBus.Call(topics.SendStakeTx, ...)]: the answer may depend on how
    many requests were made before. *)
Variable rpcBus_SendStakeTx : nat -> StakeRequest -> option error.

Definition New : Automaton := mkAutomaton 0 1 false [].

Definition getTxSettings : Z * Z :=
  let amount := DefaultAmount cfg in
  let lockTime := DefaultLockTime cfg in
  let lockTime := if lockTime >? MaxLockTime cfg then MaxLockTime cfg else lockTime in
  (* Convert amount from atomic units to whole units of DUSK *)
  let amount := wrap64 (amount * DUSK cfg) in
  (amount, lockTime).

Definition sendStake (m : Automaton) : option error * Automaton :=
  let '(amount, lockTime) := getTxSettings in
  if (amount =? 0) || (lockTime =? 0) then
    (Some (errors_New
             (String.append "invalid settings: amount: "
                (String.append (fmt_v amount)
                   (String.append " / locktime: " (fmt_v lockTime))))), m)
  else
    let req := mkStakeRequest amount (MinFee cfg) lockTime in
    let answer := rpcBus_SendStakeTx (List.length (requests m)) req in
    let m := mkAutomaton (height m) (stakeEndHeight m) (running m)
                         (requests m ++ [req]) in
    match answer with
    | Some err => (Some err, m)
    | None =>
        (None, mkAutomaton (height m) (wrap64 (lockTime + height m))
                           (running m) (requests m))
    end.

(** The body of the loop of [Listen] for one round update. *)
Definition onRoundUpdate (m : Automaton) (round : Z) : Automaton :=
  let m := mkAutomaton round (stakeEndHeight m) (running m) (requests m) in
  if wrap64 (height m + renewalOffset) >=? stakeEndHeight m then
    snd (sendStake m)
  else m.

(** Listen to round updates and takes the proper decision Stake-wise *)
Definition Listen (m : Automaton) (rounds : list Z) : Automaton :=
  fold_left onRoundUpdate rounds m.

End Automaton.

End StakeAutomaton.

(** ** Package generator of rangeproof (generator.go) *)

Module Generators.

Section Generator.
(** [ristretto.Point] with [Derive] and [Bytes]. *)
Variable Point : Type.
Variable Derive : bytes -> Point.
Variable Bytes : Point -> bytes.

Record Generator : Type := mkGenerator {
  data : bytes;
  Bases : list Point
}.

(** New will generate a generator which will use data to generate points *)
Definition New (data0 : bytes) : Generator := mkGenerator data0 [].

(** Clear will clear all of the Bases *)
Definition Clear (g : Generator) : Generator := mkGenerator (data g) [].

(** Iterate will generate a new point using the previous point's bytes as
    a seed or the original nonce data, if no previous point is available *)
Definition Iterate (g : Generator) : Point :=
  match rev (Bases g) with
  | [] => Derive (data g)
  | prevPoint :: _ => Derive (Bytes prevPoint)
  end.

(** [for i := uint32(0); i < num; i++ { g.Bases = append(g.Bases, g.Iterate()) }] *)
Fixpoint iterate_n (n : nat) (g : Generator) : Generator :=
  match n with
  | O => g
  | S k => iterate_n k (mkGenerator (data g) (Bases g ++ [Iterate g]))
  end.

(** Compute will generate num amount of points; [num] is a uint32. *)
Definition Compute (g : Generator) (num : Z) : Generator :=
  iterate_n (Z.to_nat num) g.

End Generator.

End Generators.

(** ** Package kadcli: the writer (unnamed/part_007) *)

Module Kadcli.

(** The calls made on the rusk network client. *)
Inductive call : Type :=
| Broadcast (KadcastHeight : Z) (Message : bytes)
| Send (TargetAddress : bytes) (Message : bytes).

Section Writer.
Variable cli_Broadcast : Z -> bytes -> option error.
Variable cli_Send : bytes -> bytes -> option error.

Definition ErrEmptyHeader : error := errors_New "empty message header"%string.

(** BroadcastPacket passes a message to the kadkast peer to be
    broadcasted; [uint32(maxHeight)] of a byte. *)
Definition broadcastPacket (maxHeight : byte) (payload : bytes)
  : option error * list call :=
  let h := Z_of_byte maxHeight in
  (cli_Broadcast h payload, [Broadcast h payload]).

(** sendPacket passes a message to the kadkast peer to be sent to a peer. *)
Definition sendPacket (addr : bytes) (payload : bytes)
  : option error * list call :=
  (cli_Send addr payload, [Send addr payload]).

(** WriteToAll broadcasts message to the entire network. *)
Definition WriteToAll (data header : bytes) (priority : byte)
  : option error * list call :=
  match header with
  | [] => (Some ErrEmptyHeader, [])
  | height :: _ => broadcastPacket height data
  end.

(** WriteToPoint writes a message to a single destination; the address is
    [string(header)]. *)
Definition WriteToPoint (data header : bytes) (priority : byte)
  : option error * list call :=
  match header with
  | [] => (Some ErrEmptyHeader, [])
  | _ => sendPacket header data
  end.

(** Write sends a message through the Kadcast gRPC interface.  The send
    runs in a goroutine whose error is only logged; the calls it makes are
    returned beside the result of [Write]. *)
Definition Write (data header : bytes) (priority : byte)
  : (Z * option error) * list call :=
  if Nat.eqb (List.length header) 0 then ((0, Some ErrEmptyHeader), [])
  else
    let sent1 :=
      if Nat.ltb 1 (List.length header) then snd (WriteToPoint data header priority)
      else [] in
    let sent2 :=
      if Nat.eqb (List.length header) 1 then snd (WriteToAll data header priority)
      else [] in
    ((0, None), sent1 ++ sent2).

End Writer.

End Kadcli.

(** ** Further concrete collaborators, used to run the definitions *)

Module MoreExamples.

(** *** Wire format *)

(** A transaction travels as one byte. *)
Definition encTx (tx : option nat) : bytes :=
  match tx with
  | None => [x00]
  | Some n => [byte_of_Z (Z.of_nat n)]
  end.

Definition marshalOneByteTx (r : Buffer) (tx : option nat)
  : option error * Buffer :=
  (None, r ++ encTx tx).

(** *** Legacy chain *)

(** A well-formed successor of the legacy genesis block. *)
Definition legacy_good : LegacyChain.Block nat :=
  LegacyChain.mkBlock
    (LegacyChain.mkHeader 0 1001 11 (repeat x0a 32) (make_bytes 32) [] []
                          (repeat x0b 32))
    [3%nat; 4%nat].

(** The same successor announcing a Merkle root that is not the root of
    its transactions. *)
Definition legacy_wrong_root : LegacyChain.Block nat :=
  LegacyChain.mkBlock
    (LegacyChain.mkHeader 0 1001 11 (repeat x0a 32) (repeat x01 32) [] []
                          (repeat x0d 32))
    [3%nat; 4%nat].

Definition legacy_hashOf (h : LegacyChain.Header) : result bytes :=
  Ok (repeat x0c 32).

Definition legacy_verifyBlock :=
  LegacyChain.verifyBlock nat nat (list bytes) Examples.legacy_root
    (fun _ => None) (fun n => Some n) (fun _ _ _ _ => None).

Definition legacy_ForgeCandidateBlock :=
  LegacyForge.ForgeCandidateBlock nat nat (list bytes) Examples.legacy_root
    legacy_hashOf (fun _ => None) (fun n => Some n) (fun _ _ _ _ => None).

(** *** Current chain *)

(** The collaborators of [Examples.env] with a loader that cannot be
    cleared. *)
Definition envClearFails
  : CurrentChain.Collaborators nat (list nat) Z (list (Block nat)) :=
  CurrentChain.mkCollaborators nat (list nat) Z (list (Block nat))
    [] Examples.emptyCert
    (fun n => 0 <? n)
    (fun n => if 0 <? n then n - 1 else n)
    (fun st => (Ok (last st Examples.genesis),
                match st with [] => [Examples.genesis] | _ => st end))
    (fun st => (Some (External 13), st))
    (fun st blk => (None, st ++ [blk]))
    (fun _ _ _ _ => None)
    (Verifiers.SanityCheckBlock nat Examples.rootOf Examples.hashOf)
    0
    (Ok [1; 2; 3]%nat)
    (fun _ _ => None)
    (fun _ _ => ([1; 2; 3; 4]%nat, None))
    (fun _ blk => if StepOneCommittee (HCertificate (BHeader blk)) =? 0
                  then Some (External 7) else None)
    (fun buf items => (None, buf ++ List.concat (map snd items)))
    (fun buf _ => (None, x0e :: buf))
    (fun _ => None)
    (fun _ => Err (External 9))
    (fun _ => None)
    (fun _ => None)
    false
    None
    (fun ps _ => (None, ps)).

(** The collaborators of [Examples.env] with an RPC bus that answers
    GetCandidate with something that is not a candidate. *)
Definition envNoCandidate
  : CurrentChain.Collaborators nat (list nat) Z (list (Block nat)) :=
  CurrentChain.mkCollaborators nat (list nat) Z (list (Block nat))
    [] Examples.emptyCert
    (fun n => 0 <? n)
    (fun n => if 0 <? n then n - 1 else n)
    (fun st => (Ok (last st Examples.genesis),
                match st with [] => [Examples.genesis] | _ => st end))
    (fun st => (None, []))
    (fun st blk => (None, st ++ [blk]))
    (fun _ _ _ _ => None)
    (Verifiers.SanityCheckBlock nat Examples.rootOf Examples.hashOf)
    0
    (Ok [1; 2; 3]%nat)
    (fun _ _ => None)
    (fun _ _ => ([1; 2; 3; 4]%nat, None))
    (fun _ blk => if StepOneCommittee (HCertificate (BHeader blk)) =? 0
                  then Some (External 7) else None)
    (fun buf items => (None, buf ++ List.concat (map snd items)))
    (fun buf _ => (None, x0e :: buf))
    (fun _ => None)
    (fun _ => Ok CurrentChain.NotCandidate)
    (fun _ => None)
    (fun _ => None)
    false
    None
    (fun ps _ => (None, ps)).

(** A chain whose storage already holds a block above the genesis. *)
Definition storedChain : list (Block nat) := [Examples.genesis; Examples.block1].

Definition certMsg1 : CurrentChain.certMsg :=
  CurrentChain.mkCertMsg (repeat x0b 32) Examples.cert45 (Some [[x01]; [x02]]).

(** *** The chain of unnamed/part_000 *)

(** The database counts the stored blocks; storing can be made to fail. *)
Definition mid_StoreBlock (storeFails : bool) (d : nat) (blk : MidChain.Block)
  : option error * nat :=
  if storeFails then (Some (External 21), d) else (None, S d).

Definition mid_DeleteCandidateBlocks (d : nat) (height : Z) : result Z * nat :=
  (Ok 0, d).

(** A block is checked to sit right above the previous one, and to carry a
    certificate with a first-step committee. *)
Definition mid_CheckBlock (d : nat) (prev blk : MidChain.Block) : option error :=
  if Height (MidChain.MHeader blk) =? wrap64 (Height (MidChain.MHeader prev) + 1)
  then None else Some (External 22).

Definition mid_CheckBlockCertificate (blk : MidChain.Block) : option error :=
  if StepOneCommittee (HCertificate (MidChain.MHeader blk)) =? 0
  then Some (External 23) else None.

Definition mid_Encode (blk : MidChain.Block) : result Buffer :=
  Ok (Hash (MidChain.MHeader blk)).

Definition mid_Inv_Encode (buf : Buffer) (items : list (CurrentChain.InvType * bytes))
  : option error * Buffer :=
  (None, buf ++ List.concat (map snd items)).

Definition mid_AddTopic (buf : Buffer) (t : MidChain.Topic) : result Buffer :=
  Ok (x0e :: buf).

Definition mid_WriteVarBytes (buf : Buffer) (b : bytes) : option error * Buffer :=
  (None, buf ++ byte_of_Z (Z.of_nat (List.length b)) :: b).

(** A commitment of one byte holds the amount. *)
Definition mid_commitmentAmount (commitment : bytes) : Z :=
  match commitment with
  | [] => 0
  | b :: _ => Z_of_byte b
  end.

Definition mid_CalculateX (d : Z) (m : bytes) : bytes :=
  byte_of_Z d :: m.

Definition mid_stake : MidChain.Stake :=
  MidChain.mkStake [x01] [x02; x03]
    [MidChain.mkOutput [x05]; MidChain.mkOutput [x06]].

Definition mid_bid : MidChain.Bid :=
  MidChain.mkBid [x09] [MidChain.mkOutput [x04]].

Definition mid_genesis : MidChain.Block :=
  MidChain.mkBlock (BHeader Examples.genesis) [].

Definition mid_block1 : MidChain.Block :=
  MidChain.mkBlock (BHeader Examples.block1)
    [MidChain.StakeTx mid_stake; MidChain.OtherTx []; MidChain.BidTx mid_bid].

(** A block that skips a height. *)
Definition mid_block5 : MidChain.Block :=
  MidChain.mkBlock
    (mkHeader 0 5 9 (repeat x0a 32) (repeat x03 33) (make_bytes 32)
              Examples.cert45 (repeat x0c 32)) [].

Definition mid_chain : MidChain.Chain nat :=
  MidChain.mkChain nat 0%nat mid_genesis [].

Definition mid_AcceptBlock (storeFails : bool) :=
  MidChain.AcceptBlock nat (mid_StoreBlock storeFails) mid_DeleteCandidateBlocks
    mid_CheckBlock mid_CheckBlockCertificate mid_Encode mid_Inv_Encode
    mid_AddTopic mid_WriteVarBytes mid_commitmentAmount mid_CalculateX.

(** *** The step event collector *)

(** Events are numbers, equal when they are the same number. *)
Definition collected : StepCollector.StepEventCollector Z :=
  StepCollector.storeAll Z Z.eqb (StepCollector.empty Z) [(5, 1); (6, 1); (5, 2)].

(** *** The stake automaton *)

Definition stakeCfg : StakeAutomaton.Config :=
  StakeAutomaton.mkConfig 50 1000 250000 100 100000000.

Definition stakeReq : StakeAutomaton.StakeRequest :=
  StakeAutomaton.mkStakeRequest 5000000000 100 1000.

(** An RPC bus on which the first request fails. *)
Definition rpcFirstFails (n : nat) (req : StakeAutomaton.StakeRequest)
  : option error :=
  match n with
  | O => Some (External 31)
  | S _ => None
  end.

Definition rpcAccepts (n : nat) (req : StakeAutomaton.StakeRequest)
  : option error := None.

Definition rpcRefuses (n : nat) (req : StakeAutomaton.StakeRequest)
  : option error := Some (External 31).

(** *** The generator *)

(** Points are byte strings; deriving prefixes a byte. *)
Definition derive (seed : bytes) : bytes := x01 :: seed.

Definition generator0 : Generators.Generator bytes := Generators.New bytes [x07].

End MoreExamples.

(** * Properties *)

(** ** Bytes and little-endian integers *)

Lemma Z_of_byte_range (b : byte) : 0 <= Z_of_byte b < 256.
Proof.
  unfold Z_of_byte. pose proof (Byte.to_N_bounded b). lia.
Qed.

Lemma byte_of_Z_of_byte (b : byte) : byte_of_Z (Z_of_byte b) = b.
Proof.
  unfold byte_of_Z. pose proof (Z_of_byte_range b) as Hb.
  rewrite Z.mod_small by exact Hb.
  unfold Z_of_byte. rewrite N2Z.id, Byte.of_to_N. reflexivity.
Qed.

Lemma Z_of_byte_of_Z (z : Z) : Z_of_byte (byte_of_Z z) = z mod 256.
Proof.
  unfold byte_of_Z.
  pose proof (Z.mod_pos_bound z 256 ltac:(lia)) as Hm.
  destruct (Byte.of_N (Z.to_N (z mod 256))) as [b|] eqn:Hof.
  - apply Byte.to_of_N in Hof. unfold Z_of_byte. rewrite Hof. lia.
  - apply Byte.of_N_None_iff in Hof. lia.
Qed.

Lemma le_encode_length (n : nat) (v : Z) : List.length (le_encode n v) = n.
Proof.
  revert v. induction n as [|n IH]; intros v; simpl; [reflexivity|].
  now rewrite IH.
Qed.

Lemma le_decode_encode (n : nat) :
  forall v, 0 <= v < 256 ^ Z.of_nat n -> le_decode (le_encode n v) = v.
Proof.
  induction n as [|n IH]; intros v Hv.
  - simpl in *. lia.
  - cbn [le_encode le_decode]. rewrite Z_of_byte_of_Z.
    rewrite Nat2Z.inj_succ, Z.pow_succ_r in Hv by lia.
    rewrite IH.
    + pose proof (Z.div_mod v 256 ltac:(lia)). lia.
    + split.
      * apply Z.div_pos; lia.
      * apply Z.div_lt_upper_bound; lia.
Qed.

Lemma firstn_skipn_app (A : Type) (b rest : list A) (n : nat) :
  List.length b = n -> firstn n (b ++ rest) = b /\ skipn n (b ++ rest) = rest.
Proof.
  intros <-. induction b as [|x b IH]; simpl.
  - split; reflexivity.
  - destruct IH as [IH1 IH2]. now rewrite IH1, IH2.
Qed.

Lemma make_bytes_length (n : nat) : List.length (make_bytes n) = n.
Proof. apply repeat_length. Qed.

(** ** The readers undo the writers *)

Lemma readFixed_app (n : nat) (what : String.string) (b dst rest : bytes) :
  List.length b = n -> List.length dst = n ->
  Encoding.readFixed n what (b ++ rest) dst = (Ok b, rest).
Proof.
  intros Hb Hd. unfold Encoding.readFixed.
  rewrite Hd, Nat.eqb_refl.
  assert (Hle : Nat.leb n (List.length (b ++ rest)) = true).
  { apply Nat.leb_le. rewrite length_app. lia. }
  rewrite Hle.
  destruct (firstn_skipn_app _ b rest n Hb) as [-> ->]. reflexivity.
Qed.

Lemma readLE_app (n : nat) (v : Z) (rest : bytes) :
  0 <= v < 256 ^ Z.of_nat n ->
  Encoding.readLE n (le_encode n v ++ rest) = (Ok v, rest).
Proof.
  intros Hv. unfold Encoding.readLE.
  assert (Hle : Nat.leb n (List.length (le_encode n v ++ rest)) = true).
  { apply Nat.leb_le. rewrite length_app, le_encode_length. lia. }
  rewrite Hle.
  destruct (firstn_skipn_app _ (le_encode n v) rest n (le_encode_length n v))
    as [-> ->].
  now rewrite le_decode_encode.
Qed.

Lemma ReadUint8_app (v : Z) (rest : bytes) :
  is_uint8 v -> Encoding.ReadUint8 (byte_of_Z v :: rest) = (Ok v, rest).
Proof.
  intros Hv. unfold Encoding.ReadUint8, is_uint8 in *.
  rewrite Z_of_byte_of_Z, Z.mod_small by lia. reflexivity.
Qed.

Lemma writeFixed_ok (n : nat) (what : String.string) (r b : bytes) :
  List.length b = n -> Encoding.writeFixed n what r b = (None, r ++ b).
Proof.
  intros Hb. unfold Encoding.writeFixed. now rewrite Hb, Nat.eqb_refl.
Qed.

Lemma MarshalCertificate_bytes (r : Buffer) (c : Certificate) :
  List.length (StepOneBatchedSig c) = 33%nat ->
  List.length (StepTwoBatchedSig c) = 33%nat ->
  Wire.MarshalCertificate r c = (None, r ++ certificate_bytes c).
Proof.
  intros H1 H2. unfold Wire.MarshalCertificate, Encoding.WriteBLS.
  rewrite (writeFixed_ok _ _ _ _ H1), (writeFixed_ok _ _ _ _ H2).
  unfold Encoding.WriteUint8, Encoding.WriteUint64LE, certificate_bytes.
  now rewrite <- !app_assoc.
Qed.

Lemma UnmarshalCertificate_bytes (c c0 : Certificate) (rest : Buffer) :
  List.length (StepOneBatchedSig c) = 33%nat ->
  List.length (StepTwoBatchedSig c) = 33%nat ->
  Certificate_typed c ->
  Wire.UnmarshalCertificate (certificate_bytes c ++ rest) c0 = (None, rest, c).
Proof.
  intros H1 H2 (Hs & Hc1 & Hc2).
  unfold Wire.UnmarshalCertificate, certificate_bytes, Encoding.ReadBLS.
  rewrite <- !app_assoc.
  cbn [Wire.set_StepOneBatchedSig StepOneBatchedSig].
  rewrite (readFixed_app 33 _ _ _ _ H1 (make_bytes_length 33)).
  cbn [Wire.set_StepTwoBatchedSig Wire.set_StepOneBatchedSig
       StepOneBatchedSig StepTwoBatchedSig Step StepOneCommittee StepTwoCommittee].
  rewrite (readFixed_app 33 _ _ _ _ H2 (make_bytes_length 33)).
  cbn [app]. rewrite (ReadUint8_app _ _ Hs).
  unfold Encoding.ReadUint64LE.
  rewrite (readLE_app 8 _ _ Hc1), (readLE_app 8 _ _ Hc2).
  destruct c; reflexivity.
Qed.

(** C9.  For a certificate whose two batched signatures are 33 bytes long
    (its step a uint8 and its two bitmaps uint64, as the Go types say),
    [MarshalCertificate] succeeds and appends to the buffer, in this order,
    step_one_sig, step_two_sig, step, the step-one bitmap and the step-two
    bitmap (both little-endian), and [UnmarshalCertificate] on what was
    written succeeds, consumes exactly those bytes, and yields the original
    certificate whatever the receiving struct held before. *)
Theorem C9_certificate_roundtrip (c c0 : Certificate) (r rest : Buffer) :
  List.length (StepOneBatchedSig c) = 33%nat ->
  List.length (StepTwoBatchedSig c) = 33%nat ->
  Certificate_typed c ->
  Wire.MarshalCertificate r c =
    (None, r ++ StepOneBatchedSig c ++ StepTwoBatchedSig c
             ++ [byte_of_Z (Step c)]
             ++ le_encode 8 (StepOneCommittee c)
             ++ le_encode 8 (StepTwoCommittee c))
  /\ Wire.UnmarshalCertificate (snd (Wire.MarshalCertificate [] c) ++ rest) c0
     = (None, rest, c).
Proof.
  intros H1 H2 Ht. split.
  - apply (MarshalCertificate_bytes r c H1 H2).
  - rewrite (MarshalCertificate_bytes [] c H1 H2). cbn [snd app].
    apply UnmarshalCertificate_bytes; assumption.
Qed.

(** ** Decoding the transactions of a block *)

Section BlockTxsFacts.
Variable ContractCall : Type.
Variable unmarshalTx : Wire.unmarfunc ContractCall.

Lemma unmarshalLoop_nil_slots (k : nat) :
  forall (r : Buffer) (done : list (option ContractCall)),
    Wire.unmarshalLoop ContractCall unmarshalTx r done (repeat None k)
    = (Wire.read_n_txs ContractCall unmarshalTx k r, done ++ repeat None k).
Proof.
  induction k as [|k IH]; intros r done.
  - simpl. now rewrite app_nil_r.
  - cbn [repeat Wire.unmarshalLoop Wire.read_n_txs].
    destruct (unmarshalTx r None) as [[err|] r'].
    + reflexivity.
    + rewrite IH, <- app_assoc. reflexivity.
Qed.

(** C10.  Once the header has decoded and the transaction count [lTxs]
    has been read: a count above MaxInt32 / 8 makes [unmarshalBlockTxs]
    (and so [UnmarshalBlock]) return the error "block tx count too large"
    with the block's transaction list left as it was; a count at or below
    the bound makes it allocate [lTxs] slots and run the transaction
    decoder on them one after the other, which is [lTxs] reads when none
    of them fails. *)
Theorem C10_tx_count_bound (r r1 r2 : Buffer) (b : Block ContractCall)
    (h : Header) (lTxs : Z) :
  Wire.UnmarshalHeader r (BHeader b) = (None, r1, h) ->
  Encoding.ReadVarInt r1 = (Ok lTxs, r2) ->
  (lTxs > Wire.MaxInt32 / 8 ->
     Wire.UnmarshalBlock ContractCall unmarshalTx r b
     = (Some (errors_New "block tx count too large"%string), r2,
        mkBlock h (Txs b)))
  /\ (lTxs <= Wire.MaxInt32 / 8 ->
      exists txs,
        Wire.UnmarshalBlock ContractCall unmarshalTx r b
        = (Wire.read_n_txs ContractCall unmarshalTx (Z.to_nat lTxs) r2,
           mkBlock h txs)
        /\ List.length txs = Z.to_nat lTxs).
Proof.
  intros Hh Hv. unfold Wire.UnmarshalBlock, Wire.unmarshalBlockTxs.
  rewrite Hh, Hv. cbn [BHeader Txs]. split; intros Hn.
  - assert (Hgt : (lTxs >? Wire.MaxInt32 / 8) = true) by (apply Z.gtb_lt; lia).
    now rewrite Hgt.
  - assert (Hgt : (lTxs >? Wire.MaxInt32 / 8) = false).
    { destruct (lTxs >? Wire.MaxInt32 / 8) eqn:E; [|reflexivity].
      apply Z.gtb_lt in E. lia. }
    rewrite Hgt, unmarshalLoop_nil_slots.
    exists (repeat None (Z.to_nat lTxs)). split.
    + destruct (Wire.read_n_txs ContractCall unmarshalTx (Z.to_nat lTxs) r2).
      reflexivity.
    + apply repeat_length.
Qed.

End BlockTxsFacts.

(** ** The reduction coordinator *)

Lemma bytes_eqb_eq (a b : bytes) : bytes_eqb a b = true <-> a = b.
Proof.
  unfold bytes_eqb. destruct (list_eq_dec byte_eq_dec a b); split; congruence.
Qed.

Lemma existsb_app_agreement (l1 l2 : list Reduction.sent) :
  Reduction.forwarded (l1 ++ l2)
  = Reduction.forwarded l1 || Reduction.forwarded l2.
Proof. apply existsb_app. Qed.

Lemma to_int64_small (z : Z) : - 2 ^ 63 <= z < 2 ^ 63 -> to_int64 z = z.
Proof.
  intros Hz. unfold to_int64, wrap64.
  destruct (Z_lt_le_dec z 0) as [Hneg|Hpos].
  - assert (Hm : z mod 2 ^ 64 = z + 2 ^ 64).
    { symmetry. apply (Z.mod_unique z (2 ^ 64) (-1) (z + 2 ^ 64)); lia. }
    rewrite Hm.
    destruct (z + 2 ^ 64 <? 2 ^ 63) eqn:E; [apply Z.ltb_lt in E|]; lia.
  - rewrite Z.mod_small by lia.
    destruct (z <? 2 ^ 63) eqn:E; [reflexivity|]. apply Z.ltb_ge in E. lia.
Qed.

Section CoordinatorFacts.
Variable Event : Type.
Variable EmbedVoteHash : option Event -> Buffer -> option error * Buffer.
Variable MarshalHeader : Buffer -> Reduction.consensusState -> option error * Buffer.
Variable MarshalVoteSet : Buffer -> Reduction.slice (option Event) -> option error * Buffer.
Variable Quorum : Z.

Lemma fetch_not_forwarded (f : Reduction.fetched Event) :
  Reduction.forwarded (snd (Reduction.fetch Event f)) = false.
Proof. destruct f; reflexivity. Qed.

Lemma isReductionSuccessful_iff (hash1 hash2 : Buffer)
    (events : Reduction.slice (option Event)) :
  Reduction.isReductionSuccessful Event Quorum (Some hash1) (Some hash2) events
  = Return true
  <-> hash1 = hash2 /\ Reduction.len events >= to_int64 (Quorum * 2).
Proof.
  unfold Reduction.isReductionSuccessful. cbn [andb].
  destruct (bytes_eqb hash1 hash2) eqn:Eh; cbn [andb].
  - apply bytes_eqb_eq in Eh.
    destruct (Reduction.len events >=? to_int64 (Quorum * 2)) eqn:El.
    + split; [intros _|reflexivity]. split; [assumption|].
      apply Z.geb_le in El. lia.
    + split; [discriminate|]. intros [_ Hl].
      assert ((Reduction.len events >=? to_int64 (Quorum * 2)) = true)
        by (apply Z.geb_le; lia). congruence.
  - split; [discriminate|]. intros [He _].
    apply bytes_eqb_eq in He. congruence.
Qed.

(** C2 (as the code has it).  In every run of [begin] that returns nil,
    with [hash1] the phase-1 buffer as [MarshalHeader] left it and [hash2]
    the phase-2 buffer: a result is forwarded toward agreement if and only
    if the two buffers hold the same bytes (no test excludes the empty
    hash) and the vote set passed to [isReductionSuccessful] has at least
    2 * Quorum events (Quorum an int whose double does not overflow);
    whether or not it is forwarded, the step has advanced twice.  The vote
    set passed is that of phase 1: the votes fetched in phase 2 are hashed
    and never counted. *)
Theorem C2_reduction_success (state state' : Reduction.consensusState)
    (f1 f2 : Reduction.fetched Event) (out : list Reduction.sent) :
  - 2 ^ 62 <= Quorum < 2 ^ 62 ->
  Reduction.begin Event EmbedVoteHash MarshalHeader MarshalVoteSet Quorum
    state f1 f2 = (Return None, state', out) ->
  let events := fst (Reduction.fetch Event f1) in
  let eventsSecondStep := fst (Reduction.fetch Event f2) in
  exists hash1_0 hash1 hash2,
    Reduction.encodeEv Event EmbedVoteHash events = Return (Ok hash1_0)
    /\ MarshalHeader hash1_0 (Reduction.incr_Step state) = (None, hash1)
    /\ Reduction.encodeEv Event EmbedVoteHash eventsSecondStep = Return (Ok hash2)
    /\ (Reduction.forwarded out = true
        <-> hash1 = hash2 /\ Reduction.len events >= 2 * Quorum)
    /\ state' = Reduction.incr_Step (Reduction.incr_Step state).
Proof.
  unfold Reduction.begin. intros HQ H.
  destruct (Reduction.fetch Event f1) as [events out1] eqn:F1.
  destruct (Reduction.fetch Event f2) as [events2 out2] eqn:F2.
  cbn [fst].
  pose proof (fetch_not_forwarded f1) as N1. rewrite F1 in N1. cbn [snd] in N1.
  pose proof (fetch_not_forwarded f2) as N2. rewrite F2 in N2. cbn [snd] in N2.
  destruct (Reduction.encodeEv Event EmbedVoteHash events)
    as [[h10|?]|] eqn:E1; try discriminate H.
  destruct (MarshalHeader h10 (Reduction.incr_Step state))
    as [[?|] h1] eqn:M1; try discriminate H.
  destruct (Reduction.encodeEv Event EmbedVoteHash events2)
    as [[h2|?]|] eqn:E2; try discriminate H.
  pose proof (isReductionSuccessful_iff h1 h2 events) as Hiff.
  rewrite to_int64_small, Z.mul_comm in Hiff by lia.
  destruct (Reduction.isReductionSuccessful Event Quorum (Some h1) (Some h2) events)
    as [[|]|] eqn:S; try discriminate H.
  - destruct (MarshalVoteSet h2 events) as [[?|] h2'] eqn:MV;
      try discriminate H.
    destruct (MarshalHeader h2' (Reduction.incr_Step state))
      as [[?|] h2''] eqn:M2; try discriminate H.
    injection H as <- <-.
    exists h10, h1, h2.
    split; [reflexivity|]. split; [exact M1|]. split; [reflexivity|].
    split; [|reflexivity]. split.
    + intros _. apply Hiff. reflexivity.
    + intros _. rewrite !existsb_app_agreement. cbn.
      now rewrite !orb_true_r.
  - injection H as <- <-.
    exists h10, h1, h2.
    split; [reflexivity|]. split; [exact M1|]. split; [reflexivity|].
    split; [|reflexivity]. split.
    + intros Hf. rewrite !existsb_app_agreement, N1, N2 in Hf. discriminate.
    + intros Hc. apply Hiff in Hc. discriminate.
Qed.

End CoordinatorFacts.

(** C2 as the specification words it fails in both directions.  With
    quorum 2 and two votes per phase for one non-empty hash the condition of
    the specification holds (4 votes in all) and nothing is forwarded; with
    quorum 1 and two phase-1 votes for the empty hash the condition of the
    specification fails and the empty hash is forwarded. *)
Lemma C2_spec_condition_differs :
  (let '(_, _, out) := Examples.run_quorum_per_phase in
   Reduction.forwarded out = false)
  /\ Reduction.spec_success bytes 2 Examples.someHash Examples.someHash
       (Some (repeat (Some Examples.someHash) 2))
       (Some (repeat (Some Examples.someHash) 2)) = true
  /\ (let '(_, _, out) := Examples.run_empty_hash in
      Reduction.forwarded out = true)
  /\ Reduction.spec_success bytes 1 Examples.emptyHash Examples.emptyHash
       (Some (repeat (Some Examples.emptyHash) 2))
       (Some (repeat (Some Examples.emptyHash) 1)) = false.
Proof. repeat split; vm_compute; reflexivity. Qed.

Lemma C2_reduction_success_witness :
  (Examples.run_quorum_per_phase
   = (Return None, Reduction.mkState 1 3,
      [Reduction.reductionVoteChan Examples.someHash])
   /\ Reduction.len (Some (repeat (Some Examples.someHash) 2))
      + Reduction.len (Some (repeat (Some Examples.someHash) 2)) >= 2 * 2
   /\ Reduction.forwarded [Reduction.reductionVoteChan Examples.someHash]
      = false)
  /\ exists hash1_0 hash1 hash2,
    Reduction.encodeEv bytes Examples.hashOfVote
      (Some (repeat (Some Examples.emptyHash) 2)) = Return (Ok hash1_0)
    /\ Examples.noHeader hash1_0 (Reduction.incr_Step Examples.state0) = (None, hash1)
    /\ Reduction.encodeEv bytes Examples.hashOfVote
         (Some (repeat (Some Examples.emptyHash) 1)) = Return (Ok hash2)
    /\ (Reduction.forwarded
          [Reduction.reductionVoteChan Examples.emptyHash;
           Reduction.agreementVoteChan Examples.emptyHash] = true
        <-> hash1 = hash2 /\ 2 >= 2 * 1)
    /\ Reduction.mkState 1 3
       = Reduction.incr_Step (Reduction.incr_Step Examples.state0).
Proof.
  split.
  - assert (Hrun : Examples.run_quorum_per_phase
                   = (Return None, Reduction.mkState 1 3,
                      [Reduction.reductionVoteChan Examples.someHash]))
      by (vm_compute; reflexivity).
    split; [exact Hrun|]. split; [vm_compute; discriminate|].
    destruct (C2_reduction_success bytes Examples.hashOfVote Examples.noHeader
                Examples.noVoteSet 2 Examples.state0 (Reduction.mkState 1 3)
                (Examples.votes 2 Examples.someHash)
                (Examples.votes 2 Examples.someHash)
                [Reduction.reductionVoteChan Examples.someHash]
                ltac:(lia) Hrun)
      as (h10 & h1 & h2 & _ & _ & _ & Hiff & _).
    destruct (Reduction.forwarded
                [Reduction.reductionVoteChan Examples.someHash]) eqn:Hf;
      [|reflexivity].
    destruct (proj1 Hiff eq_refl) as [_ Hlen]. vm_compute in Hlen.
    now destruct Hlen.
  - apply (C2_reduction_success bytes Examples.hashOfVote Examples.noHeader
             Examples.noVoteSet 1 Examples.state0 (Reduction.mkState 1 3)
             (Examples.votes 2 Examples.emptyHash)
             (Examples.votes 1 Examples.emptyHash)
             [Reduction.reductionVoteChan Examples.emptyHash;
              Reduction.agreementVoteChan Examples.emptyHash]).
    + lia.
    + vm_compute. reflexivity.
Defined.

(** ** The legacy chain: header check and acceptance *)

Section LegacyFacts.
Variables Payload Transaction DB : Type.
Variable db_FetchBlockExists : DB -> bytes -> option error.
Variable db_StoreBlock : DB -> LegacyChain.Block Payload -> option error * DB.
Variable merkleRoot : list Payload -> result bytes.
Variable checkMultiCoinbases : list Payload -> option error.
Variable asTransaction : Payload -> option Transaction.
Variable verifyTX : DB -> Z -> Z -> Transaction -> option error.
Variable propagate : LegacyChain.Block Payload -> option error.

(** The header check itself is right: a header it lets through continues
    the tip (the height compared as uint64). *)
Lemma checkBlockHeader_sound (c : LegacyChain.Chain Payload DB)
    (blk blk' : LegacyChain.Block Payload) :
  LegacyChain.checkBlockHeader Payload DB merkleRoot c blk = (None, blk') ->
  let hdr := LegacyChain.BHeader blk in
  let prev := LegacyChain.BHeader (LegacyChain.PrevBlockOf Payload DB c) in
  LegacyChain.Height hdr = wrap64 (LegacyChain.Height prev + 1)
  /\ LegacyChain.PrevBlock hdr = LegacyChain.Hash prev
  /\ LegacyChain.Timestamp hdr > LegacyChain.Timestamp prev.
Proof.
  unfold LegacyChain.checkBlockHeader. intros H.
  destruct (LegacyChain.Version (LegacyChain.BHeader blk) >? 0);
    [discriminate|].
  destruct (bytes_eqb _ _) eqn:Eh in H; cbn [negb] in H; [|discriminate].
  destruct (_ =? _) eqn:Eg in H; cbn [negb] in H; [|discriminate].
  destruct (_ <=? _) eqn:Et in H; [discriminate|].
  cbv zeta. repeat split.
  - now apply Z.eqb_eq.
  - now apply bytes_eqb_eq.
  - apply Z.leb_gt in Et. lia.
Qed.

(** C1 on the legacy chain.  [verifyBlock] answers a failed header check
    with [return nil], so a block whose header [checkBlockHeader] rejects
    (a wrong height, a wrong previous hash, a timestamp not after the
    tip's) is accepted all the same: when the block is not yet stored and
    storing and gossiping it succeed, [AcceptBlock] returns nil and makes
    it the new tip, without looking at its transactions. *)
Theorem C1_legacy_accepts_rejected_header
    (c : LegacyChain.Chain Payload DB) (blk blk' : LegacyChain.Block Payload)
    (err : error) (d : DB) :
  db_FetchBlockExists (LegacyChain.db Payload DB c)
    (LegacyChain.Hash (LegacyChain.BHeader blk)) = Some ErrBlockNotFound ->
  LegacyChain.checkBlockHeader Payload DB merkleRoot c blk = (Some err, blk') ->
  db_StoreBlock (LegacyChain.db Payload DB c) blk' = (None, d) ->
  propagate blk' = None ->
  LegacyChain.AcceptBlock Payload Transaction DB db_FetchBlockExists
    db_StoreBlock merkleRoot checkMultiCoinbases asTransaction verifyTX
    propagate c blk
  = (None,
     LegacyChain.mkChain Payload DB d blk'
       (LegacyChain.calls Payload DB c
        ++ [LegacyChain.StoreBlock blk'; LegacyChain.RemoveAccepted blk';
            LegacyChain.propagateBlock blk'])).
Proof.
  intros Hf Hh Hs Hp.
  unfold LegacyChain.AcceptBlock, LegacyChain.verifyBlock.
  rewrite Hf. cbn [error_eqb negb]. rewrite Hh, Hs.
  unfold LegacyChain.log. cbn. rewrite Hp, <- !app_assoc. reflexivity.
Qed.

End LegacyFacts.

Lemma C1_legacy_accepts_rejected_header_witness :
  fst (Examples.legacy_checkBlockHeader Examples.legacy_chain Examples.legacy_bad)
    <> None
  /\ LegacyChain.Height (LegacyChain.BHeader Examples.legacy_bad)
     <> LegacyChain.Height (LegacyChain.BHeader Examples.legacy_genesis) + 1
  /\ Examples.legacy_AcceptBlock Examples.legacy_chain Examples.legacy_bad
     = (None,
        LegacyChain.mkChain nat (list bytes)
          [repeat x0a 32; repeat x0b 32] Examples.legacy_bad
          [LegacyChain.StoreBlock Examples.legacy_bad;
           LegacyChain.RemoveAccepted Examples.legacy_bad;
           LegacyChain.propagateBlock Examples.legacy_bad]).
Proof.
  split; [vm_compute; discriminate|].
  split; [vm_compute; discriminate|].
  apply (C1_legacy_accepts_rejected_header nat nat (list bytes)
           Examples.legacy_Fetch Examples.legacy_Store Examples.legacy_root
           (fun _ => None) (fun n => Some n) (fun _ _ _ _ => None)
           (fun _ => None) Examples.legacy_chain Examples.legacy_bad
           Examples.legacy_bad
           (errors_New "Previous block hash does not equal the previous hash in the current block"%string)).
  - vm_compute. reflexivity.
  - vm_compute. reflexivity.
  - vm_compute. reflexivity.
  - reflexivity.
Defined.

(** ** The current chain *)

(** Reduces the projections of a chain built by the setters. *)
Ltac chain_fields :=
  cbn [CurrentChain.p CurrentChain.counter CurrentChain.loader
       CurrentChain.tip CurrentChain.lastCertificate
       CurrentChain.lastCommittee CurrentChain.highestSeen
       CurrentChain.calls fst snd].

Section ChainFacts.
Variables ContractCall Provisioners Counter Storage : Type.
Variable E : CurrentChain.Collaborators ContractCall Provisioners Counter Storage.

Import CurrentChain.

Local Arguments AcceptBlock {_ _ _ _} _ _ _.
Local Arguments onAcceptBlock {_ _ _ _} _ _ _.
Local Arguments handleCertificateMessage {_ _ _ _} _ _ _.
Local Arguments Listen {_ _ _ _} _ _ _.
Local Arguments RebuildChain {_ _ _ _} _ _.
Local Arguments New {_ _ _ _} _ _ _.
Local Arguments onInitialization {_ _ _ _} _ _.
Local Arguments eventBus_Publish {_ _ _ _} _ _ _.
Local Arguments record {_ _ _ _} _ _.
Local Arguments set_p {_ _ _ _} _ _.
Local Arguments set_lastCertificate {_ _ _ _} _ _.
Local Arguments set_lastCommittee {_ _ _ _} _ _.
Local Arguments go_sendRoundUpdate {_ _ _ _} _ _.
Local Arguments getRoundUpdate {_ _ _ _} _.

(** A block the chain accepts passed the sanity check against the tip. *)
Lemma AcceptBlock_accepts_only_sane
    (c c' : ChainT ContractCall Provisioners Counter Storage)
    (blk : Block ContractCall) :
  AcceptBlock E c blk = (Return None, c') ->
  SanityCheckBlock E (tip c) blk = None.
Proof.
  unfold AcceptBlock. intros H.
  destruct (SanityCheckBlock E (tip c) blk); [discriminate|reflexivity].
Qed.

(** C4.  A block that fails the sanity check against the tip makes
    [AcceptBlock] return the verifier's error with the chain exactly as it
    was: same tip, no call on the event bus (no AcceptedBlock, no Inv on
    the gossip topic), the sync counter untouched.  With the sanity check
    of the specification this is the case of a block at height
    tip.height + 1 carrying the tip's timestamp. *)
Theorem C4_sanity_failure_is_rejected
    (c : ChainT ContractCall Provisioners Counter Storage)
    (blk : Block ContractCall) :
  (forall err,
      SanityCheckBlock E (tip c) blk = Some err ->
      AcceptBlock E c blk = (Return (Some err), c))
  /\ (forall rootOf hashOf,
      SanityCheckBlock E (tip c) blk
        = Verifiers.SanityCheckBlock ContractCall rootOf hashOf (tip c) blk ->
      Height (BHeader blk) = Height (BHeader (tip c)) + 1 ->
      Timestamp (BHeader blk) = Timestamp (BHeader (tip c)) ->
      exists err, AcceptBlock E c blk = (Return (Some err), c)).
Proof.
  assert (Hgen : forall err,
             SanityCheckBlock E (tip c) blk = Some err ->
             AcceptBlock E c blk = (Return (Some err), c)).
  { intros err H. unfold AcceptBlock. now rewrite H. }
  split; [exact Hgen|].
  intros rootOf hashOf Hv _ Ht.
  assert (Hrej : exists err,
             Verifiers.SanityCheckBlock ContractCall rootOf hashOf (tip c) blk
             = Some err).
  { unfold Verifiers.SanityCheckBlock.
    destruct (negb (Version (BHeader blk) =? 0)); [eauto|].
    destruct (negb (bytes_eqb _ _)); [eauto|].
    destruct (negb (Height (BHeader blk) =? _)); [eauto|].
    assert (Hle : (Timestamp (BHeader blk) <=? Timestamp (BHeader (tip c))) = true)
      by (apply Z.leb_le; lia).
    rewrite Hle. eauto. }
  destruct Hrej as [err Herr]. exists err. apply Hgen. congruence.
Qed.

(** C5 (with the storage and encoding steps named).  For a block that
    passes the sanity check, the certificate check and the state
    transition, and for which [loader.Append] and the encoding of the
    inventory message succeed, [AcceptBlock] returns nil, the provisioners
    are the executor's, and the calls it makes are, in this order: the tip
    set to the block, the block appended to storage, one message on the
    gossip topic holding the encoded Inv with the block's hash, one
    AcceptedBlock message with the block, one decrement of the counter. *)
Theorem C5_accept_effects
    (c : ChainT ContractCall Provisioners Counter Storage)
    (blk : Block ContractCall)
    (provisioners provisioners' : Provisioners) (st : Storage)
    (buf0 buf : Buffer) :
  SanityCheckBlock E (tip c) blk = None ->
  GetProvisioners E = Ok provisioners ->
  CheckBlockCertificate E provisioners blk = None ->
  ExecuteStateTransition E (Txs blk) (Height (BHeader blk))
    = (provisioners', None) ->
  Append E (loader c) blk = (None, st) ->
  Inv_Encode E [] [(InvTypeBlock, Hash (BHeader blk))] = (None, buf0) ->
  topics_Prepend E buf0 Inv = (None, buf) ->
  AcceptBlock E c blk
  = (Return None,
     mkChain provisioners' (Decrement E (counter c)) st blk
       (lastCertificate c) (lastCommittee c) (highestSeen c)
       (calls c ++ [tip_Set blk;
                    loader_Append blk;
                    Publish Gossip (message_New Inv (OfBuffer buf));
                    Publish AcceptedBlock (message_New AcceptedBlock (OfBlock blk));
                    counter_Decrement])).
Proof.
  intros Hs Hg Hc He Ha Hi Ht.
  unfold AcceptBlock. rewrite Hs, Hg. cbn [set_p p]. rewrite Hc, He.
  unfold do_loader_Append, do_tip_Set, advertiseBlock, do_counter_Decrement,
    eventBus_Publish, CurrentChain.record, CurrentChain.set_p,
    set_tip, set_loader, set_counter.
  chain_fields. rewrite Ha.
  chain_fields. rewrite Hi, Ht.
  chain_fields. rewrite <- !app_assoc. reflexivity.
Qed.


(** C3 (with the guard of [beginAccepting]).  A block delivered on the
    Block topic is handed to [onAcceptBlock]; when the sync counter is not
    syncing the block is dropped, nil is returned and the chain is left as
    it was; when it is syncing, StopConsensus is published and
    [AcceptBlock] runs on the block, its error or panic is the handler's,
    and on acceptance the block's certificate becomes the last certificate
    and a round update is sent once the counter has stopped syncing.  A
    block won by agreement is handed to [AcceptBlock] by
    [handleCertificateMessage] whatever the counter says. *)
Theorem C3_block_topic_acceptance
    (c : ChainT ContractCall Provisioners Counter Storage)
    (m : Message ContractCall Provisioners) (blk : Block ContractCall) :
  Payload m = OfBlock blk ->
  Listen E c (blockChan m)
    = (match fst (onAcceptBlock E c m) with
       | Panic => Panic
       | Return _ => Return tt
       end, snd (onAcceptBlock E c m))
  /\ (IsSyncing E (counter c) = false ->
      onAcceptBlock E c m = (Return None, c))
  /\ (IsSyncing E (counter c) = true ->
      let c1 := eventBus_Publish StopConsensus (message_New StopConsensus EMPTY) c in
      match AcceptBlock E c1 blk with
      | (Return None, c2) =>
          let c3 := set_lastCertificate (Some (HCertificate (BHeader blk))) c2 in
          onAcceptBlock E c m
          = (Return None,
             if IsSyncing E (counter c3) then c3
             else go_sendRoundUpdate c3 (getRoundUpdate c3))
      | (r, c2) => onAcceptBlock E c m = (r, c2)
      end)
  /\ (forall (cMsg : certMsg) (cand : Block ContractCall),
      let params :=
        snd (Encoding.WriteBool (snd (Encoding.Write256 [] (cm_hash cMsg))) true) in
      rpcBus_GetCandidate E params = Ok (IsCandidate (mkCandidate (Some cand))) ->
      let c1 :=
        record (rpcBus_Call GetCandidate params)
          (set_lastCommittee (cm_committee cMsg)
             (set_lastCertificate (Some (cm_cert cMsg)) c)) in
      let won :=
        mkBlock (Wire.set_Certificate (cm_cert cMsg) (BHeader cand)) (Txs cand) in
      match AcceptBlock E c1 won with
      | (Panic, c2) => handleCertificateMessage E c cMsg = (Panic, c2)
      | (Return (Some _), c2) => handleCertificateMessage E c cMsg = (Return tt, c2)
      | (Return None, c2) =>
          handleCertificateMessage E c cMsg
          = (Return tt, go_sendRoundUpdate c2 (getRoundUpdate c2))
      end).
Proof.
  intros Hm. split; [|split; [|split]].
  - unfold Listen. destruct (onAcceptBlock E c m) as [[r|] c']; reflexivity.
  - intros Hn. unfold onAcceptBlock, beginAccepting. now rewrite Hm, Hn.
  - intros Hy. unfold onAcceptBlock, beginAccepting. rewrite Hm, Hy.
    cbn [negb]. cbv zeta.
    destruct (AcceptBlock E _ blk) as [[[err|]|] c2]; try reflexivity.
    cbn [counter CurrentChain.set_lastCertificate].
    destruct (IsSyncing E (counter c2)); reflexivity.
  - intros cMsg cand params Hc. cbv zeta.
    unfold handleCertificateMessage. fold params. rewrite Hc.
    cbn [Candidate_Block].
    destruct (AcceptBlock E _ _) as [[[err|]|] c2]; reflexivity.
Qed.

(** C7.  [RebuildChain] returns an error exactly when [loader.Clear]
    fails, and then it is that error.  Once the clear has succeeded, a
    failure to load the tip, a failed sanity check or a failed
    ClearWalletDatabase request makes it panic.  When tip and sanity check
    are fine, the chain at the moment the wallet request is made already
    holds a fresh provisioner set and the empty certificate, the loaded
    tip, and the calls made are the StopConsensus publication, the clear,
    the tip load, the tip set, the sanity check and the wallet request, in
    this order; if the wallet request succeeds the response is returned. *)
Theorem C7_rebuild_errors_and_reset
    (c : ChainT ContractCall Provisioners Counter Storage) :
  let cleared := Clear E (loader c) in
  let loaded := LoadTip E (snd cleared) in
  let sane := PerformSanityCheck E (snd loaded) 0 (SanityCheckHeight E) 0 in
  let wallet := rpcBus_ClearWalletDatabase E [] in
  (forall err, fst (RebuildChain E c) = Return (Err err) <-> fst cleared = Some err)
  /\ (fst cleared = None ->
      (exists tipErr, fst loaded = Err tipErr)
      \/ ((exists newTip, fst loaded = Ok newTip) /\ sane <> None)
      \/ ((exists newTip, fst loaded = Ok newTip) /\ sane = None /\ wallet <> None) ->
      fst (RebuildChain E c) = Panic)
  /\ (forall newTip,
      fst cleared = None -> fst loaded = Ok newTip -> sane = None ->
      let c' := snd (RebuildChain E c) in
      p c' = NewProvisioners E
      /\ lastCertificate c' = Some (EmptyCertificate E)
      /\ tip c' = newTip
      /\ loader c' = snd loaded
      /\ calls c' = calls c ++ [Publish StopConsensus (message_New StopConsensus Nil);
                                loader_Clear; loader_LoadTip; tip_Set newTip;
                                verifier_PerformSanityCheck;
                                rpcBus_Call ClearWalletDatabase []]
      /\ (wallet = None -> fst (RebuildChain E c) = Return (Ok RebuildResponse))).
Proof.
destruct c as [p0 counter0 loader0 tip0 cert0 committee0 seen0 calls0].
cbv beta iota zeta delta
  [RebuildChain CurrentChain.RebuildChain CurrentChain.eventBus_Publish
   CurrentChain.record set_loader do_tip_Set set_tip resetState
   CurrentChain.set_p CurrentChain.set_lastCertificate
   p counter loader tip lastCertificate lastCommittee highestSeen calls].
destruct (Clear E loader0) as [[clearErr|] st1]; cbn [fst snd].
- split; [|split]; [|discriminate|discriminate].
  intros err. split; congruence.
- destruct (LoadTip E st1) as [[newTip|tipErr] st2]; cbn [fst snd].
  + destruct (PerformSanityCheck E st2 0 (SanityCheckHeight E) 0) as [e|].
    * split; [|split]; [|reflexivity|discriminate].
      intros err. split; discriminate.
    * destruct (rpcBus_ClearWalletDatabase E []) as [e|];
        (split; [|split]); try (intros err; split; discriminate).
      -- intros t _ Ht _. injection Ht as <-. cbn [fst snd].
         rewrite <- !app_assoc. repeat split. discriminate.
      -- intros _ [[t Ht] | [[_ Hs] | [_ [_ Hw]]]];
           try discriminate; congruence.
      -- intros t _ Ht _. injection Ht as <-. cbn [fst snd].
         rewrite <- !app_assoc. repeat split.
  + split; [|split]; [|reflexivity|discriminate].
    intros err. split; discriminate.
Qed.

(** C8.  A chain that [New] builds over a loader whose tip is a block of
    height 0 has that block as tip, the empty certificate as last
    certificate and has made no call yet; on the Initialization message it
    makes exactly one call, the publication on RoundUpdate of a round
    update with Round 1 (tip height + 1), the chain's provisioners, and
    the seed and hash of the tip. *)
Theorem C8_genesis_boot (counter0 : Counter) (loader0 st : Storage)
    (genesis : Block ContractCall)
    (c : ChainT ContractCall Provisioners Counter Storage)
    (m : Message ContractCall Provisioners) :
  LoadTip E loader0 = (Ok genesis, st) ->
  Height (BHeader genesis) = 0 ->
  New E counter0 loader0 = Ok c ->
  tip c = genesis
  /\ Height (BHeader (tip c)) = 0
  /\ lastCertificate c = Some (EmptyCertificate E)
  /\ calls c = []
  /\ fst (onInitialization c m) = None
  /\ calls (snd (onInitialization c m))
     = [Publish RoundUpdate
          (message_New RoundUpdate
             (OfRoundUpdate
                (mkRoundUpdate 1 (p c) (Seed (BHeader genesis))
                               (Hash (BHeader genesis)))))]
  /\ RU_Round (getRoundUpdate c) = Height (BHeader (tip c)) + 1.
Proof.
  intros HL H0 HN.
  assert (Hc : tip c = genesis /\ lastCertificate c = Some (EmptyCertificate E)
               /\ calls c = []).
  { unfold New in HN.
    destruct (rpcBus_Register E VerifyCandidateBlock); [discriminate|].
    destruct (rpcBus_Register E GetLastCertificate); [discriminate|].
    destruct (rpcBus_Register E GetLastCommittee); [discriminate|].
    rewrite HL in HN. rewrite H0 in HN. cbn [Z.eqb] in HN.
    destruct (Genesis_Legacy E).
    - destruct (setupBidValues E); [discriminate|].
      destruct (reconstructCommittee E (NewProvisioners E) genesis)
        as [[e|] ps]; [discriminate|].
      destruct (newLastBlockProvider E genesis); [discriminate|].
      injection HN as <-. repeat split.
    - destruct (newLastBlockProvider E genesis); [discriminate|].
      injection HN as <-. repeat split. }
  destruct Hc as (Ht & Hl & Hcalls).
  unfold onInitialization, sendRoundUpdate, getRoundUpdate,
    CurrentChain.getRoundUpdate, eventBus_Publish,
    CurrentChain.eventBus_Publish, CurrentChain.record.
  cbn [fst snd calls]. rewrite Hcalls, Ht, H0.
  repeat split; try assumption.
Qed.

End ChainFacts.

(** ** The theorems at concrete inputs *)

Lemma C9_certificate_roundtrip_witness :
  List.length (StepOneBatchedSig Examples.cert1) = 33%nat
  /\ List.length (StepTwoBatchedSig Examples.cert1) = 33%nat
  /\ Wire.UnmarshalCertificate
       (snd (Wire.MarshalCertificate [] Examples.cert1) ++ [xaa])
       Examples.emptyCert
     = (None, [xaa], Examples.cert1).
Proof.
  split; [reflexivity|]. split; [reflexivity|].
  apply (proj2 (C9_certificate_roundtrip Examples.cert1 Examples.emptyCert
                  [] [xaa] eq_refl eq_refl
                  ltac:(unfold Certificate_typed, is_uint8, is_uint64;
                        cbn; lia))).
Defined.

Lemma C10_tx_count_bound_witness :
  (exists txs,
      Wire.UnmarshalBlock nat Examples.oneByteTx Examples.block_two_txs
        (mkBlock Examples.header0 [])
      = (Wire.read_n_txs nat Examples.oneByteTx 2 [xaa; xbb],
         mkBlock (mkHeader 0 0 0 (make_bytes 32) (make_bytes 33)
                           (make_bytes 32) Examples.emptyCert (make_bytes 32))
                 txs)
      /\ List.length txs = 2%nat)
  /\ Wire.UnmarshalBlock nat Examples.oneByteTx Examples.block_too_many
       (mkBlock Examples.header0 [Some 1%nat])
     = (Some (errors_New "block tx count too large"%string), [xaa],
        mkBlock (mkHeader 0 0 0 (make_bytes 32) (make_bytes 33)
                          (make_bytes 32) Examples.emptyCert (make_bytes 32))
                [Some 1%nat]).
Proof.
  split.
  - apply (proj2 (C10_tx_count_bound nat Examples.oneByteTx
                    Examples.block_two_txs [x02; xaa; xbb] [xaa; xbb]
                    (mkBlock Examples.header0 []) _ 2
                    ltac:(vm_compute; reflexivity)
                    ltac:(vm_compute; reflexivity))).
    vm_compute. discriminate.
  - apply (proj1 (C10_tx_count_bound nat Examples.oneByteTx
                    Examples.block_too_many
                    [xfe; x00; x00; x00; x10; xaa] [xaa]
                    (mkBlock Examples.header0 [Some 1%nat]) _ 268435456
                    ltac:(vm_compute; reflexivity)
                    ltac:(vm_compute; reflexivity))).
    vm_compute. reflexivity.
Defined.

(** C3 as the specification words it fails: with the counter at zero (not
    syncing) a block on the Block topic that [AcceptBlock] would accept is
    dropped, and the chain does not change. *)
Lemma C3_block_dropped_when_not_syncing :
  CurrentChain.Listen nat (list nat) Z (list (Block nat))
    (Examples.env false false) (Examples.chainAt 0)
    (CurrentChain.blockChan (Examples.blockMsg Examples.block1))
  = (Return tt, Examples.chainAt 0)
  /\ fst (CurrentChain.AcceptBlock nat (list nat) Z (list (Block nat))
            (Examples.env false false) (Examples.chainAt 0) Examples.block1)
     = Return None
  /\ CurrentChain.tip
       (snd (CurrentChain.AcceptBlock nat (list nat) Z (list (Block nat))
               (Examples.env false false) (Examples.chainAt 0) Examples.block1))
     = Examples.block1.
Proof. repeat split; vm_compute; reflexivity. Qed.

Lemma C3_block_topic_acceptance_witness :
  CurrentChain.Payload (Examples.blockMsg Examples.block1)
    = CurrentChain.OfBlock Examples.block1
  /\ CurrentChain.onAcceptBlock nat (list nat) Z (list (Block nat))
       (Examples.env false false) (Examples.chainAt 0)
       (Examples.blockMsg Examples.block1)
     = (Return None, Examples.chainAt 0)
  /\ CurrentChain.tip
       (snd (CurrentChain.onAcceptBlock nat (list nat) Z (list (Block nat))
               (Examples.env false false) (Examples.chainAt 2)
               (Examples.blockMsg Examples.block1)))
     = Examples.block1.
Proof.
  split; [reflexivity|]. split.
  - apply (proj1 (proj2 (C3_block_topic_acceptance nat (list nat) Z
                           (list (Block nat)) (Examples.env false false)
                           (Examples.chainAt 0)
                           (Examples.blockMsg Examples.block1)
                           Examples.block1 eq_refl))).
    reflexivity.
  - pose proof (proj1 (proj2 (proj2 (C3_block_topic_acceptance nat (list nat) Z
                           (list (Block nat)) (Examples.env false false)
                           (Examples.chainAt 2)
                           (Examples.blockMsg Examples.block1)
                           Examples.block1 eq_refl))) eq_refl) as H.
    cbv zeta in H.
    destruct (CurrentChain.AcceptBlock nat (list nat) Z (list (Block nat))
                (Examples.env false false) _ Examples.block1)
      as [[[err|]|] c2] eqn:HA; try (vm_compute in HA; discriminate).
    rewrite H. vm_compute in HA. injection HA as <-. reflexivity.
Defined.

Lemma C4_sanity_failure_is_rejected_witness :
  CurrentChain.SanityCheckBlock (Examples.env false false)
    (CurrentChain.tip (Examples.chainAt 1)) Examples.block1_stale
  = Some (errors_New "block timestamp is not after the timestamp of the tip"%string)
  /\ CurrentChain.AcceptBlock nat (list nat) Z (list (Block nat))
       (Examples.env false false) (Examples.chainAt 1) Examples.block1_stale
     = (Return (Some (errors_New "block timestamp is not after the timestamp of the tip"%string)),
        Examples.chainAt 1).
Proof.
  split; [reflexivity|].
  apply (proj1 (C4_sanity_failure_is_rejected nat (list nat) Z
                  (list (Block nat)) (Examples.env false false)
                  (Examples.chainAt 1) Examples.block1_stale)).
  reflexivity.
Defined.

(** C5 as the specification words it fails: a block that passes the sanity
    check, the certificate check and the state transition is still refused
    when [loader.Append] fails; by then the tip is already the new block,
    and neither message has been published nor the counter decremented. *)
Lemma C5_append_failure_after_checks :
  let E := Examples.env true false in
  let c := Examples.chainAt 1 in
  let r := CurrentChain.AcceptBlock nat (list nat) Z (list (Block nat)) E c
             Examples.block1 in
  CurrentChain.SanityCheckBlock E (CurrentChain.tip c) Examples.block1 = None
  /\ CurrentChain.CheckBlockCertificate E [1; 2; 3]%nat Examples.block1 = None
  /\ CurrentChain.ExecuteStateTransition E (Txs Examples.block1) 1
     = ([1; 2; 3; 4]%nat, None)
  /\ fst r = Return (Some (External 5))
  /\ CurrentChain.tip (snd r) = Examples.block1
  /\ CurrentChain.calls (snd r)
     = [CurrentChain.tip_Set Examples.block1;
        CurrentChain.loader_Append Examples.block1]
  /\ CurrentChain.counter (snd r) = 1.
Proof. repeat split; vm_compute; reflexivity. Qed.

Lemma C5_accept_effects_witness :
  CurrentChain.AcceptBlock nat (list nat) Z (list (Block nat))
    (Examples.env false false) (Examples.chainAt 1) Examples.block1
  = (Return None,
     CurrentChain.mkChain [1; 2; 3; 4]%nat 0
       [Examples.genesis; Examples.block1] Examples.block1
       (Some Examples.emptyCert) (Some []) 0
       [CurrentChain.tip_Set Examples.block1;
        CurrentChain.loader_Append Examples.block1;
        CurrentChain.Publish CurrentChain.Gossip
          (CurrentChain.message_New CurrentChain.Inv
             (CurrentChain.OfBuffer (x0e :: repeat x0b 32)));
        CurrentChain.Publish CurrentChain.AcceptedBlock
          (CurrentChain.message_New CurrentChain.AcceptedBlock
             (CurrentChain.OfBlock Examples.block1));
        CurrentChain.counter_Decrement]).
Proof.
  apply (C5_accept_effects nat (list nat) Z (list (Block nat))
           (Examples.env false false) (Examples.chainAt 1) Examples.block1
           [1; 2; 3]%nat [1; 2; 3; 4]%nat
           [Examples.genesis; Examples.block1]
           (repeat x0b 32) (x0e :: repeat x0b 32));
    vm_compute; reflexivity.
Defined.


Lemma C7_rebuild_errors_and_reset_witness :
  let c' := snd (CurrentChain.RebuildChain nat (list nat) Z (list (Block nat))
                   (Examples.env false true) (Examples.chainAt 0)) in
  fst (CurrentChain.RebuildChain nat (list nat) Z (list (Block nat))
         (Examples.env false true) (Examples.chainAt 0)) = Panic
  /\ CurrentChain.p c' = []
  /\ CurrentChain.lastCertificate c' = Some Examples.emptyCert
  /\ CurrentChain.tip c' = Examples.genesis.
Proof.
  pose proof (C7_rebuild_errors_and_reset nat (list nat) Z (list (Block nat))
                (Examples.env false true) (Examples.chainAt 0)) as H.
  cbv zeta in H. destruct H as (_ & Hpanic & Hreset).
  cbv zeta. split.
  - apply Hpanic; [reflexivity|].
    right. right. split; [exists Examples.genesis; reflexivity|].
    split; [reflexivity|]. vm_compute. discriminate.
  - destruct (Hreset Examples.genesis eq_refl eq_refl eq_refl)
      as (Hp & Hl & Ht & _).
    split; [exact Hp|]. split; [exact Hl|exact Ht].
Defined.

Lemma C8_genesis_boot_witness :
  exists c,
    CurrentChain.New nat (list nat) Z (list (Block nat))
      (Examples.env false false) 0 [] = Ok c
    /\ CurrentChain.tip c = Examples.genesis
    /\ CurrentChain.lastCertificate c = Some Examples.emptyCert
    /\ CurrentChain.calls
         (snd (CurrentChain.onInitialization nat (list nat) Z
                 (list (Block nat)) c
                 (CurrentChain.message_New CurrentChain.Initialization
                    CurrentChain.EMPTY)))
       = [CurrentChain.Publish CurrentChain.RoundUpdate
            (CurrentChain.message_New CurrentChain.RoundUpdate
               (CurrentChain.OfRoundUpdate
                  (CurrentChain.mkRoundUpdate 1 [] (make_bytes 33)
                                              (repeat x0a 32))))].
Proof.
  eexists. split; [vm_compute; reflexivity|].
  destruct (C8_genesis_boot nat (list nat) Z (list (Block nat))
              (Examples.env false false) 0 [] [Examples.genesis]
              Examples.genesis _
              (CurrentChain.message_New CurrentChain.Initialization
                 CurrentChain.EMPTY)
              eq_refl eq_refl eq_refl)
    as (Ht & _ & Hl & _ & _ & Hc & _).
  split; [exact Ht|]. split; [exact Hl|exact Hc].
Defined.

(** * Further properties of the code *)

(** ** Headers and blocks on the wire *)

Lemma wrap64_range (z : Z) : 0 <= wrap64 z < 2 ^ 64.
Proof. unfold wrap64. apply Z.mod_pos_bound. lia. Qed.

Lemma to_int64_to_uint64 (t : Z) :
  - 2 ^ 63 <= t < 2 ^ 63 -> to_int64 (to_uint64 t) = t.
Proof.
  intros Ht. unfold to_int64, to_uint64, wrap64.
  rewrite Z.mod_mod by lia.
  destruct (Z_lt_le_dec t 0) as [Hneg|Hpos].
  - assert (Hm : t mod 2 ^ 64 = t + 2 ^ 64).
    { symmetry. apply (Z.mod_unique t (2 ^ 64) (-1) (t + 2 ^ 64)); lia. }
    rewrite Hm.
    destruct (t + 2 ^ 64 <? 2 ^ 63) eqn:E; [apply Z.ltb_lt in E|]; lia.
  - rewrite Z.mod_small by lia.
    destruct (t <? 2 ^ 63) eqn:E; [reflexivity|]. apply Z.ltb_ge in E. lia.
Qed.

Lemma certificate_bytes_length (c : Certificate) :
  List.length (StepOneBatchedSig c) = 33%nat ->
  List.length (StepTwoBatchedSig c) = 33%nat ->
  List.length (certificate_bytes c) = 83%nat.
Proof.
  intros H1 H2. unfold certificate_bytes.
  rewrite !length_app, H1, H2, !le_encode_length. reflexivity.
Qed.

Lemma header_bytes_length (h : Header) :
  WireBlock.Header_typed h -> List.length (WireBlock.header_bytes h) = 229%nat.
Proof.
  intros (_ & _ & _ & Hp & Hs & Hr & Hh & H1 & H2 & _).
  unfold WireBlock.header_bytes.
  rewrite !length_app, Hp, Hs, Hr, Hh, !le_encode_length,
    (certificate_bytes_length _ H1 H2). reflexivity.
Qed.

Lemma MarshalHeader_bytes (r : Buffer) (h : Header) :
  WireBlock.Header_typed h ->
  Wire.MarshalHeader r h = (None, r ++ WireBlock.header_bytes h).
Proof.
  intros (_ & _ & _ & Hp & Hs & Hr & Hh & H1 & H2 & _).
  unfold Wire.MarshalHeader, Wire.MarshalHashable, Encoding.WriteUint8,
    Encoding.WriteUint64LE, Encoding.Write256, Encoding.WriteBLS.
  rewrite (writeFixed_ok _ _ _ _ Hp), (writeFixed_ok _ _ _ _ Hs),
    (writeFixed_ok _ _ _ _ Hr), (MarshalCertificate_bytes _ _ H1 H2),
    (writeFixed_ok _ _ _ _ Hh).
  unfold WireBlock.header_bytes. now rewrite <- !app_assoc.
Qed.

Lemma UnmarshalHeader_bytes (h h0 : Header) (rest : Buffer) :
  WireBlock.Header_typed h ->
  Wire.UnmarshalHeader (WireBlock.header_bytes h ++ rest) h0 = (None, rest, h).
Proof.
  intros (Hv & Hg & Ht & Hp & Hs & Hr & Hh & H1 & H2 & Hc).
  unfold Wire.UnmarshalHeader, WireBlock.header_bytes.
  rewrite <- !app_assoc. cbn [app].
  rewrite (ReadUint8_app _ _ Hv).
  unfold Encoding.ReadUint64LE, Encoding.Read256, Encoding.ReadBLS.
  rewrite (readLE_app 8 _ _ Hg).
  unfold to_uint64.
  rewrite (readLE_app 8 _ _ (wrap64_range (Timestamp h))).
  change (wrap64 (Timestamp h)) with (to_uint64 (Timestamp h)).
  rewrite (to_int64_to_uint64 _ Ht).
  cbn [Wire.set_Version Wire.set_Height Wire.set_Timestamp
       Wire.set_PrevBlockHash Wire.set_Seed Wire.set_TxRoot
       Wire.set_Certificate Wire.set_Hash
       Version Height Timestamp PrevBlockHash Seed TxRoot HCertificate Hash].
  rewrite (readFixed_app 32 _ _ _ _ Hp (make_bytes_length 32)).
  rewrite (readFixed_app 33 _ _ _ _ Hs (make_bytes_length 33)).
  rewrite (readFixed_app 32 _ _ _ _ Hr (make_bytes_length 32)).
  rewrite (UnmarshalCertificate_bytes _ _ _ H1 H2 Hc).
  cbn [Wire.set_Hash Hash].
  rewrite (readFixed_app 32 _ _ _ _ Hh (make_bytes_length 32)).
  destruct h; reflexivity.
Qed.

(** X1.  A header whose fields have their wire sizes is written by
    [MarshalHeader] as 229 bytes appended to the buffer, and
    [UnmarshalHeader] reads those bytes back into the same header, a
    negative timestamp included, leaving what follows them in the buffer. *)
Theorem X1_header_roundtrip (h h0 : Header) (r rest : Buffer) :
  WireBlock.Header_typed h ->
  exists hb,
    Wire.MarshalHeader r h = (None, r ++ hb)
    /\ List.length hb = 229%nat
    /\ Wire.UnmarshalHeader (hb ++ rest) h0 = (None, rest, h).
Proof.
  intros Ht. exists (WireBlock.header_bytes h). split; [|split].
  - now apply MarshalHeader_bytes.
  - now apply header_bytes_length.
  - now apply UnmarshalHeader_bytes.
Qed.

Lemma VarInt_roundtrip (n : Z) (r rest : Buffer) :
  is_uint64 n ->
  exists vb,
    WireBlock.WriteVarInt r n = (None, r ++ vb)
    /\ Encoding.ReadVarInt (vb ++ rest) = (Ok n, rest).
Proof.
  unfold is_uint64. intros Hn. unfold WireBlock.WriteVarInt.
  destruct (n <? 253) eqn:E1.
  - apply Z.ltb_lt in E1. exists [byte_of_Z n]. split; [reflexivity|].
    unfold Encoding.ReadVarInt. cbn [app].
    rewrite ReadUint8_app by (unfold is_uint8; lia).
    destruct (n =? 255) eqn:A; [apply Z.eqb_eq in A; lia|].
    destruct (n =? 254) eqn:B; [apply Z.eqb_eq in B; lia|].
    destruct (n =? 253) eqn:C; [apply Z.eqb_eq in C; lia|]. reflexivity.
  - apply Z.ltb_ge in E1. destruct (n <=? 65535) eqn:E2.
    + apply Z.leb_le in E2. exists (xfd :: le_encode 2 n).
      split; [reflexivity|].
      unfold Encoding.ReadVarInt, Encoding.ReadUint16LE. cbn [app Encoding.ReadUint8].
      change (Z_of_byte xfd) with 253. cbn [Z.eqb Pos.eqb].
      apply readLE_app. change (256 ^ Z.of_nat 2) with 65536. lia.
    + apply Z.leb_gt in E2. destruct (n <=? 4294967295) eqn:E3.
      * apply Z.leb_le in E3. exists (xfe :: le_encode 4 n).
        split; [reflexivity|].
        unfold Encoding.ReadVarInt, Encoding.ReadUint32LE.
        cbn [app Encoding.ReadUint8].
        change (Z_of_byte xfe) with 254. cbn [Z.eqb Pos.eqb].
        apply readLE_app. change (256 ^ Z.of_nat 4) with 4294967296. lia.
      * apply Z.leb_gt in E3. exists (xff :: le_encode 8 n).
        split; [reflexivity|].
        unfold Encoding.ReadVarInt, Encoding.ReadUint64LE.
        cbn [app Encoding.ReadUint8].
        change (Z_of_byte xff) with 255. cbn [Z.eqb Pos.eqb].
        apply readLE_app. change (256 ^ Z.of_nat 8) with (2 ^ 64). lia.
Qed.

Section BlockRoundTrip.
Variable ContractCall : Type.
Variable MarshalTx : Buffer -> option ContractCall -> option error * Buffer.
Variable unmarshalTx : Wire.unmarfunc ContractCall.

Lemma unmarshalLoop_keeps_slots (todo : list (option ContractCall)) :
  forall (r : Buffer) (done : list (option ContractCall)),
    snd (Wire.unmarshalLoop ContractCall unmarshalTx r done todo) = done ++ todo.
Proof.
  induction todo as [|c todo IH]; intros r done; cbn [Wire.unmarshalLoop].
  - now rewrite app_nil_r.
  - destruct (unmarshalTx r c) as [[err|] r']; [reflexivity|].
    rewrite IH, <- app_assoc. reflexivity.
Qed.

(** X2.  [UnmarshalBlock] never stores a decoded transaction.  Whatever
    the transaction decoder does, the block it leaves has either the
    transaction list it had (with an error: the header, the count or the
    bound failed) or as many nil slots as the count read: each slot is
    handed to the decoder by value and written back as it was. *)
Theorem X2_unmarshal_block_leaves_nil_slots (r : Buffer)
    (b : Block ContractCall) :
  let '(err, _, b') := Wire.UnmarshalBlock ContractCall unmarshalTx r b in
  (Txs b' = Txs b /\ err <> None)
  \/ exists lTxs, 0 <= lTxs <= Wire.MaxInt32 / 8
                  /\ Txs b' = repeat None (Z.to_nat lTxs).
Proof.
  unfold Wire.UnmarshalBlock, Wire.unmarshalBlockTxs.
  destruct (Wire.UnmarshalHeader r (BHeader b)) as [[[e|] r1] h].
  - left. split; [reflexivity|discriminate].
  - destruct (Encoding.ReadVarInt r1) as [[lTxs|e] r2].
    + destruct (lTxs >? Wire.MaxInt32 / 8) eqn:E.
      * left. split; [reflexivity|discriminate].
      * cbn [Txs BHeader].
        pose proof (unmarshalLoop_keeps_slots (repeat None (Z.to_nat lTxs)) r2 [])
          as Hs.
        destruct (Wire.unmarshalLoop ContractCall unmarshalTx r2 []
                    (repeat None (Z.to_nat lTxs))) as [[err r3] txs].
        cbn [snd app] in Hs. subst txs. cbn [Txs].
        destruct (Z_lt_le_dec lTxs 0) as [Hneg|Hpos].
        -- right. exists 0. split; [cbv; split; discriminate|].
           destruct lTxs; try lia. reflexivity.
        -- right. exists lTxs. split; [|reflexivity].
           split; [lia|]. destruct (Z.gtb_spec lTxs (Wire.MaxInt32 / 8)); [discriminate|lia].
    + left. split; [reflexivity|discriminate].
Qed.

Variable enc : option ContractCall -> bytes.
Hypothesis MarshalTx_enc :
  forall r tx, MarshalTx r tx = (None, r ++ enc tx).

Lemma marshalTxs_concat (txs : list (option ContractCall)) :
  forall r, WireBlock.marshalTxs ContractCall MarshalTx r txs
            = (None, r ++ List.concat (map enc txs)).
Proof.
  induction txs as [|tx txs IH]; intros r; cbn [WireBlock.marshalTxs map List.concat].
  - now rewrite app_nil_r.
  - rewrite MarshalTx_enc, IH, <- app_assoc. reflexivity.
Qed.

Lemma read_n_txs_concat (txs : list (option ContractCall)) (rest : Buffer) :
  (forall tx tail, In tx txs -> unmarshalTx (enc tx ++ tail) None = (None, tail)) ->
  Wire.read_n_txs ContractCall unmarshalTx (List.length txs)
    (List.concat (map enc txs) ++ rest) = (None, rest).
Proof.
  induction txs as [|tx txs IH]; intros Hd; cbn [List.length map List.concat Wire.read_n_txs].
  - reflexivity.
  - rewrite <- app_assoc, Hd by (left; reflexivity).
    apply IH. intros t tail Hin. apply Hd. now right.
Qed.

(** X3.  Marshalling a block and unmarshalling the result gives back the
    header and the number of transactions, not the transactions.  For a
    block with a well-sized header and at most MaxInt32 / 8 transactions,
    [MarshalBlock] writes the header, the count as a varint and the
    transactions in order; [UnmarshalBlock], run on these bytes with a
    decoder that consumes what [MarshalTx] wrote, succeeds, consumes exactly
    these bytes, and returns the header with one nil slot per transaction. *)
Theorem X3_block_marshal_unmarshal (b b0 : Block ContractCall) (rest : Buffer) :
  WireBlock.Header_typed (BHeader b) ->
  Z.of_nat (List.length (Txs b)) <= Wire.MaxInt32 / 8 ->
  (forall tx tail, In tx (Txs b) ->
                   unmarshalTx (enc tx ++ tail) None = (None, tail)) ->
  exists vb,
    WireBlock.MarshalBlock ContractCall MarshalTx [] b
    = (None, WireBlock.header_bytes (BHeader b) ++ vb
             ++ List.concat (map enc (Txs b)))
    /\ Encoding.ReadVarInt (vb ++ rest) = (Ok (Z.of_nat (List.length (Txs b))), rest)
    /\ Wire.UnmarshalBlock ContractCall unmarshalTx
         (snd (WireBlock.MarshalBlock ContractCall MarshalTx [] b) ++ rest) b0
       = (None, rest,
          mkBlock (BHeader b) (repeat None (List.length (Txs b)))).
Proof.
  intros Hh Hn Hd.
  assert (Hb : Wire.MaxInt32 / 8 = 268435455) by reflexivity.
  set (n := Z.of_nat (List.length (Txs b))) in *.
  assert (Hu : is_uint64 n) by (unfold is_uint64; lia).
  assert (Hw : to_uint64 n = n)
    by (unfold to_uint64, wrap64; apply Z.mod_small; unfold is_uint64 in Hu; lia).
  destruct (VarInt_roundtrip n (WireBlock.header_bytes (BHeader b)) rest Hu)
    as (vb & Hwr & _).
  assert (Hrd : forall tail, Encoding.ReadVarInt (vb ++ tail) = (Ok n, tail)).
  { intros tail.
    destruct (VarInt_roundtrip n (WireBlock.header_bytes (BHeader b)) tail Hu)
      as (vb' & Hwr' & Hrd').
    rewrite Hwr in Hwr'. injection Hwr' as Heq.
    apply app_inv_head in Heq. now subst vb'. }
  assert (Hm : WireBlock.MarshalBlock ContractCall MarshalTx [] b
               = (None, WireBlock.header_bytes (BHeader b) ++ vb
                        ++ List.concat (map enc (Txs b)))).
  { unfold WireBlock.MarshalBlock.
    rewrite (MarshalHeader_bytes [] _ Hh). cbn [app].
    fold n. rewrite Hw, Hwr, marshalTxs_concat, <- app_assoc. reflexivity. }
  exists vb. split; [exact Hm|]. split; [apply Hrd|].
  rewrite Hm. cbn [snd]. rewrite <- !app_assoc.
  unfold Wire.UnmarshalBlock, Wire.unmarshalBlockTxs.
  rewrite (UnmarshalHeader_bytes _ _ _ Hh), Hrd.
  assert (Hgt : (n >? Wire.MaxInt32 / 8) = false).
  { destruct (Z.gtb_spec n (Wire.MaxInt32 / 8)); [lia|reflexivity]. }
  rewrite Hgt. cbn [BHeader Txs].
  rewrite unmarshalLoop_nil_slots. unfold n. rewrite Nat2Z.id.
  rewrite (read_n_txs_concat _ _ Hd). reflexivity.
Qed.

End BlockRoundTrip.

(** ** The reduction coordinator: timeouts, errors and panics *)

Section CoordinatorRuns.
Variable Event : Type.
Variable EmbedVoteHash : option Event -> Buffer -> option error * Buffer.
Variable MarshalHeader : Buffer -> Reduction.consensusState -> option error * Buffer.
Variable MarshalVoteSet : Buffer -> Reduction.slice (option Event) -> option error * Buffer.
Variable Quorum : Z.

(** X4.  A reduction in which both phases time out.  With a quorum of at
    least one, and a handler that embeds the nil event and marshals the
    header, [begin] signals the timeout of phase 1, sends the phase-1 hash
    to be voted on, signals the timeout of phase 2, sends nothing toward
    agreement, advances the step twice and returns nil. *)
Theorem X4_reduction_double_timeout (state : Reduction.consensusState)
    (hash0 hash1 : Buffer) :
  1 <= Quorum < 2 ^ 62 ->
  EmbedVoteHash None (make_bytes 32) = (None, hash0) ->
  MarshalHeader hash0 (Reduction.incr_Step state) = (None, hash1) ->
  Reduction.begin Event EmbedVoteHash MarshalHeader MarshalVoteSet Quorum
    state Reduction.TimerFired Reduction.TimerFired
  = (Return None,
     Reduction.incr_Step (Reduction.incr_Step state),
     [Reduction.timeoutChan true; Reduction.reductionVoteChan hash1;
      Reduction.timeoutChan true]).
Proof.
  intros HQ He Hm.
  cbv beta iota zeta delta
    [Reduction.begin Reduction.fetch Reduction.encodeEv
     Reduction.isReductionSuccessful].
  rewrite He. cbv beta iota. rewrite Hm. cbv beta iota.
  cbn [Reduction.len app].
  rewrite to_int64_small by lia.
  assert (Hlen : (0 >=? Quorum * 2) = false).
  { destruct (Z.geb_spec 0 (Quorum * 2)); [lia|reflexivity]. }
  rewrite Hlen, andb_false_r. reflexivity.
Qed.

(** X5.  The step counts the phases that were started.  Whatever the two
    fetches deliver and whatever the handler does, a run of [begin] that
    returns nil has advanced the step twice, and a run that returns an
    error or panics has advanced it exactly once and has sent nothing
    toward agreement. *)
Theorem X5_reduction_step_by_outcome (state : Reduction.consensusState)
    (f1 f2 : Reduction.fetched Event) :
  let '(r, state', out) :=
    Reduction.begin Event EmbedVoteHash MarshalHeader MarshalVoteSet Quorum
      state f1 f2 in
  (r = Return None
   /\ state' = Reduction.incr_Step (Reduction.incr_Step state))
  \/ (r <> Return None
      /\ state' = Reduction.incr_Step state
      /\ Reduction.forwarded out = false).
Proof.
  unfold Reduction.begin.
  destruct (Reduction.fetch Event f1) as [events out1] eqn:F1.
  destruct (Reduction.fetch Event f2) as [events2 out2] eqn:F2.
  pose proof (fetch_not_forwarded Event f1) as N1. rewrite F1 in N1. cbn [snd] in N1.
  pose proof (fetch_not_forwarded Event f2) as N2. rewrite F2 in N2. cbn [snd] in N2.
  destruct (Reduction.encodeEv Event EmbedVoteHash events) as [[h10|e]|];
    try (right; repeat split; [discriminate|exact N1]).
  destruct (MarshalHeader h10 (Reduction.incr_Step state)) as [[e|] h1];
    try (right; repeat split; [discriminate|exact N1]).
  assert (Hsent : Reduction.forwarded
                    ((out1 ++ [Reduction.reductionVoteChan h1]) ++ out2) = false).
  { rewrite !existsb_app_agreement, N1, N2. reflexivity. }
  destruct (Reduction.encodeEv Event EmbedVoteHash events2) as [[h2|e]|];
    try (right; repeat split; [discriminate|exact Hsent]).
  destruct (Reduction.isReductionSuccessful Event Quorum (Some h1) (Some h2) events)
    as [[|]|]; try (right; repeat split; [discriminate|exact Hsent]).
  - destruct (MarshalVoteSet h2 events) as [[e|] h2'];
      try (right; repeat split; [discriminate|exact Hsent]).
    destruct (MarshalHeader h2' (Reduction.incr_Step state)) as [[e|] h2''];
      try (right; repeat split; [discriminate|exact Hsent]).
    left. split; reflexivity.
  - left. split; reflexivity.
Qed.

(** X6.  A collected vote slice that is empty but not nil is not treated
    as a timeout: [encodeEv] indexes its first element and panics.  In
    phase 1 the panic comes before anything is sent; in phase 2 it comes
    after the phase-1 hash was sent to be voted on.  Either way the step
    was advanced once. *)
Theorem X6_reduction_empty_slice_panics (state : Reduction.consensusState)
    (f : Reduction.fetched Event) :
  Reduction.begin Event EmbedVoteHash MarshalHeader MarshalVoteSet Quorum
    state (Reduction.Collected (Some [])) f
  = (Panic, Reduction.incr_Step state, [])
  /\ (forall hash0 hash1,
        EmbedVoteHash None (make_bytes 32) = (None, hash0) ->
        MarshalHeader hash0 (Reduction.incr_Step state) = (None, hash1) ->
        Reduction.begin Event EmbedVoteHash MarshalHeader MarshalVoteSet Quorum
          state Reduction.TimerFired (Reduction.Collected (Some []))
        = (Panic, Reduction.incr_Step state,
           [Reduction.timeoutChan true; Reduction.reductionVoteChan hash1])).
Proof.
  split.
  - reflexivity.
  - intros hash0 hash1 He Hm.
    cbv beta iota zeta delta
      [Reduction.begin Reduction.fetch Reduction.encodeEv].
    rewrite He. cbv beta iota. rewrite Hm. reflexivity.
Qed.

End CoordinatorRuns.

(** ** The current chain: what acceptance touches and what it leaves *)

(** Unfolds the chain operations on a chain given by its fields. *)
Ltac chain_run :=
  cbv beta iota zeta delta
    [CurrentChain.AcceptBlock CurrentChain.onAcceptBlock
     CurrentChain.beginAccepting CurrentChain.advertiseBlock
     CurrentChain.handleCertificateMessage CurrentChain.Listen
     CurrentChain.onInitialization CurrentChain.sendRoundUpdate
     CurrentChain.getRoundUpdate CurrentChain.go_sendRoundUpdate
     CurrentChain.processCandidateVerificationRequest
     CurrentChain.provideLastCertificate CurrentChain.provideLastCommittee
     CurrentChain.RebuildChain CurrentChain.resetState
     CurrentChain.eventBus_Publish CurrentChain.record
     CurrentChain.do_tip_Set CurrentChain.do_loader_Append
     CurrentChain.do_counter_Decrement
     CurrentChain.set_p CurrentChain.set_counter CurrentChain.set_loader
     CurrentChain.set_tip CurrentChain.set_lastCertificate
     CurrentChain.set_lastCommittee CurrentChain.set_highestSeen
     CurrentChain.p CurrentChain.counter CurrentChain.loader
     CurrentChain.tip CurrentChain.lastCertificate
     CurrentChain.lastCommittee CurrentChain.highestSeen
     CurrentChain.calls].

Section ChainFrame.
Variables ContractCall Provisioners Counter Storage : Type.
Variable E : CurrentChain.Collaborators ContractCall Provisioners Counter Storage.

Import CurrentChain.

Local Arguments AcceptBlock {_ _ _ _} _ _ _.
Local Arguments onAcceptBlock {_ _ _ _} _ _ _.
Local Arguments handleCertificateMessage {_ _ _ _} _ _ _.
Local Arguments Listen {_ _ _ _} _ _ _.
Local Arguments RebuildChain {_ _ _ _} _ _.
Local Arguments New {_ _ _ _} _ _ _.
Local Arguments eventBus_Publish {_ _ _ _} _ _ _.
Local Arguments record {_ _ _ _} _ _.
Local Arguments provideLastCertificate {_ _ _ _} _.

(** What [AcceptBlock] can do to a chain, in every outcome. *)
Lemma AcceptBlock_frame
    (c : ChainT ContractCall Provisioners Counter Storage)
    (blk : Block ContractCall) :
  let c' := snd (AcceptBlock E c blk) in
  lastCertificate c' = lastCertificate c
  /\ lastCommittee c' = lastCommittee c
  /\ highestSeen c' = highestSeen c
  /\ (exists added, calls c' = calls c ++ added)
  /\ ((tip c' = tip c /\ loader c' = loader c /\ counter c' = counter c
       /\ calls c' = calls c)
      \/ (SanityCheckBlock E (tip c) blk = None
          /\ exists provisioners provisioners',
              GetProvisioners E = Ok provisioners
              /\ CheckBlockCertificate E provisioners blk = None
              /\ ExecuteStateTransition E (Txs blk) (Height (BHeader blk))
                 = (provisioners', None)
              /\ tip c' = blk /\ p c' = provisioners')).
Proof.
  destruct c as [p0 counter0 loader0 tip0 cert0 committee0 seen0 calls0].
  chain_run.
  assert (Hnil : exists added : list (call ContractCall Provisioners),
             calls0 = calls0 ++ added)
    by (exists []; now rewrite app_nil_r).
  destruct (SanityCheckBlock E tip0 blk) as [e|] eqn:HS; cbn [snd].
  { do 3 (split; [reflexivity|]). split; [exact Hnil|]. left. repeat split. }
  destruct (GetProvisioners E) as [ps|e] eqn:HG; cbn [snd].
  2:{ do 3 (split; [reflexivity|]). split; [exact Hnil|]. left. repeat split. }
  destruct (CheckBlockCertificate E ps blk) as [e|] eqn:HC; cbn [snd].
  { do 3 (split; [reflexivity|]). split; [exact Hnil|]. left. repeat split. }
  destruct (ExecuteStateTransition E (Txs blk) (Height (BHeader blk)))
    as [ps' [e|]] eqn:HE; cbn [snd].
  { do 3 (split; [reflexivity|]). split; [exact Hnil|]. left. repeat split. }
  assert (Hpassed :
            @None error = None
            /\ exists provisioners provisioners',
                Ok ps = Ok provisioners
                /\ CheckBlockCertificate E provisioners blk = None
                /\ (ps', @None error) = (provisioners', None)
                /\ blk = blk /\ ps' = provisioners').
  { split; [reflexivity|]. exists ps, ps'. repeat split. exact HC. }
  destruct (Append E loader0 blk) as [[e|] st]; cbn [snd].
  { do 3 (split; [reflexivity|]).
    split; [rewrite <- ?app_assoc; eexists; reflexivity|]. right. exact Hpassed. }
  destruct (Inv_Encode E [] [(InvTypeBlock, Hash (BHeader blk))]) as [[e|] b0];
    cbn [snd].
  { do 3 (split; [reflexivity|]).
    split; [rewrite <- ?app_assoc; eexists; reflexivity|]. right. exact Hpassed. }
  destruct (topics_Prepend E b0 Inv) as [[e|] b1]; cbn [snd].
  { do 3 (split; [reflexivity|]).
    split; [rewrite <- ?app_assoc; eexists; reflexivity|]. right. exact Hpassed. }
  do 3 (split; [reflexivity|]).
  split; [rewrite <- ?app_assoc; eexists; reflexivity|]. right. exact Hpassed.
Qed.

(** X7.  [AcceptBlock] never changes the last certificate, the last
    committee or the highest height seen, and only adds to the calls made.
    Unless the block passed the sanity check, the certificate check and the
    state transition, it also leaves the tip, the storage and the counter
    alone and makes no call at all; when it sets the tip, the tip is that
    block and the provisioners are those the state transition returned. *)
Theorem X7_accept_block_frame
    (c : ChainT ContractCall Provisioners Counter Storage)
    (blk : Block ContractCall) :
  let c' := snd (AcceptBlock E c blk) in
  lastCertificate c' = lastCertificate c
  /\ lastCommittee c' = lastCommittee c
  /\ highestSeen c' = highestSeen c
  /\ (exists added, calls c' = calls c ++ added)
  /\ ((tip c' = tip c /\ loader c' = loader c /\ counter c' = counter c
       /\ calls c' = calls c)
      \/ (SanityCheckBlock E (tip c) blk = None
          /\ exists provisioners provisioners',
              GetProvisioners E = Ok provisioners
              /\ CheckBlockCertificate E provisioners blk = None
              /\ ExecuteStateTransition E (Txs blk) (Height (BHeader blk))
                 = (provisioners', None)
              /\ tip c' = blk /\ p c' = provisioners')).
Proof. exact (AcceptBlock_frame c blk). Qed.

End ChainFrame.

Section ChainHandlers.
Variables ContractCall Provisioners Counter Storage : Type.
Variable E : CurrentChain.Collaborators ContractCall Provisioners Counter Storage.

Import CurrentChain.

Local Arguments AcceptBlock {_ _ _ _} _ _ _.
Local Arguments onAcceptBlock {_ _ _ _} _ _ _.
Local Arguments handleCertificateMessage {_ _ _ _} _ _ _.
Local Arguments Listen {_ _ _ _} _ _ _.
Local Arguments RebuildChain {_ _ _ _} _ _.
Local Arguments New {_ _ _ _} _ _ _.
Local Arguments eventBus_Publish {_ _ _ _} _ _ _.
Local Arguments record {_ _ _ _} _ _.
Local Arguments provideLastCertificate {_ _ _ _} _.

(** X8.  [handleCertificateMessage] records the certificate and the
    committee of the message before it fetches the candidate, so they stay
    recorded in every outcome; when the candidate cannot be fetched the
    handler returns with the tip, the provisioners, the storage and the
    counter as they were, the request being the only call made. *)
Theorem X8_certificate_recorded_before_acceptance
    (c : ChainT ContractCall Provisioners Counter Storage) (cMsg : certMsg) :
  let params :=
    snd (Encoding.WriteBool (snd (Encoding.Write256 [] (cm_hash cMsg))) true) in
  let c' := snd (handleCertificateMessage E c cMsg) in
  lastCertificate c' = Some (cm_cert cMsg)
  /\ lastCommittee c' = cm_committee cMsg
  /\ (forall err,
        rpcBus_GetCandidate E params = Err err ->
        fst (handleCertificateMessage E c cMsg) = Return tt
        /\ tip c' = tip c /\ p c' = p c /\ loader c' = loader c
        /\ counter c' = counter c
        /\ calls c' = calls c ++ [rpcBus_Call GetCandidate params]).
Proof.
  cbv zeta. unfold handleCertificateMessage.
  set (params := snd (Encoding.WriteBool
                        (snd (Encoding.Write256 [] (cm_hash cMsg))) true)).
  set (c1 := record (rpcBus_Call GetCandidate params) _).
  assert (H1 : lastCertificate c1 = Some (cm_cert cMsg)
               /\ lastCommittee c1 = cm_committee cMsg)
    by (destruct c; split; reflexivity).
  destruct (rpcBus_GetCandidate E params) as [[[[cand|]]|]|e].
  4:{ cbn [fst snd]. split; [apply H1|]. split; [apply H1|].
      intros err _. destruct c. repeat split. }
  2,3: cbn [fst snd Candidate_Block];
       (split; [apply H1|]); (split; [apply H1|]); discriminate.
  - cbn [Candidate_Block]. set (won := mkBlock _ (Txs cand)).
    pose proof (AcceptBlock_frame _ _ _ _ E c1 won) as (Hc & Hm & _).
    destruct (AcceptBlock E c1 won) as [[[e|]|] c2]; cbn [fst snd] in *.
    + rewrite Hc, Hm. split; [apply H1|]. split; [apply H1|]. discriminate.
    + destruct c2. cbn in *. rewrite Hc, Hm.
      split; [apply H1|]. split; [apply H1|]. discriminate.
    + rewrite Hc, Hm. split; [apply H1|]. split; [apply H1|]. discriminate.
Qed.

(** X9.  A block from a peer that is rejected still stops consensus: when
    the counter is syncing and the block on the Block topic fails the
    sanity check, [onAcceptBlock] returns the verifier's error, and the
    chain is as it was except that StopConsensus has been published. *)
Theorem X9_rejected_block_stops_consensus
    (c : ChainT ContractCall Provisioners Counter Storage)
    (m : Message ContractCall Provisioners) (blk : Block ContractCall)
    (err : error) :
  Payload m = OfBlock blk ->
  IsSyncing E (counter c) = true ->
  SanityCheckBlock E (tip c) blk = Some err ->
  onAcceptBlock E c m
  = (Return (Some err),
     eventBus_Publish StopConsensus (message_New StopConsensus EMPTY) c).
Proof.
  intros Hm Hy Hs. destruct c as [p0 counter0 loader0 tip0 cert0 committee0 seen0 calls0].
  cbn [counter tip] in Hy, Hs. chain_run. rewrite Hm, Hy. cbn [negb].
  rewrite Hs. reflexivity.
Qed.

(** X10.  The block that ends a synchronisation restarts consensus for the
    next round.  When the counter is syncing, the block on the Block topic
    passes all checks and is stored and advertised, [onAcceptBlock] returns
    nil, the block's certificate is the last certificate, and the calls are
    the StopConsensus publication followed by those of [AcceptBlock]; if
    the decremented counter is no longer syncing they end with a round
    update handed to a goroutine, for round block height + 1 (as uint64),
    with the provisioners of the state transition and the seed and hash of
    the block; if it is still syncing no round update is sent. *)
Theorem X10_sync_completion_sends_round_update
    (c : ChainT ContractCall Provisioners Counter Storage)
    (m : Message ContractCall Provisioners) (blk : Block ContractCall)
    (provisioners provisioners' : Provisioners) (st : Storage)
    (buf0 buf : Buffer) :
  Payload m = OfBlock blk ->
  IsSyncing E (counter c) = true ->
  SanityCheckBlock E (tip c) blk = None ->
  GetProvisioners E = Ok provisioners ->
  CheckBlockCertificate E provisioners blk = None ->
  ExecuteStateTransition E (Txs blk) (Height (BHeader blk))
    = (provisioners', None) ->
  Append E (loader c) blk = (None, st) ->
  Inv_Encode E [] [(InvTypeBlock, Hash (BHeader blk))] = (None, buf0) ->
  topics_Prepend E buf0 Inv = (None, buf) ->
  let accepted :=
    [Publish StopConsensus (message_New StopConsensus EMPTY);
     tip_Set blk; loader_Append blk;
     Publish Gossip (message_New Inv (OfBuffer buf));
     Publish AcceptedBlock (message_New AcceptedBlock (OfBlock blk));
     counter_Decrement] in
  let ru :=
    mkRoundUpdate (wrap64 (Height (BHeader blk) + 1)) provisioners'
                  (Seed (BHeader blk)) (Hash (BHeader blk)) in
  onAcceptBlock E c m
  = (Return None,
     mkChain provisioners' (Decrement E (counter c)) st blk
       (Some (HCertificate (BHeader blk))) (lastCommittee c) (highestSeen c)
       (calls c ++ accepted
        ++ (if IsSyncing E (Decrement E (counter c)) then []
            else [Go_Publish RoundUpdate
                    (message_New RoundUpdate (OfRoundUpdate ru))]))).
Proof.
  intros Hm Hy Hs Hg Hc He Ha Hi Ht.
  destruct c as [p0 counter0 loader0 tip0 cert0 committee0 seen0 calls0].
  cbn [counter tip loader lastCommittee highestSeen calls] in *.
  chain_run. rewrite Hm, Hy. cbn [negb].
  rewrite Hs, Hg, Hc, He, Ha, Hi, Ht.
  destruct (IsSyncing E (Decrement E counter0)); cbn [negb];
    rewrite <- !app_assoc; reflexivity.
Qed.

(** X11.  A chain built over a tip that is not the genesis block has no
    last certificate and an empty last committee: a GetLastCertificate
    request is answered with the error "no last certificate present" and an
    empty buffer, a GetLastCommittee request with the empty committee and no
    error; neither changes anything but the answer sent. *)
Theorem X11_restarted_chain_has_no_certificate
    (counter0 : Counter) (loader0 st : Storage)
    (tip0 : Block ContractCall)
    (c : ChainT ContractCall Provisioners Counter Storage) :
  LoadTip E loader0 = (Ok tip0, st) ->
  Height (BHeader tip0) <> 0 ->
  New E counter0 loader0 = Ok c ->
  lastCertificate c = None
  /\ Listen E c getLastCertificateChan
     = (Return tt,
        record (RespChan (RespBuffer []
                 (Some (errors_New "no last certificate present"%string)))) c)
  /\ Listen E c getLastCommitteeChan
     = (Return tt, record (RespChan (RespCommittee [])) c).
Proof.
  intros HL H0 HN. unfold New in HN.
  destruct (rpcBus_Register E VerifyCandidateBlock); [discriminate|].
  destruct (rpcBus_Register E GetLastCertificate); [discriminate|].
  destruct (rpcBus_Register E GetLastCommittee); [discriminate|].
  rewrite HL in HN.
  destruct (Height (BHeader tip0) =? 0) eqn:Hz;
    [apply Z.eqb_eq in Hz; contradiction|].
  destruct (newLastBlockProvider E tip0); [discriminate|].
  injection HN as <-. repeat split.
Qed.

(** X12.  Once a block from the Block topic has been accepted, its
    certificate is the one served: a GetLastCertificate request is answered
    without error with the 83 bytes of that certificate, and
    [UnmarshalCertificate] reads the answer back into it (the certificate
    having signatures of 33 bytes). *)
Theorem X12_served_certificate_is_the_accepted_one
    (c c' : ChainT ContractCall Provisioners Counter Storage)
    (m : Message ContractCall Provisioners) (blk : Block ContractCall)
    (c0 : Certificate) :
  Payload m = OfBlock blk ->
  IsSyncing E (counter c) = true ->
  onAcceptBlock E c m = (Return None, c') ->
  let cert := HCertificate (BHeader blk) in
  List.length (StepOneBatchedSig cert) = 33%nat ->
  List.length (StepTwoBatchedSig cert) = 33%nat ->
  Certificate_typed cert ->
  exists answer,
    provideLastCertificate c'
    = record (RespChan (RespBuffer answer None)) c'
    /\ List.length answer = 83%nat
    /\ Wire.UnmarshalCertificate answer c0 = (None, [], cert).
Proof.
  intros Hm Hy Hon cert H1 H2 Ht.
  assert (Hl : lastCertificate c' = Some cert).
  { unfold onAcceptBlock, beginAccepting in Hon. rewrite Hm, Hy in Hon.
    cbn [negb] in Hon.
    destruct (AcceptBlock E _ blk) as [[[e|]|] c2]; try discriminate.
    destruct (negb (IsSyncing E _)); injection Hon as <-;
      destruct c2; reflexivity. }
  exists (certificate_bytes cert). split; [|split].
  - unfold provideLastCertificate, CurrentChain.provideLastCertificate.
    rewrite Hl, (MarshalCertificate_bytes [] cert H1 H2). reflexivity.
  - apply certificate_bytes_length; assumption.
  - rewrite <- (app_nil_r (certificate_bytes cert)).
    apply UnmarshalCertificate_bytes; assumption.
Qed.

(** X13.  When [loader.Clear] fails, [RebuildChain] returns that error
    having already published StopConsensus: the tip, the provisioners, the
    last certificate and the counter are as before, and the calls made are
    the publication and the clear. *)
Theorem X13_failed_clear_has_stopped_consensus
    (c : ChainT ContractCall Provisioners Counter Storage)
    (err : error) (st : Storage) :
  Clear E (loader c) = (Some err, st) ->
  RebuildChain E c
  = (Return (Err err),
     mkChain (p c) (counter c) st (tip c) (lastCertificate c)
       (lastCommittee c) (highestSeen c)
       (calls c ++ [Publish StopConsensus (message_New StopConsensus Nil);
                    loader_Clear])).
Proof.
  intros HC. destruct c as [p0 counter0 loader0 tip0 cert0 committee0 seen0 calls0].
  cbn [loader] in HC. chain_run. rewrite HC. cbn [fst snd].
  rewrite <- app_assoc. reflexivity.
Qed.

(** X14.  When one turn of the main loop panics.  A turn of [Listen]
    returns normally if encoding the Inv message and prepending its topic
    do not fail, a message on the block channel carries a block, a request
    to verify a candidate carries a candidate with a block, and the answer
    to GetCandidate, when there is one, is a candidate with a block.  The
    three assertions are needed: a Block message with another payload, a
    verification request with other parameters or with a candidate without
    a block, and a GetCandidate answer that is not a candidate with a block
    each make the turn panic. *)
Theorem X14_listen_does_not_panic
    (c : ChainT ContractCall Provisioners Counter Storage)
    (ev : received ContractCall Provisioners) :
  ((forall buf items, fst (Inv_Encode E buf items) = None) ->
   (forall buf t, fst (topics_Prepend E buf t) = None) ->
   (forall m, ev = blockChan m -> exists blk, Payload m = OfBlock blk) ->
   (forall r_Params,
       ev = verifyCandidateBlockChan r_Params ->
       exists blk, r_Params = IsCandidate (mkCandidate (Some blk))) ->
   (forall cMsg resp,
       ev = certificateChan cMsg ->
       rpcBus_GetCandidate E
         (snd (Encoding.WriteBool
                 (snd (Encoding.Write256 [] (cm_hash cMsg))) true))
       = Ok resp ->
       exists blk, resp = IsCandidate (mkCandidate (Some blk))) ->
   fst (Listen E c ev) = Return tt)
  /\ (forall m,
        ev = blockChan m ->
        (forall blk, Payload m <> OfBlock blk) ->
        Listen E c ev = (Panic, c))
  /\ (forall r_Params,
        ev = verifyCandidateBlockChan r_Params ->
        (forall blk, r_Params <> IsCandidate (mkCandidate (Some blk))) ->
        Listen E c ev = (Panic, c))
  /\ (forall cMsg resp,
        ev = certificateChan cMsg ->
        rpcBus_GetCandidate E
          (snd (Encoding.WriteBool
                  (snd (Encoding.Write256 [] (cm_hash cMsg))) true))
        = Ok resp ->
        (forall blk, resp <> IsCandidate (mkCandidate (Some blk))) ->
        fst (Listen E c ev) = Panic).
Proof.
  split; [|split; [|split]].
  - intros HI HP Hb Hr Hc.
    assert (HA : forall c1 blk, fst (AcceptBlock E c1 blk) <> Panic).
    { intros c1 blk. unfold AcceptBlock.
      destruct (SanityCheckBlock E (tip c1) blk); [discriminate|].
      destruct (GetProvisioners E) as [ps|e]; [|discriminate].
      destruct (CheckBlockCertificate E _ blk); [discriminate|].
      destruct (ExecuteStateTransition E _ _) as [ps' [e|]]; [discriminate|].
      destruct (do_loader_Append _ _ _ _ E blk _) as [[e|] c2]; [discriminate|].
      unfold advertiseBlock.
      pose proof (HI [] [(InvTypeBlock, Hash (BHeader blk))]) as H1.
      destruct (Inv_Encode E [] _) as [o b0]. cbn [fst] in H1. subst o.
      pose proof (HP b0 Inv) as H2.
      destruct (topics_Prepend E b0 Inv) as [o b1]. cbn [fst] in H2. subst o.
      discriminate. }
    destruct ev as [m|m|cm|h|r| | |]; try reflexivity.
    + destruct (Hb m eq_refl) as [blk Hm].
      unfold Listen, onAcceptBlock. rewrite Hm.
      destruct (beginAccepting _ _ _ _ E c blk) as [[|] c1]; [|reflexivity].
      pose proof (HA c1 blk) as Hn.
      destruct (AcceptBlock E c1 blk) as [[[e|]|] c2]; cbn [fst] in *;
        try reflexivity; try congruence.
      destruct (negb (IsSyncing E _)); reflexivity.
    + unfold Listen, handleCertificateMessage.
      pose proof (Hc cm) as Hresp. specialize (Hresp) with (1 := eq_refl).
      destruct (rpcBus_GetCandidate E _) as [resp|e]; [|reflexivity].
      destruct (Hresp resp eq_refl) as [blk ->]. cbn [Candidate_Block].
      match goal with |- context [AcceptBlock E ?c1 ?b] =>
        pose proof (HA c1 b) as Hn; destruct (AcceptBlock E c1 b) as [[[e|]|] c2]
      end; cbn [fst] in *; try reflexivity; congruence.
    + destruct (Hr r eq_refl) as [blk ->].
      unfold Listen, processCandidateVerificationRequest. cbn [Candidate_Block].
      destruct (SanityCheckBlock E (tip c) blk); [reflexivity|].
      destruct (VerifyStateTransition E _ _); reflexivity.
  - intros m -> Hm. unfold Listen, onAcceptBlock.
    destruct (Payload m) as [| |blk| |]; try reflexivity.
    now destruct (Hm blk).
  - intros r -> Hr. unfold Listen, processCandidateVerificationRequest.
    destruct r as [[[blk|]]|]; try reflexivity.
    now destruct (Hr blk).
  - intros cm resp -> Hresp Hn. unfold Listen, handleCertificateMessage.
    rewrite Hresp. destruct resp as [[[blk|]]|]; try reflexivity.
    now destruct (Hn blk).
Qed.

End ChainHandlers.

(** ** The legacy chain: header check, transactions, forging *)

Section LegacyMore.
Variables Payload Transaction DB : Type.
Variable db_FetchBlockExists : DB -> bytes -> option error.
Variable db_StoreBlock : DB -> LegacyChain.Block Payload -> option error * DB.
Variable merkleRoot : list Payload -> result bytes.
Variable hashOf : LegacyChain.Header -> result bytes.
Variable checkMultiCoinbases : list Payload -> option error.
Variable asTransaction : Payload -> option Transaction.
Variable verifyTX : DB -> Z -> Z -> Transaction -> option error.
Variable propagate : LegacyChain.Block Payload -> option error.

Lemma checkBlockHeader_complete (c : LegacyChain.Chain Payload DB)
    (blk : LegacyChain.Block Payload) :
  let hdr := LegacyChain.BHeader blk in
  let prev := LegacyChain.BHeader (LegacyChain.PrevBlockOf Payload DB c) in
  LegacyChain.Version hdr <= 0 ->
  LegacyChain.PrevBlock hdr = LegacyChain.Hash prev ->
  LegacyChain.Height hdr = wrap64 (LegacyChain.Height prev + 1) ->
  LegacyChain.Timestamp hdr > LegacyChain.Timestamp prev ->
  merkleRoot (LegacyChain.Txs blk) = Ok (LegacyChain.TxRoot hdr) ->
  LegacyChain.checkBlockHeader Payload DB merkleRoot c blk = (None, blk).
Proof.
  cbv zeta. intros Hv Hp Hh Ht Hr. unfold LegacyChain.checkBlockHeader.
  assert (E1 : (LegacyChain.Version (LegacyChain.BHeader blk) >? 0) = false).
  { destruct (Z.gtb_spec (LegacyChain.Version (LegacyChain.BHeader blk)) 0);
      [lia|reflexivity]. }
  rewrite E1, Hp.
  assert (E2 : forall b, bytes_eqb b b = true) by (intros b; now apply bytes_eqb_eq).
  rewrite E2. cbn [negb]. rewrite Hh, Z.eqb_refl. cbn [negb].
  assert (E3 : (LegacyChain.Timestamp (LegacyChain.BHeader blk)
                <=? LegacyChain.Timestamp
                      (LegacyChain.BHeader (LegacyChain.PrevBlockOf Payload DB c)))
               = false) by (apply Z.leb_gt; lia).
  rewrite E3. unfold LegacyChain.SetRoot. rewrite Hr.
  cbn [LegacyChain.BHeader LegacyChain.TxRoot LegacyChain.set_TxRoot].
  rewrite E2. cbn [negb]. destruct blk as [[v t h pb tr s ch hs] txs]. reflexivity.
Qed.

(** X15.  [checkBlockHeader] returns nil exactly for a header of version
    0 whose previous hash is the hash of the tip, whose height is the tip's
    plus one (as uint64), whose timestamp is after the tip's, and whose
    transaction root is the Merkle root computed from the block's
    transactions; it then leaves the block as it was. *)
Theorem X15_checkBlockHeader_characterised (c : LegacyChain.Chain Payload DB)
    (blk : LegacyChain.Block Payload) :
  let hdr := LegacyChain.BHeader blk in
  let prev := LegacyChain.BHeader (LegacyChain.PrevBlockOf Payload DB c) in
  (fst (LegacyChain.checkBlockHeader Payload DB merkleRoot c blk) = None
   <-> LegacyChain.Version hdr <= 0
       /\ LegacyChain.PrevBlock hdr = LegacyChain.Hash prev
       /\ LegacyChain.Height hdr = wrap64 (LegacyChain.Height prev + 1)
       /\ LegacyChain.Timestamp hdr > LegacyChain.Timestamp prev
       /\ merkleRoot (LegacyChain.Txs blk) = Ok (LegacyChain.TxRoot hdr))
  /\ (fst (LegacyChain.checkBlockHeader Payload DB merkleRoot c blk) = None ->
      snd (LegacyChain.checkBlockHeader Payload DB merkleRoot c blk) = blk).
Proof.
  cbv zeta.
  assert (Hnec :
    fst (LegacyChain.checkBlockHeader Payload DB merkleRoot c blk) = None ->
    LegacyChain.Version (LegacyChain.BHeader blk) <= 0
    /\ LegacyChain.PrevBlock (LegacyChain.BHeader blk)
       = LegacyChain.Hash (LegacyChain.BHeader (LegacyChain.PrevBlockOf Payload DB c))
    /\ LegacyChain.Height (LegacyChain.BHeader blk)
       = wrap64 (LegacyChain.Height
                   (LegacyChain.BHeader (LegacyChain.PrevBlockOf Payload DB c)) + 1)
    /\ LegacyChain.Timestamp (LegacyChain.BHeader blk)
       > LegacyChain.Timestamp
           (LegacyChain.BHeader (LegacyChain.PrevBlockOf Payload DB c))
    /\ merkleRoot (LegacyChain.Txs blk)
       = Ok (LegacyChain.TxRoot (LegacyChain.BHeader blk))).
  { unfold LegacyChain.checkBlockHeader. intros H.
    destruct (Z.gtb_spec (LegacyChain.Version (LegacyChain.BHeader blk)) 0)
      as [Hv|Hv]; [discriminate|].
    destruct (bytes_eqb _ _) eqn:Eh in H; cbn [negb] in H; [|discriminate].
    destruct (_ =? _) eqn:Eg in H; cbn [negb] in H; [|discriminate].
    destruct (_ <=? _) eqn:Et in H; [discriminate|].
    unfold LegacyChain.SetRoot in H.
    destruct (merkleRoot (LegacyChain.Txs blk)) as [root|e]; [|discriminate].
    cbn [LegacyChain.BHeader LegacyChain.TxRoot LegacyChain.set_TxRoot] in H.
    destruct (bytes_eqb (LegacyChain.TxRoot (LegacyChain.BHeader blk)) root)
      eqn:Er; cbn [negb] in H; [|discriminate].
    apply bytes_eqb_eq in Eh, Er. apply Z.eqb_eq in Eg. apply Z.leb_gt in Et.
    repeat split; try assumption; try lia. now rewrite Er. }
  split; [split|].
  - exact Hnec.
  - intros (Hv & Hp & Hh & Ht & Hr).
    now rewrite (checkBlockHeader_complete c blk Hv Hp Hh Ht Hr).
  - intros H. destruct (Hnec H) as (Hv & Hp & Hh & Ht & Hr).
    now rewrite (checkBlockHeader_complete c blk Hv Hp Hh Ht Hr).
Qed.

Lemma verifyTxs_iff (c : LegacyChain.Chain Payload DB) (timestamp : Z)
    (txs : list Payload) :
  forall i,
    LegacyChain.verifyTxs Payload Transaction DB asTransaction verifyTX
      c timestamp i txs = None
    <-> forall k payload,
          nth_error txs k = Some payload ->
          exists tx, asTransaction payload = Some tx
                     /\ verifyTX (LegacyChain.db Payload DB c)
                          (i + Z.of_nat k) (to_uint64 timestamp) tx = None.
Proof.
  induction txs as [|payload0 txs IH]; intros i; cbn [LegacyChain.verifyTxs].
  - split; [|reflexivity]. intros _ [|k] payload H; discriminate.
  - split.
    + intros H [|k] payload Hk; cbn [nth_error] in Hk.
      * injection Hk as <-.
        destruct (asTransaction payload0) as [tx|]; [|discriminate].
        exists tx. split; [reflexivity|]. rewrite Z.add_0_r.
        destruct (verifyTX _ i _ tx); [discriminate|reflexivity].
      * destruct (asTransaction payload0) as [tx|]; [|discriminate].
        destruct (verifyTX _ i _ tx); [discriminate|].
        destruct (proj1 (IH (i + 1)) H k payload Hk) as (tx' & Ha & Hv).
        exists tx'. split; [exact Ha|].
        replace (i + Z.of_nat (S k)) with (i + 1 + Z.of_nat k) by lia.
        exact Hv.
    + intros H.
      destruct (H 0%nat payload0 eq_refl) as (tx & Ha & Hv).
      rewrite Z.add_0_r in Hv. rewrite Ha, Hv.
      apply IH. intros k payload Hk.
      destruct (H (S k) payload Hk) as (tx' & Ha' & Hv').
      exists tx'. split; [exact Ha'|].
      replace (i + 1 + Z.of_nat k) with (i + Z.of_nat (S k)) by lia.
      exact Hv'.
Qed.

(** X16.  For a block whose header passes [checkBlockHeader],
    [verifyBlock] returns nil exactly when [checkMultiCoinbases] accepts
    the transactions and every payload is a transaction that [verifyTX]
    accepts at its own position in the block, with the block's timestamp
    (as uint64). *)
Theorem X16_verifyBlock_checks_every_tx (c : LegacyChain.Chain Payload DB)
    (blk : LegacyChain.Block Payload) :
  fst (LegacyChain.checkBlockHeader Payload DB merkleRoot c blk) = None ->
  fst (LegacyChain.verifyBlock Payload Transaction DB merkleRoot
         checkMultiCoinbases asTransaction verifyTX c blk) = None
  <-> checkMultiCoinbases (LegacyChain.Txs blk) = None
      /\ forall k payload,
          nth_error (LegacyChain.Txs blk) k = Some payload ->
          exists tx, asTransaction payload = Some tx
                     /\ verifyTX (LegacyChain.db Payload DB c) (Z.of_nat k)
                          (to_uint64 (LegacyChain.Timestamp (LegacyChain.BHeader blk)))
                          tx = None.
Proof.
  intros Hh.
  assert (Hb : LegacyChain.checkBlockHeader Payload DB merkleRoot c blk = (None, blk)).
  { assert (Hx := Hh). unfold LegacyChain.checkBlockHeader in Hx |- *.
    destruct (LegacyChain.Version (LegacyChain.BHeader blk) >? 0); [discriminate|].
    destruct (negb (bytes_eqb _ _)); [discriminate|].
    destruct (negb (_ =? _)); [discriminate|].
    destruct (_ <=? _); [discriminate|].
    unfold LegacyChain.SetRoot in *.
    destruct (merkleRoot (LegacyChain.Txs blk)) as [root|e]; [|discriminate].
    cbn [LegacyChain.BHeader LegacyChain.TxRoot LegacyChain.set_TxRoot] in *.
    destruct (bytes_eqb (LegacyChain.TxRoot (LegacyChain.BHeader blk)) root)
      eqn:Er; cbn [negb] in *; [|discriminate].
    apply bytes_eqb_eq in Er. subst root.
    destruct blk as [[v t h pb tr s ch hs] txs]. reflexivity. }
  unfold LegacyChain.verifyBlock. rewrite Hb.
  destruct (checkMultiCoinbases (LegacyChain.Txs blk)) as [e|]; cbn [fst].
  - split; [discriminate|]. intros [H _]. discriminate.
  - rewrite verifyTxs_iff. cbn [Z.add]. split.
    + intros H. split; [reflexivity|exact H].
    + intros [_ H]. exact H.
Qed.

End LegacyMore.

Section LegacyOutcomes.
Variables Payload Transaction DB : Type.
Variable db_FetchBlockExists : DB -> bytes -> option error.
Variable db_StoreBlock : DB -> LegacyChain.Block Payload -> option error * DB.
Variable merkleRoot : list Payload -> result bytes.
Variable hashOf : LegacyChain.Header -> result bytes.
Variable checkMultiCoinbases : list Payload -> option error.
Variable asTransaction : Payload -> option Transaction.
Variable verifyTX : DB -> Z -> Z -> Transaction -> option error.
Variable propagate : LegacyChain.Block Payload -> option error.

(** X17.  How the legacy [AcceptBlock] ends, case by case.  The block it
    stores is the block it was given, except that a header check that got
    as far as the Merkle root has written the recomputed root into the
    header.  A block already stored is answered "block already exists" and
    any other answer of the lookup than [ErrBlockNotFound] is returned, the
    chain untouched; so is an error of [verifyBlock].  Otherwise the block
    is stored: if storing fails its error is returned, the tip unchanged
    and the store the only call; if it succeeds the block is the new tip,
    it is removed from the mempool and handed to gossip, and the result is
    whatever gossip returned, so that a gossip failure is reported as an
    error for a block that is stored and is the new tip. *)
Theorem X17_legacy_accept_outcomes (c : LegacyChain.Chain Payload DB)
    (blk : LegacyChain.Block Payload) :
  let seen :=
    db_FetchBlockExists (LegacyChain.db Payload DB c)
      (LegacyChain.Hash (LegacyChain.BHeader blk)) in
  let verified :=
    LegacyChain.verifyBlock Payload Transaction DB merkleRoot
      checkMultiCoinbases asTransaction verifyTX c blk in
  let b := snd verified in
  let stored := db_StoreBlock (LegacyChain.db Payload DB c) b in
  let r := LegacyChain.AcceptBlock Payload Transaction DB db_FetchBlockExists
             db_StoreBlock merkleRoot checkMultiCoinbases asTransaction
             verifyTX propagate c blk in
  (b = blk
   \/ exists root,
        merkleRoot (LegacyChain.Txs blk) = Ok root
        /\ b = LegacyChain.mkBlock
                 (LegacyChain.set_TxRoot root (LegacyChain.BHeader blk))
                 (LegacyChain.Txs blk))
  /\ (seen = None ->
      r = (Some (errors_New "block already exists"%string), c))
  /\ (forall e, seen = Some e -> e <> ErrBlockNotFound -> r = (Some e, c))
  /\ (forall err,
        seen = Some ErrBlockNotFound -> fst verified = Some err ->
        r = (Some err, c))
  /\ (forall err,
        seen = Some ErrBlockNotFound -> fst verified = None ->
        fst stored = Some err ->
        r = (Some err,
             LegacyChain.mkChain Payload DB (snd stored)
               (LegacyChain.PrevBlockOf Payload DB c)
               (LegacyChain.calls Payload DB c ++ [LegacyChain.StoreBlock b])))
  /\ (seen = Some ErrBlockNotFound -> fst verified = None ->
      fst stored = None ->
      r = (propagate b,
           LegacyChain.mkChain Payload DB (snd stored) b
             (LegacyChain.calls Payload DB c
              ++ [LegacyChain.StoreBlock b; LegacyChain.RemoveAccepted b;
                  LegacyChain.propagateBlock b]))).
Proof.
  cbv zeta. split.
  { unfold LegacyChain.verifyBlock, LegacyChain.checkBlockHeader,
      LegacyChain.SetRoot.
    destruct (LegacyChain.Version (LegacyChain.BHeader blk) >? 0);
      [left; reflexivity|].
    destruct (negb (bytes_eqb _ _)); [left; reflexivity|].
    destruct (negb (_ =? _)); [left; reflexivity|].
    destruct (_ <=? _); [left; reflexivity|].
    destruct (merkleRoot (LegacyChain.Txs blk)) as [root|e];
      [|left; reflexivity].
    right. exists root. split; [reflexivity|].
    cbn [LegacyChain.BHeader LegacyChain.TxRoot LegacyChain.set_TxRoot
         LegacyChain.Txs].
    destruct (negb (bytes_eqb _ root)); [reflexivity|].
    destruct (checkMultiCoinbases _); reflexivity. }
  unfold LegacyChain.AcceptBlock.
  destruct (db_FetchBlockExists _ _) as [e|].
  2:{ split; [reflexivity|]. repeat split; discriminate. }
  split; [discriminate|].
  assert (Hne : forall e0, e0 <> ErrBlockNotFound ->
                           error_eqb e0 ErrBlockNotFound = false)
    by (intros [| |]; [congruence|reflexivity|reflexivity]).
  split.
  { intros e0 He0 Hnot. injection He0 as <-. now rewrite (Hne e Hnot). }
  destruct (LegacyChain.verifyBlock _ _ _ _ _ _ _ c blk) as [verr blk'].
  cbn [fst snd].
  split; [|split].
  - intros err He Hv. injection He as ->. subst verr. reflexivity.
  - intros err He Hv Hs. injection He as ->. subst verr. cbn [error_eqb negb].
    destruct (db_StoreBlock _ blk') as [serr d]. cbn [fst snd] in *.
    subst serr. reflexivity.
  - intros He Hv Hs. injection He as ->. subst verr. cbn [error_eqb negb].
    destruct (db_StoreBlock _ blk') as [serr d]. cbn [fst snd] in *.
    subst serr. unfold LegacyChain.log. cbn.
    destruct (propagate blk'); rewrite <- !app_assoc; reflexivity.
Qed.

(** X18.  The candidate [ForgeCandidateBlock] builds continues the tip:
    version 0, the tip's height plus one, the tip's hash as previous hash,
    the Merkle root of the transactions taken from the mempool.  It passes
    [checkBlockHeader] exactly when the clock is after the tip's timestamp.
    It is returned when its transactions verify; and when the clock is not
    after the tip's timestamp it is returned as well, its transactions
    unchecked, because [verifyBlock] answers the failed header check with
    nil. *)
Theorem X18_forged_candidate (c : LegacyChain.Chain Payload DB)
    (txs : list Payload) (now : Z) (root hash : bytes) :
  let prev := LegacyChain.BHeader (LegacyChain.PrevBlockOf Payload DB c) in
  let rooted :=
    LegacyChain.mkHeader 0 now (wrap64 (LegacyChain.Height prev + 1))
      (LegacyChain.Hash prev) root [] [] [] in
  let b :=
    LegacyChain.mkBlock
      (LegacyChain.mkHeader 0 now (wrap64 (LegacyChain.Height prev + 1))
         (LegacyChain.Hash prev) root [] [] hash) txs in
  merkleRoot txs = Ok root ->
  hashOf rooted = Ok hash ->
  (fst (LegacyChain.checkBlockHeader Payload DB merkleRoot c b) = None
   <-> now > LegacyChain.Timestamp prev)
  /\ (checkMultiCoinbases txs = None ->
      LegacyChain.verifyTxs Payload Transaction DB asTransaction verifyTX
        c now 0 txs = None ->
      LegacyForge.ForgeCandidateBlock Payload Transaction DB merkleRoot hashOf
        checkMultiCoinbases asTransaction verifyTX c txs now = Ok b)
  /\ (now <= LegacyChain.Timestamp prev ->
      LegacyForge.ForgeCandidateBlock Payload Transaction DB merkleRoot hashOf
        checkMultiCoinbases asTransaction verifyTX c txs now = Ok b).
Proof.
  cbv zeta. intros Hr Hh.
  remember (LegacyChain.BHeader (LegacyChain.PrevBlockOf Payload DB c))
    as prev eqn:Hprev.
  set (b := LegacyChain.mkBlock _ txs).
  assert (Hck : forall on,
             (now <=? LegacyChain.Timestamp prev) = on ->
             LegacyChain.checkBlockHeader Payload DB merkleRoot c b
             = (if on
                then Some (errors_New "current timestamp is less than the previous timestamp"%string)
                else None, b)).
  { intros on Hon. unfold LegacyChain.checkBlockHeader, LegacyChain.SetRoot.
    rewrite <- ?Hprev. unfold b.
    cbn [LegacyChain.BHeader LegacyChain.Version LegacyChain.PrevBlock
         LegacyChain.Height LegacyChain.Timestamp LegacyChain.TxRoot
         LegacyChain.Txs Z.gtb Z.compare].
    assert (E2 : forall x, bytes_eqb x x = true) by (intros x; now apply bytes_eqb_eq).
    rewrite E2, Z.eqb_refl, Hon. cbn [negb].
    destruct on; [reflexivity|].
    rewrite Hr.
    cbn [LegacyChain.BHeader LegacyChain.TxRoot LegacyChain.set_TxRoot].
    rewrite E2. reflexivity. }
  assert (Hforge : forall r,
             LegacyChain.verifyBlock Payload Transaction DB merkleRoot
               checkMultiCoinbases asTransaction verifyTX c b = (None, r) ->
             r = b ->
             LegacyForge.ForgeCandidateBlock Payload Transaction DB merkleRoot
               hashOf checkMultiCoinbases asTransaction verifyTX c txs now
             = Ok b).
  { intros r Hv ->. unfold LegacyForge.ForgeCandidateBlock,
      LegacyForge.forgedHeader, LegacyChain.SetRoot, LegacyForge.SetHash.
    rewrite <- ?Hprev. cbn [LegacyChain.Txs]. rewrite Hr.
    unfold LegacyChain.set_TxRoot. cbn -[wrap64 Z.add]. rewrite Hh.
    unfold LegacyForge.set_Hash. cbn -[wrap64 Z.add].
    fold b. now rewrite Hv. }
  pose proof (Hck _ eq_refl) as Hk. clear Hck.
  split; [|split].
  - destruct (now <=? LegacyChain.Timestamp prev) eqn:E; rewrite Hk; cbn [fst].
    + apply Z.leb_le in E. split; [discriminate|lia].
    + apply Z.leb_gt in E. split; [lia|reflexivity].
  - intros Hc Hv. apply (Hforge b); [|reflexivity].
    unfold LegacyChain.verifyBlock. rewrite Hk.
    destruct (now <=? LegacyChain.Timestamp prev); [reflexivity|].
    unfold b.
    cbn [LegacyChain.Txs LegacyChain.BHeader LegacyChain.Timestamp].
    rewrite Hc, Hv. reflexivity.
  - intros Hle. apply (Hforge b); [|reflexivity].
    unfold LegacyChain.verifyBlock. rewrite Hk.
    assert (E : (now <=? LegacyChain.Timestamp prev) = true) by (apply Z.leb_le; lia).
    now rewrite E.
Qed.

End LegacyOutcomes.

(** ** The chain of unnamed/part_000 *)

Section MidChainFacts.
Variable DB : Type.
Variable db_StoreBlock : DB -> MidChain.Block -> option error * DB.
Variable db_DeleteCandidateBlocks : DB -> Z -> result Z * DB.
Variable CheckBlock : DB -> MidChain.Block -> MidChain.Block -> option error.
Variable CheckBlockCertificate : MidChain.Block -> option error.
Variable Encode : MidChain.Block -> result Buffer.
Variable Inv_Encode : Buffer -> list (CurrentChain.InvType * bytes) -> option error * Buffer.
Variable AddTopic : Buffer -> MidChain.Topic -> result Buffer.
Variable WriteVarBytes : Buffer -> bytes -> option error * Buffer.
Variable commitmentAmount : bytes -> Z.
Variable zkproof_CalculateX : Z -> bytes -> bytes.

Import MidChain.

Local Notation "'accept'" :=
  (AcceptBlock DB db_StoreBlock db_DeleteCandidateBlocks CheckBlock
     CheckBlockCertificate Encode Inv_Encode AddTopic WriteVarBytes
     commitmentAmount zkproof_CalculateX) (only parsing).
Local Notation "'announce'" :=
  (addConsensusNodes DB WriteVarBytes commitmentAmount zkproof_CalculateX)
  (only parsing).

Lemma addConsensusNodes_frame (txs : list Transaction) (start : Z) :
  forall c : Chain DB,
    db DB (announce c txs start) = db DB c
    /\ prevBlock DB (announce c txs start) = prevBlock DB c
    /\ exists added, calls DB (announce c txs start) = calls DB c ++ added.
Proof.
  induction txs as [|tx txs IH]; intros c; cbn [addConsensusNodes].
  - repeat split. exists []. now rewrite app_nil_r.
  - match goal with |- context [announce ?c1 txs start] =>
      destruct (IH c1) as (Hd & Hp & added & Hc);
      assert (H1 : db DB c1 = db DB c /\ prevBlock DB c1 = prevBlock DB c
                   /\ exists a1, calls DB c1 = calls DB c ++ a1)
    end.
    { destruct tx as [s|b|o]; cbn [snd].
      - unfold addProvisioner.
        destruct (WriteVarBytes _ _) as [[e|] buf]; cbn [snd];
          [repeat split; exists []; now rewrite app_nil_r|].
        unfold Encoding.WriteUint64LE. cbn [snd record db prevBlock calls].
        repeat split. eexists. reflexivity.
      - cbn [addBidder propagateBidList record snd db prevBlock calls].
        repeat split. eexists. reflexivity.
      - repeat split. exists []. now rewrite app_nil_r. }
    destruct H1 as (Hd1 & Hp1 & a1 & Hc1).
    rewrite Hd, Hp, Hc, Hd1, Hp1, Hc1. repeat split.
    exists (a1 ++ added). now rewrite app_assoc.
Qed.

(** The announcement of a stake whose BLS key was written without error. *)
Lemma addConsensusNodes_announces (txs : list Transaction) (start : Z)
    (s : Stake) (buf : Buffer) :
  In (StakeTx s) txs ->
  WriteVarBytes (PubKeyEd s) (PubKeyBLS s) = (None, buf) ->
  forall c : Chain DB,
    In (Publish NewProvisionerTopic
          (buf ++ le_encode 8 (getTxTotalOutputAmount commitmentAmount (StakeTx s))
               ++ le_encode 8 start))
       (calls DB (announce c txs start)).
Proof.
  intros Hin Hw. induction txs as [|tx txs IH]; [contradiction|].
  intros c. cbn [addConsensusNodes]. destruct Hin as [-> | Hin].
  - match goal with |- context [announce ?c1 txs start] =>
      destruct (addConsensusNodes_frame txs start c1) as (_ & _ & added & Hc)
    end.
    rewrite Hc. apply in_or_app. left.
    unfold addProvisioner. rewrite Hw. unfold Encoding.WriteUint64LE.
    cbn [snd record calls]. apply in_or_app. right.
    rewrite <- app_assoc. left. reflexivity.
  - apply IH. exact Hin.
Qed.

(** X19.  The [AcceptBlock] of unnamed/part_000 touches nothing for a
    block that [verifiers.CheckBlock] or the certificate check rejects: it
    returns the check's error with the chain as it was, nothing published
    and nothing stored.  A block it accepts passed both checks and is the
    new tip. *)
Theorem X19_midchain_checks_before_effects (c : Chain DB) (blk : Block) :
  (forall err,
      CheckBlock (db DB c) (prevBlock DB c) blk = Some err ->
      accept c blk = (Return (Some err), c))
  /\ (forall err,
      CheckBlock (db DB c) (prevBlock DB c) blk = None ->
      CheckBlockCertificate blk = Some err ->
      accept c blk = (Return (Some err), c))
  /\ (forall c',
      accept c blk = (Return None, c') ->
      CheckBlock (db DB c) (prevBlock DB c) blk = None
      /\ CheckBlockCertificate blk = None
      /\ prevBlock DB c' = blk).
Proof.
  split; [|split].
  - intros err H. unfold AcceptBlock. now rewrite H.
  - intros err H1 H2. unfold AcceptBlock. now rewrite H1, H2.
  - intros c'. unfold AcceptBlock.
    destruct (CheckBlock _ _ blk); [discriminate|].
    destruct (CheckBlockCertificate blk); [discriminate|].
    destruct (db_StoreBlock _ blk) as [[e|] d]; [discriminate|].
    destruct (Encode blk) as [buf|e]; [|discriminate].
    unfold advertiseBlock.
    destruct (Inv_Encode [] _) as [[e|] b0]; [discriminate|].
    destruct (AddTopic b0 Inv) as [wt|e]; [|discriminate].
    destruct (db_DeleteCandidateBlocks _ _) as [r d'].
    intros H. injection H as <-. repeat split.
Qed.

(** X20.  The stakers of a block are announced before the block is
    stored.  For a block that passes both checks, a stake transaction of
    the block whose BLS key is written without error is published on the
    new-provisioner topic as its Ed25519 key, its BLS key, its total output
    amount and the start height block height + 1 (both 8 bytes,
    little-endian); when storing the block then fails, [AcceptBlock] returns
    the storage error with the old tip, and the announcement stays
    published. *)
Theorem X20_stakers_announced_before_store (c : Chain DB) (blk : Block)
    (s : Stake) (buf : Buffer) (err : error) (d : DB) :
  CheckBlock (db DB c) (prevBlock DB c) blk = None ->
  CheckBlockCertificate blk = None ->
  In (StakeTx s) (MTxs blk) ->
  WriteVarBytes (PubKeyEd s) (PubKeyBLS s) = (None, buf) ->
  db_StoreBlock (db DB c) blk = (Some err, d) ->
  let announcement :=
    Publish NewProvisionerTopic
      (buf ++ le_encode 8 (getTxTotalOutputAmount commitmentAmount (StakeTx s))
           ++ le_encode 8 (wrap64 (Height (MHeader blk) + 1))) in
  fst (accept c blk) = Return (Some err)
  /\ prevBlock DB (snd (accept c blk)) = prevBlock DB c
  /\ In announcement (calls DB (snd (accept c blk))).
Proof.
  intros Hc Hcert Hin Hw Hs. cbv zeta. unfold AcceptBlock.
  rewrite Hc, Hcert.
  destruct (addConsensusNodes_frame (MTxs blk)
              (wrap64 (Height (MHeader blk) + 1)) c) as (Hd & Hp & _).
  pose proof (addConsensusNodes_announces (MTxs blk)
                (wrap64 (Height (MHeader blk) + 1)) s buf Hin Hw c) as Han.
  rewrite Hd, Hs. cbn [fst snd record prevBlock calls].
  split; [reflexivity|]. split; [exact Hp|].
  apply in_or_app. left. exact Han.
Qed.

(** X21.  The order of effects when the part_000 chain accepts a block,
    and the cleanup that cannot fail it.  For a block that passes both
    checks, is stored and encoded, and whose inventory message is built, the
    calls are: the announcements of its stakers and bidders, the store, the
    AcceptedBlock publication of the encoded block, the Inv stream on the
    gossip topic, the deletion of the candidate blocks at its height; the
    block is the new tip and nil is returned whether or not that deletion
    succeeded. *)
Theorem X21_midchain_accept_effects (c : Chain DB) (blk : Block)
    (d : DB) (encoded inv withTopic : Buffer) :
  CheckBlock (db DB c) (prevBlock DB c) blk = None ->
  CheckBlockCertificate blk = None ->
  db_StoreBlock (db DB c) blk = (None, d) ->
  Encode blk = Ok encoded ->
  Inv_Encode [] [(CurrentChain.InvTypeBlock, Hash (MHeader blk))] = (None, inv) ->
  AddTopic inv Inv = Ok withTopic ->
  let announced := announce c (MTxs blk) (wrap64 (Height (MHeader blk) + 1)) in
  accept c blk
  = (Return None,
     mkChain DB (snd (db_DeleteCandidateBlocks d (Height (MHeader blk)))) blk
       (calls DB announced
        ++ [StoreBlock blk; Publish AcceptedBlock encoded;
            Stream Gossip withTopic;
            DeleteCandidateBlocks (Height (MHeader blk))])).
Proof.
  intros Hc Hcert Hs He Hi Ha. cbv zeta. unfold AcceptBlock.
  rewrite Hc, Hcert.
  destruct (addConsensusNodes_frame (MTxs blk)
              (wrap64 (Height (MHeader blk) + 1)) c) as (Hd & _ & _).
  rewrite Hd, Hs, He. unfold advertiseBlock. rewrite Hi, Ha.
  cbn [record db prevBlock calls].
  destruct (db_DeleteCandidateBlocks d (Height (MHeader blk))) as [r d'].
  unfold record. cbn [snd db prevBlock calls].
  rewrite <- !app_assoc. reflexivity.
Qed.

End MidChainFacts.

(** ** The step event collector *)

Section StepCollectorFacts.
Variable Event : Type.
Variable Equal : Event -> Event -> bool.

Import StepCollector.

Lemma Store_unfold (sec : StepEventCollector Event) (e : Event) (s : Z) :
  Store Event Equal sec e s
  = if Contains Event Equal sec e s
    then (Z.of_nat (List.length (at_step Event sec s)), sec)
    else (Z.of_nat (List.length (at_step Event sec s ++ [e])),
          fun k => if k =? s then Some (at_step Event sec s ++ [e]) else sec k).
Proof.
  unfold Store, at_step. destruct (Contains Event Equal sec e s); [reflexivity|].
  destruct (sec s); reflexivity.
Qed.

Lemma at_step_after_Store (sec : StepEventCollector Event) (e : Event) (s s' : Z) :
  at_step Event (snd (Store Event Equal sec e s)) s'
  = if Contains Event Equal sec e s then at_step Event sec s'
    else if s' =? s then at_step Event sec s ++ [e]
         else at_step Event sec s'.
Proof.
  rewrite Store_unfold.
  destruct (Contains Event Equal sec e s); cbn [snd]; [reflexivity|].
  unfold at_step at 1. destruct (s' =? s); reflexivity.
Qed.

(** X22.  [Store] returns the number of events held at the step after the
    call, which is at least one, and leaves every other step as it was; an
    event that is [Equal] to itself is contained at its step afterwards. *)
Theorem X22_store_then_contains (sec : StepEventCollector Event)
    (e : Event) (s : Z) :
  let n := fst (Store Event Equal sec e s) in
  let sec' := snd (Store Event Equal sec e s) in
  n = Z.of_nat (List.length (at_step Event sec' s))
  /\ 1 <= n
  /\ (forall s', s' <> s -> at_step Event sec' s' = at_step Event sec s')
  /\ (Equal e e = true -> Contains Event Equal sec' e s = true).
Proof.
  cbv zeta. split; [|split; [|split]].
  - rewrite at_step_after_Store, Store_unfold, Z.eqb_refl.
    destruct (Contains Event Equal sec e s); reflexivity.
  - rewrite Store_unfold.
    destruct (Contains Event Equal sec e s) eqn:Hc; cbn [fst].
    + unfold Contains in Hc. destruct (at_step Event sec s); [discriminate|].
      cbn [List.length]. lia.
    + rewrite length_app. cbn [List.length]. lia.
  - intros s' Hne. rewrite at_step_after_Store.
    destruct (Contains Event Equal sec e s); [reflexivity|].
    destruct (Z.eqb_spec s' s); [contradiction|reflexivity].
  - intros Hrefl. unfold Contains at 1. rewrite at_step_after_Store, Z.eqb_refl.
    destruct (Contains Event Equal sec e s) eqn:Hc; [exact Hc|].
    rewrite existsb_app. cbn [existsb]. rewrite Hrefl.
    now rewrite orb_true_r.
Qed.

(** X23.  Storing is idempotent.  An event already contained at the step
    leaves the collector untouched and gets the current count; storing an
    event that is [Equal] to itself a second time changes nothing more and
    returns the same count as the first time. *)
Theorem X23_store_is_idempotent (sec : StepEventCollector Event)
    (e : Event) (s : Z) :
  (Contains Event Equal sec e s = true ->
   Store Event Equal sec e s
   = (Z.of_nat (List.length (at_step Event sec s)), sec))
  /\ (Equal e e = true ->
      Store Event Equal (snd (Store Event Equal sec e s)) e s
      = Store Event Equal sec e s).
Proof.
  split.
  - intros Hc. now rewrite Store_unfold, Hc.
  - intros Hrefl.
    assert (Hin : Contains Event Equal (snd (Store Event Equal sec e s)) e s = true).
    { unfold Contains at 1. rewrite at_step_after_Store, Z.eqb_refl.
      destruct (Contains Event Equal sec e s) eqn:Hc; [exact Hc|].
      rewrite existsb_app. cbn [existsb]. rewrite Hrefl.
      now rewrite orb_true_r. }
    rewrite (Store_unfold (snd (Store Event Equal sec e s))), Hin.
    rewrite at_step_after_Store, Z.eqb_refl, (Store_unfold sec).
    destruct (Contains Event Equal sec e s); reflexivity.
Qed.

Lemma no_repeat_snoc (l : list Event) (e : Event) :
  no_repeat Event Equal (l ++ [e])
  = negb (existsb (fun stored => Equal e stored) l) && no_repeat Event Equal l.
Proof.
  unfold no_repeat. rewrite rev_app_distr. cbn [rev app no_repeat_rev].
  now rewrite rev_involutive.
Qed.

Lemma Store_keeps_no_repeat (sec : StepEventCollector Event) (e : Event) (s : Z) :
  (forall s', no_repeat Event Equal (at_step Event sec s') = true) ->
  forall s', no_repeat Event Equal
               (at_step Event (snd (Store Event Equal sec e s)) s') = true.
Proof.
  intros Hinv s'. rewrite at_step_after_Store.
  destruct (Contains Event Equal sec e s) eqn:Hc; [apply Hinv|].
  destruct (s' =? s); [|apply Hinv].
  rewrite no_repeat_snoc. unfold Contains in Hc. rewrite Hc, Hinv. reflexivity.
Qed.

(** X24.  The collector never holds a duplicate.  After any run of stores
    into the empty collector, at every step no event held is [Equal] to one
    stored before it at that step; and after [Clear] every step is empty
    again, so that the next store of any event returns 1. *)
Theorem X24_collector_holds_no_duplicates
    (events : list (Event * Z)) (s : Z) (e : Event) :
  no_repeat Event Equal
    (at_step Event (storeAll Event Equal (empty Event) events) s) = true
  /\ at_step Event (Clear Event (storeAll Event Equal (empty Event) events)) s = []
  /\ fst (Store Event Equal
            (Clear Event (storeAll Event Equal (empty Event) events)) e s) = 1.
Proof.
  split; [|split; reflexivity].
  assert (Hgen : forall evs sec,
             (forall s', no_repeat Event Equal (at_step Event sec s') = true) ->
             forall s', no_repeat Event Equal
                          (at_step Event (storeAll Event Equal sec evs) s') = true).
  { induction evs as [|[e0 s0] evs IH]; intros sec Hinv s'; [apply Hinv|].
    unfold storeAll. cbn [fold_left fst snd].
    apply (IH (snd (Store Event Equal sec e0 s0))).
    now apply Store_keeps_no_repeat. }
  apply Hgen. intros s'. reflexivity.
Qed.

End StepCollectorFacts.

(** ** The stake automaton *)

Section StakeAutomatonFacts.
Variable cfg : StakeAutomaton.Config.
Variable rpcBus_SendStakeTx : nat -> StakeAutomaton.StakeRequest -> option error.

Import StakeAutomaton.

Lemma getTxSettings_eq :
  getTxSettings cfg
  = (wrap64 (DefaultAmount cfg * DUSK cfg),
     Z.min (DefaultLockTime cfg) (MaxLockTime cfg)).
Proof.
  unfold getTxSettings. f_equal.
  destruct (Z.gtb_spec (DefaultLockTime cfg) (MaxLockTime cfg)); lia.
Qed.

Lemma sendStake_cases (m : Automaton) :
  (fst (getTxSettings cfg) = 0 \/ snd (getTxSettings cfg) = 0)
  /\ snd (sendStake cfg rpcBus_SendStakeTx m) = m
  /\ fst (sendStake cfg rpcBus_SendStakeTx m) <> None
  \/
  fst (getTxSettings cfg) <> 0 /\ snd (getTxSettings cfg) <> 0
  /\ requests (snd (sendStake cfg rpcBus_SendStakeTx m))
     = requests m ++ [mkStakeRequest (fst (getTxSettings cfg)) (MinFee cfg)
                                      (snd (getTxSettings cfg))]
  /\ height (snd (sendStake cfg rpcBus_SendStakeTx m)) = height m
  /\ stakeEndHeight (snd (sendStake cfg rpcBus_SendStakeTx m))
     = match rpcBus_SendStakeTx (List.length (requests m))
               (mkStakeRequest (fst (getTxSettings cfg)) (MinFee cfg)
                               (snd (getTxSettings cfg))) with
       | None => wrap64 (snd (getTxSettings cfg) + height m)
       | Some _ => stakeEndHeight m
       end
  /\ fst (sendStake cfg rpcBus_SendStakeTx m)
     = rpcBus_SendStakeTx (List.length (requests m))
         (mkStakeRequest (fst (getTxSettings cfg)) (MinFee cfg)
                         (snd (getTxSettings cfg))).
Proof.
  unfold sendStake. destruct (getTxSettings cfg) as [amount lockTime].
  cbn [fst snd].
  destruct (Z.eqb_spec amount 0) as [Ha|Ha]; cbn [orb].
  { left. cbn [fst snd]. split; [now left|]. split; [reflexivity|discriminate]. }
  destruct (Z.eqb_spec lockTime 0) as [Hl|Hl].
  { left. cbn [fst snd]. split; [now right|]. split; [reflexivity|discriminate]. }
  right. split; [exact Ha|]. split; [exact Hl|].
  cbn [height stakeEndHeight running requests].
  destruct (rpcBus_SendStakeTx (List.length (requests m))
              (mkStakeRequest amount (MinFee cfg) lockTime));
    cbn [fst snd height stakeEndHeight running requests]; auto.
Qed.

Lemma onRoundUpdate_requests (m : Automaton) (round : Z) :
  requests (onRoundUpdate cfg rpcBus_SendStakeTx m round) = requests m
  \/ fst (getTxSettings cfg) <> 0 /\ snd (getTxSettings cfg) <> 0
     /\ requests (onRoundUpdate cfg rpcBus_SendStakeTx m round)
        = requests m ++ [mkStakeRequest (fst (getTxSettings cfg)) (MinFee cfg)
                                         (snd (getTxSettings cfg))].
Proof.
  unfold onRoundUpdate. cbn [height stakeEndHeight running requests].
  destruct (wrap64 (round + renewalOffset) >=? stakeEndHeight m);
    [|left; reflexivity].
  destruct (sendStake_cases
              (mkAutomaton round (stakeEndHeight m) (running m) (requests m)))
    as [(_ & Hm & _)|(Ha & Hl & Hr & _)].
  - left. now rewrite Hm.
  - right. split; [exact Ha|]. split; [exact Hl|]. exact Hr.
Qed.

(** X25.  Every stake request the automaton sends while listening carries
    the minimum fee, the configured amount converted to atomic units and the
    configured lock time capped at the maximum; neither the amount nor the
    lock time of a request is ever zero, so that with a zero amount or lock
    time nothing is sent at all. *)
Theorem X25_stake_requests_are_well_formed (rounds : list Z)
    (req : StakeRequest) :
  In req (requests (Listen cfg rpcBus_SendStakeTx New rounds)) ->
  Fee req = MinFee cfg
  /\ Amount req = wrap64 (DefaultAmount cfg * DUSK cfg)
  /\ Amount req <> 0
  /\ Locktime req = Z.min (DefaultLockTime cfg) (MaxLockTime cfg)
  /\ Locktime req <> 0
  /\ Locktime req <= MaxLockTime cfg.
Proof.
  assert (Hgen : forall rs m,
             (forall r, In r (requests m) ->
                        r = mkStakeRequest (fst (getTxSettings cfg)) (MinFee cfg)
                                           (snd (getTxSettings cfg))
                        /\ fst (getTxSettings cfg) <> 0
                        /\ snd (getTxSettings cfg) <> 0) ->
             forall r, In r (requests (Listen cfg rpcBus_SendStakeTx m rs)) ->
                       r = mkStakeRequest (fst (getTxSettings cfg)) (MinFee cfg)
                                          (snd (getTxSettings cfg))
                       /\ fst (getTxSettings cfg) <> 0
                       /\ snd (getTxSettings cfg) <> 0).
  { induction rs as [|round rs IH]; intros m Hinv r Hin; [now apply Hinv|].
    unfold Listen in Hin. cbn [fold_left] in Hin.
    apply (IH (onRoundUpdate cfg rpcBus_SendStakeTx m round)); [|exact Hin].
    intros r0 Hr0.
    destruct (onRoundUpdate_requests m round) as [He|(Ha & Hl & He)];
      rewrite He in Hr0; [now apply Hinv|].
    apply in_app_or in Hr0. destruct Hr0 as [Hr0|[Hr0|[]]]; [now apply Hinv|].
    now subst r0. }
  intros Hin. destruct (Hgen rounds New) with (r := req) as (Hr & Ha & Hl);
    [intros r []|exact Hin|].
  rewrite getTxSettings_eq in Hr, Ha, Hl. cbn [fst snd] in Hr, Ha, Hl.
  subst req. cbn [Fee Amount Locktime]. repeat (split; [assumption || reflexivity|]).
  lia.
Qed.

Lemma Listen_quiet (rounds : list Z) (m : Automaton) :
  Forall (fun round => 0 <= round
                       /\ round + renewalOffset < stakeEndHeight m) rounds ->
  stakeEndHeight m < 2 ^ 64 ->
  requests (Listen cfg rpcBus_SendStakeTx m rounds) = requests m
  /\ stakeEndHeight (Listen cfg rpcBus_SendStakeTx m rounds) = stakeEndHeight m.
Proof.
  revert m. induction rounds as [|round rounds IH]; intros m Hall Hend;
    [split; reflexivity|].
  inversion Hall as [|? ? [H0 Hlt] Hrest]; subst.
  unfold Listen. cbn [fold_left].
  assert (Hstep : onRoundUpdate cfg rpcBus_SendStakeTx m round
                  = mkAutomaton round (stakeEndHeight m) (running m) (requests m)).
  { unfold onRoundUpdate. cbn [height stakeEndHeight running requests].
    unfold wrap64. rewrite Z.mod_small by (unfold renewalOffset in *; lia).
    destruct (Z.geb_spec (round + renewalOffset) (stakeEndHeight m));
      [lia|reflexivity]. }
  rewrite Hstep.
  destruct (IH (mkAutomaton round (stakeEndHeight m) (running m) (requests m)))
    as (Hr & He); [exact Hrest|exact Hend|].
  unfold Listen in Hr, He. rewrite Hr, He.
  split; reflexivity.
Qed.

(** X26.  After a stake request that the RPC bus accepted at round [round],
    the stake ends at [round] plus the lock time, and no further request is
    sent as long as the rounds stay more than the renewal offset of 100
    below that height. *)
Theorem X26_no_restake_before_renewal_window (m : Automaton) (round : Z)
    (rounds : list Z) :
  let amount := wrap64 (DefaultAmount cfg * DUSK cfg) in
  let lockTime := Z.min (DefaultLockTime cfg) (MaxLockTime cfg) in
  let req := mkStakeRequest amount (MinFee cfg) lockTime in
  amount <> 0 -> 0 < lockTime ->
  0 <= round -> round + lockTime < 2 ^ 64 ->
  stakeEndHeight m <= wrap64 (round + renewalOffset) ->
  rpcBus_SendStakeTx (List.length (requests m)) req = None ->
  Forall (fun later => 0 <= later
                       /\ later + renewalOffset < round + lockTime) rounds ->
  requests (Listen cfg rpcBus_SendStakeTx m (round :: rounds))
  = requests m ++ [req]
  /\ stakeEndHeight (Listen cfg rpcBus_SendStakeTx m (round :: rounds))
     = round + lockTime.
Proof.
  intros amount lockTime req Ha Hl H0 Hmax Hdue Hrpc Hall.
  unfold Listen. cbn [fold_left].
  assert (Hstep : requests (onRoundUpdate cfg rpcBus_SendStakeTx m round)
                  = requests m ++ [req]
                  /\ stakeEndHeight (onRoundUpdate cfg rpcBus_SendStakeTx m round)
                     = round + lockTime).
  { unfold onRoundUpdate. cbn [height stakeEndHeight running requests].
    destruct (Z.geb_spec (wrap64 (round + renewalOffset)) (stakeEndHeight m));
      [|lia].
    destruct (sendStake_cases
                (mkAutomaton round (stakeEndHeight m) (running m) (requests m)))
      as [(Hz & _)|(_ & _ & Hr & _ & He & _)];
      rewrite getTxSettings_eq in *; cbn [fst snd] in *.
    - destruct Hz; [contradiction|lia].
    - cbn [height stakeEndHeight running requests] in Hr, He.
      fold amount lockTime req in Hr, He. rewrite Hrpc in He.
      split; [exact Hr|]. rewrite He. unfold wrap64.
      rewrite Z.mod_small; lia. }
  destruct Hstep as [Hr He].
  destruct (Listen_quiet rounds (onRoundUpdate cfg rpcBus_SendStakeTx m round))
    as (Hr' & He').
  - rewrite He. exact Hall.
  - rewrite He. exact Hmax.
  - unfold Listen in Hr', He'. rewrite Hr', He', Hr, He. split; reflexivity.
Qed.

(** X27.  A stake that the RPC bus refuses is retried at every round update.
    Started from a new automaton with valid settings and an RPC bus that
    refuses every request, the automaton sends exactly one request for each
    round update and its stake end height stays at the initial 1. *)
Theorem X27_refused_stake_is_retried_each_round (rounds : list Z) :
  wrap64 (DefaultAmount cfg * DUSK cfg) <> 0 ->
  Z.min (DefaultLockTime cfg) (MaxLockTime cfg) <> 0 ->
  (forall n req, rpcBus_SendStakeTx n req <> None) ->
  Forall (fun round => 0 <= round < 2 ^ 64 - renewalOffset) rounds ->
  List.length (requests (Listen cfg rpcBus_SendStakeTx New rounds))
  = List.length rounds
  /\ stakeEndHeight (Listen cfg rpcBus_SendStakeTx New rounds) = 1.
Proof.
  intros Ha Hl Hrpc Hall.
  assert (Hgen : forall rs m,
             stakeEndHeight m = 1 ->
             Forall (fun round => 0 <= round < 2 ^ 64 - renewalOffset) rs ->
             List.length (requests (Listen cfg rpcBus_SendStakeTx m rs))
             = (List.length (requests m) + List.length rs)%nat
             /\ stakeEndHeight (Listen cfg rpcBus_SendStakeTx m rs) = 1).
  { induction rs as [|round rs IH]; intros m Hend Hrs.
    { cbn. split; [lia|exact Hend]. }
    inversion Hrs as [|? ? Hround Hrest]; subst.
    unfold Listen. cbn [fold_left].
    assert (Hstep : requests (onRoundUpdate cfg rpcBus_SendStakeTx m round)
                    = requests m
                      ++ [mkStakeRequest (fst (getTxSettings cfg)) (MinFee cfg)
                                         (snd (getTxSettings cfg))]
                    /\ stakeEndHeight (onRoundUpdate cfg rpcBus_SendStakeTx m round)
                       = 1).
    { unfold onRoundUpdate. cbn [height stakeEndHeight running requests].
      rewrite Hend. unfold wrap64.
      rewrite Z.mod_small by (unfold renewalOffset in *; lia).
      destruct (Z.geb_spec (round + renewalOffset) 1);
        [|unfold renewalOffset in *; lia].
      destruct (sendStake_cases
                  (mkAutomaton round 1 (running m) (requests m)))
        as [(Hz & _)|(_ & _ & Hr & _ & He & _)].
      - rewrite getTxSettings_eq in Hz. cbn [fst snd] in Hz.
        destruct Hz; contradiction.
      - cbn [height stakeEndHeight running requests] in Hr, He.
        split; [exact Hr|]. rewrite He.
        destruct (rpcBus_SendStakeTx (List.length (requests m))
                    (mkStakeRequest (fst (getTxSettings cfg)) (MinFee cfg)
                                    (snd (getTxSettings cfg)))) eqn:Hans;
          [reflexivity|]. now apply Hrpc in Hans. }
    destruct Hstep as [Hr He].
    destruct (IH (onRoundUpdate cfg rpcBus_SendStakeTx m round) He Hrest)
      as [Hlen Hend'].
    unfold Listen in Hlen, Hend'. rewrite Hlen, Hend', Hr, length_app.
    cbn [List.length]. split; [lia|reflexivity]. }
  destruct (Hgen rounds New eq_refl Hall) as [Hlen Hend].
  rewrite Hlen. cbn [requests New List.length]. split; [lia|exact Hend].
Qed.

End StakeAutomatonFacts.

(** ** The generator of base points *)

Section GeneratorFacts.
Variable Point : Type.
Variable Derive : bytes -> Point.
Variable Bytes : Point -> bytes.

Import Generators.

Lemma iterate_n_add (a b : nat) (g : Generator Point) :
  iterate_n Point Derive Bytes (a + b) g
  = iterate_n Point Derive Bytes b (iterate_n Point Derive Bytes a g).
Proof.
  revert g. induction a as [|a IH]; intros g; [reflexivity|].
  cbn [Nat.add iterate_n]. apply IH.
Qed.

Lemma iterate_n_appends (n : nat) (g : Generator Point) :
  data Point (iterate_n Point Derive Bytes n g) = data Point g
  /\ exists suffix,
       Bases Point (iterate_n Point Derive Bytes n g) = Bases Point g ++ suffix
       /\ List.length suffix = n.
Proof.
  revert g. induction n as [|n IH]; intros g.
  { split; [reflexivity|]. exists []. now rewrite app_nil_r. }
  cbn [iterate_n].
  destruct (IH (mkGenerator Point (data Point g)
                  (Bases Point g ++ [Iterate Point Derive Bytes g])))
    as (Hd & suffix & Hb & Hl).
  split; [exact Hd|].
  exists (Iterate Point Derive Bytes g :: suffix).
  rewrite Hb. cbn [Bases List.length]. rewrite <- app_assoc. split; [reflexivity|].
  now rewrite Hl.
Qed.

Lemma iterate_n_chain (d : bytes) (n k : nat) (g : Generator Point) :
  data Point g = d ->
  Bases Point g
  = map (fun i => Nat.iter i (fun p => Derive (Bytes p)) (Derive d)) (seq 0 k) ->
  Bases Point (iterate_n Point Derive Bytes n g)
  = map (fun i => Nat.iter i (fun p => Derive (Bytes p)) (Derive d))
        (seq 0 (k + n)).
Proof.
  revert k g. induction n as [|n IH]; intros k g Hd Hb.
  { now rewrite Nat.add_0_r. }
  cbn [iterate_n]. replace (k + S n)%nat with (S k + n)%nat by lia.
  apply IH; [exact Hd|]. cbn [Bases].
  rewrite seq_S, map_app. cbn [map Nat.add]. f_equal; [exact Hb|]. f_equal.
  unfold Iterate. rewrite Hb, Hd.
  destruct k as [|k]; [reflexivity|].
  rewrite seq_S, map_app, rev_app_distr. reflexivity.
Qed.

(** X28.  [Compute] only appends: it keeps the seed data and the points
    already generated and adds exactly [num] points behind them; and two
    calls in a row generate what one call for the sum generates. *)
Theorem X28_compute_appends_and_composes (g : Generator Point) (a b : Z) :
  0 <= a -> 0 <= b -> a + b < 2 ^ 32 ->
  Compute Point Derive Bytes (Compute Point Derive Bytes g a) b
  = Compute Point Derive Bytes g (a + b)
  /\ data Point (Compute Point Derive Bytes g a) = data Point g
  /\ exists suffix,
       Bases Point (Compute Point Derive Bytes g a) = Bases Point g ++ suffix
       /\ Z.of_nat (List.length suffix) = a.
Proof.
  intros Ha Hb _. unfold Compute. split.
  - rewrite Z2Nat.inj_add by assumption. symmetry. apply iterate_n_add.
  - destruct (iterate_n_appends (Z.to_nat a) g) as (Hd & suffix & Hs & Hl).
    split; [exact Hd|]. exists suffix. split; [exact Hs|]. rewrite Hl. lia.
Qed.

(** X29.  The points of a generator form a chain fixed by the seed data
    alone: the first is derived from the data, each next one from the bytes
    of the point before it.  Clearing a generator and computing again thus
    yields the same points. *)
Theorem X29_bases_form_a_derivation_chain (d : bytes) (num : Z) :
  Bases Point (Compute Point Derive Bytes (New Point d) num)
  = map (fun i => Nat.iter i (fun p => Derive (Bytes p)) (Derive d))
        (seq 0 (Z.to_nat num))
  /\ Compute Point Derive Bytes
       (Clear Point (Compute Point Derive Bytes (New Point d) num)) num
     = Compute Point Derive Bytes (New Point d) num.
Proof.
  split.
  - unfold Compute. apply (iterate_n_chain d (Z.to_nat num) 0); reflexivity.
  - unfold Clear, Compute.
    destruct (iterate_n_appends (Z.to_nat num) (New Point d)) as (Hd & _).
    rewrite Hd. reflexivity.
Qed.

End GeneratorFacts.

(** ** The kadcast writer *)

Section KadcliFacts.
Variable cli_Broadcast : Z -> bytes -> option error.
Variable cli_Send : bytes -> bytes -> option error.

Import Kadcli.

(** X30.  [Write] fails only on an empty header, and then calls nothing.
    A header of one byte makes one broadcast with that byte as the kadcast
    height, a longer header makes one send with the whole header as the
    target address; in both cases [Write] returns 0 and no error, whatever
    the network client answers. *)
Theorem X30_write_dispatches_on_header_length
    (payload header : bytes) (priority : byte) :
  Write cli_Broadcast cli_Send payload header priority
  = match header with
    | [] => ((0, Some ErrEmptyHeader), [])
    | [kadcastHeight] =>
        ((0, None), [Broadcast (Z_of_byte kadcastHeight) payload])
    | _ :: _ :: _ => ((0, None), [Send header payload])
    end
  /\ (forall kadcastHeight message,
        In (Broadcast kadcastHeight message)
           (snd (Write cli_Broadcast cli_Send payload header priority)) ->
        0 <= kadcastHeight < 256 /\ message = payload).
Proof.
  split.
  - destruct header as [|h [|h2 rest]]; reflexivity.
  - intros k msg Hin. destruct header as [|h [|h2 rest]]; cbn in Hin.
    + destruct Hin.
    + destruct Hin as [Heq|[]]. inversion Heq; subst.
      split; [apply Z_of_byte_range|reflexivity].
    + destruct Hin as [Heq|[]]. discriminate.
Qed.

End KadcliFacts.

(** ** The further properties on concrete collaborators *)

Lemma X1_header_roundtrip_witness :
  exists hb,
    Wire.MarshalHeader [xaa] (BHeader Examples.block1) = (None, [xaa] ++ hb)
    /\ List.length hb = 229%nat
    /\ Wire.UnmarshalHeader (hb ++ [xbb]) Examples.header0
       = (None, [xbb], BHeader Examples.block1).
Proof.
  apply (X1_header_roundtrip (BHeader Examples.block1) Examples.header0
           [xaa] [xbb]).
  unfold WireBlock.Header_typed, Certificate_typed, is_uint8, is_uint64.
  cbn. repeat split; lia.
Defined.

Lemma X3_block_marshal_unmarshal_witness :
  exists vb,
    WireBlock.MarshalBlock nat MoreExamples.marshalOneByteTx [] Examples.block1
    = (None, WireBlock.header_bytes (BHeader Examples.block1) ++ vb
             ++ List.concat (map MoreExamples.encTx (Txs Examples.block1)))
    /\ Encoding.ReadVarInt (vb ++ [xbb]) = (Ok 1, [xbb])
    /\ Wire.UnmarshalBlock nat Examples.oneByteTx
         (snd (WireBlock.MarshalBlock nat MoreExamples.marshalOneByteTx []
                 Examples.block1) ++ [xbb])
         (mkBlock Examples.header0 [])
       = (None, [xbb], mkBlock (BHeader Examples.block1) [None]).
Proof.
  apply (X3_block_marshal_unmarshal nat MoreExamples.marshalOneByteTx
           Examples.oneByteTx MoreExamples.encTx
           (fun r tx => eq_refl)
           Examples.block1 (mkBlock Examples.header0 []) [xbb]).
  - unfold WireBlock.Header_typed, Certificate_typed, is_uint8, is_uint64.
    cbn. repeat split; lia.
  - vm_compute. discriminate.
  - intros tx tail _. destruct tx; reflexivity.
Defined.

Lemma X4_reduction_double_timeout_witness :
  Reduction.begin bytes Examples.hashOfVote Examples.noHeader
    Examples.noVoteSet 2 Examples.state0 Reduction.TimerFired
    Reduction.TimerFired
  = (Return None, Reduction.mkState 1 3,
     [Reduction.timeoutChan true;
      Reduction.reductionVoteChan Examples.emptyHash;
      Reduction.timeoutChan true]).
Proof.
  apply (X4_reduction_double_timeout bytes Examples.hashOfVote
           Examples.noHeader Examples.noVoteSet 2 Examples.state0
           Examples.emptyHash Examples.emptyHash).
  - lia.
  - reflexivity.
  - reflexivity.
Defined.

Lemma X6_reduction_empty_slice_panics_witness :
  Reduction.begin bytes Examples.hashOfVote Examples.noHeader
    Examples.noVoteSet 2 Examples.state0 Reduction.TimerFired
    (Reduction.Collected (Some []))
  = (Panic, Reduction.mkState 1 2,
     [Reduction.timeoutChan true;
      Reduction.reductionVoteChan Examples.emptyHash]).
Proof.
  apply (proj2 (X6_reduction_empty_slice_panics bytes Examples.hashOfVote
                  Examples.noHeader Examples.noVoteSet 2 Examples.state0
                  Reduction.TimerFired)
           Examples.emptyHash Examples.emptyHash).
  - reflexivity.
  - reflexivity.
Defined.

Lemma X8_certificate_recorded_before_acceptance_witness :
  let c' :=
    snd (CurrentChain.handleCertificateMessage nat (list nat) Z
           (list (Block nat)) (Examples.env false false) (Examples.chainAt 0)
           MoreExamples.certMsg1) in
  CurrentChain.lastCertificate c' = Some Examples.cert45
  /\ CurrentChain.tip c' = Examples.genesis
  /\ CurrentChain.calls c'
     = [CurrentChain.rpcBus_Call CurrentChain.GetCandidate
          (repeat x0b 32 ++ [x01])].
Proof.
  pose proof (X8_certificate_recorded_before_acceptance nat (list nat) Z
                (list (Block nat)) (Examples.env false false)
                (Examples.chainAt 0) MoreExamples.certMsg1) as H.
  cbv zeta in H. destruct H as (Hcert & _ & Herr).
  destruct (Herr (External 9) eq_refl) as (_ & Htip & _ & _ & _ & Hcalls).
  cbv zeta. split; [exact Hcert|]. split; [exact Htip|exact Hcalls].
Defined.

Lemma X9_rejected_block_stops_consensus_witness :
  CurrentChain.onAcceptBlock nat (list nat) Z (list (Block nat))
    (Examples.env false false) (Examples.chainAt 1)
    (Examples.blockMsg Examples.block1_stale)
  = (Return (Some (errors_New "block timestamp is not after the timestamp of the tip"%string)),
     CurrentChain.mkChain [1%nat] 1 [Examples.genesis] Examples.genesis
       (Some Examples.emptyCert) (Some []) 0
       [CurrentChain.Publish CurrentChain.StopConsensus
          (CurrentChain.message_New CurrentChain.StopConsensus
             CurrentChain.EMPTY)]).
Proof.
  apply (X9_rejected_block_stops_consensus nat (list nat) Z
           (list (Block nat)) (Examples.env false false) (Examples.chainAt 1)
           (Examples.blockMsg Examples.block1_stale) Examples.block1_stale).
  - reflexivity.
  - reflexivity.
  - reflexivity.
Defined.

Lemma X10_sync_completion_sends_round_update_witness :
  CurrentChain.onAcceptBlock nat (list nat) Z (list (Block nat))
    (Examples.env false false) (Examples.chainAt 1)
    (Examples.blockMsg Examples.block1)
  = (Return None,
     CurrentChain.mkChain [1; 2; 3; 4]%nat 0
       [Examples.genesis; Examples.block1] Examples.block1
       (Some Examples.cert45) (Some []) 0
       [CurrentChain.Publish CurrentChain.StopConsensus
          (CurrentChain.message_New CurrentChain.StopConsensus
             CurrentChain.EMPTY);
        CurrentChain.tip_Set Examples.block1;
        CurrentChain.loader_Append Examples.block1;
        CurrentChain.Publish CurrentChain.Gossip
          (CurrentChain.message_New CurrentChain.Inv
             (CurrentChain.OfBuffer (x0e :: repeat x0b 32)));
        CurrentChain.Publish CurrentChain.AcceptedBlock
          (CurrentChain.message_New CurrentChain.AcceptedBlock
             (CurrentChain.OfBlock Examples.block1));
        CurrentChain.counter_Decrement;
        CurrentChain.Go_Publish CurrentChain.RoundUpdate
          (CurrentChain.message_New CurrentChain.RoundUpdate
             (CurrentChain.OfRoundUpdate
                (CurrentChain.mkRoundUpdate 2 [1; 2; 3; 4]%nat
                   (repeat x03 33) (repeat x0b 32))))]).
Proof.
  apply (X10_sync_completion_sends_round_update nat (list nat) Z
           (list (Block nat)) (Examples.env false false) (Examples.chainAt 1)
           (Examples.blockMsg Examples.block1) Examples.block1
           [1; 2; 3]%nat [1; 2; 3; 4]%nat
           [Examples.genesis; Examples.block1]
           (repeat x0b 32) (x0e :: repeat x0b 32));
    vm_compute; reflexivity.
Defined.

Lemma X11_restarted_chain_has_no_certificate_witness :
  exists c,
    CurrentChain.New nat (list nat) Z (list (Block nat))
      (Examples.env false false) 0 MoreExamples.storedChain = Ok c
    /\ CurrentChain.tip c = Examples.block1
    /\ CurrentChain.lastCertificate c = None
    /\ CurrentChain.calls
         (snd (CurrentChain.Listen nat (list nat) Z (list (Block nat))
                 (Examples.env false false) c
                 CurrentChain.getLastCertificateChan))
       = CurrentChain.calls c
         ++ [CurrentChain.RespChan
               (CurrentChain.RespBuffer []
                  (Some (errors_New "no last certificate present"%string)))].
Proof.
  eexists. split; [vm_compute; reflexivity|].
  split; [reflexivity|].
  destruct (X11_restarted_chain_has_no_certificate nat (list nat) Z
              (list (Block nat)) (Examples.env false false) 0
              MoreExamples.storedChain MoreExamples.storedChain
              Examples.block1 _ eq_refl
              ltac:(vm_compute; discriminate) eq_refl)
    as (Hcert & Hlisten & _).
  split; [exact Hcert|].
  exact (f_equal (fun r => CurrentChain.calls (snd r)) Hlisten).
Defined.

Lemma X12_served_certificate_is_the_accepted_one_witness :
  let c' :=
    snd (CurrentChain.onAcceptBlock nat (list nat) Z (list (Block nat))
           (Examples.env false false) (Examples.chainAt 1)
           (Examples.blockMsg Examples.block1)) in
  exists answer,
    CurrentChain.provideLastCertificate nat (list nat) Z (list (Block nat)) c'
    = CurrentChain.record nat (list nat) Z (list (Block nat))
        (CurrentChain.RespChan (CurrentChain.RespBuffer answer None)) c'
    /\ List.length answer = 83%nat
    /\ Wire.UnmarshalCertificate answer Examples.emptyCert
       = (None, [], Examples.cert45).
Proof.
  cbv zeta.
  apply (X12_served_certificate_is_the_accepted_one nat (list nat) Z
           (list (Block nat)) (Examples.env false false) (Examples.chainAt 1)
           _ (Examples.blockMsg Examples.block1) Examples.block1
           Examples.emptyCert).
  - reflexivity.
  - reflexivity.
  - vm_compute. reflexivity.
  - reflexivity.
  - reflexivity.
  - unfold Certificate_typed, is_uint8, is_uint64. cbn. lia.
Defined.

Lemma X13_failed_clear_has_stopped_consensus_witness :
  CurrentChain.RebuildChain nat (list nat) Z (list (Block nat))
    MoreExamples.envClearFails (Examples.chainAt 0)
  = (Return (Err (External 13)),
     CurrentChain.mkChain [1%nat] 0 [Examples.genesis] Examples.genesis
       (Some Examples.emptyCert) (Some []) 0
       [CurrentChain.Publish CurrentChain.StopConsensus
          (CurrentChain.message_New CurrentChain.StopConsensus
             CurrentChain.Nil);
        CurrentChain.loader_Clear]).
Proof.
  apply (X13_failed_clear_has_stopped_consensus nat (list nat) Z
           (list (Block nat)) MoreExamples.envClearFails (Examples.chainAt 0)
           (External 13) [Examples.genesis]).
  reflexivity.
Defined.

Lemma X14_listen_does_not_panic_witness :
  fst (CurrentChain.Listen nat (list nat) Z (list (Block nat))
         (Examples.env false false) (Examples.chainAt 1)
         (CurrentChain.blockChan (Examples.blockMsg Examples.block1)))
  = Return tt
  /\ fst (CurrentChain.Listen nat (list nat) Z (list (Block nat))
            (Examples.env false false) (Examples.chainAt 1)
            (CurrentChain.verifyCandidateBlockChan
               (CurrentChain.IsCandidate
                  (CurrentChain.mkCandidate (Some Examples.block1)))))
     = Return tt
  /\ CurrentChain.Listen nat (list nat) Z (list (Block nat))
       (Examples.env false false) (Examples.chainAt 1)
       (CurrentChain.verifyCandidateBlockChan
          (CurrentChain.IsCandidate (CurrentChain.mkCandidate None)))
     = (Panic, Examples.chainAt 1)
  /\ fst (CurrentChain.Listen nat (list nat) Z (list (Block nat))
            MoreExamples.envNoCandidate (Examples.chainAt 1)
            (CurrentChain.certificateChan MoreExamples.certMsg1))
     = Panic.
Proof.
  split; [|split; [|split]].
  - apply (proj1 (X14_listen_does_not_panic nat (list nat) Z
                    (list (Block nat)) (Examples.env false false)
                    (Examples.chainAt 1)
                    (CurrentChain.blockChan
                       (Examples.blockMsg Examples.block1)))).
    + intros buf items. reflexivity.
    + intros buf t. reflexivity.
    + intros m Hm. injection Hm as <-. exists Examples.block1. reflexivity.
    + intros r Hr. discriminate Hr.
    + intros cMsg resp Hc. discriminate Hc.
  - apply (proj1 (X14_listen_does_not_panic nat (list nat) Z
                    (list (Block nat)) (Examples.env false false)
                    (Examples.chainAt 1)
                    (CurrentChain.verifyCandidateBlockChan
                       (CurrentChain.IsCandidate
                          (CurrentChain.mkCandidate (Some Examples.block1)))))).
    + intros buf items. reflexivity.
    + intros buf t. reflexivity.
    + intros m Hm. discriminate Hm.
    + intros r Hr. injection Hr as <-. exists Examples.block1. reflexivity.
    + intros cMsg resp Hc. discriminate Hc.
  - apply (proj1 (proj2 (proj2 (X14_listen_does_not_panic nat (list nat) Z
                    (list (Block nat)) (Examples.env false false)
                    (Examples.chainAt 1)
                    (CurrentChain.verifyCandidateBlockChan
                       (CurrentChain.IsCandidate
                          (CurrentChain.mkCandidate None))))))
             (CurrentChain.IsCandidate (CurrentChain.mkCandidate None))
             eq_refl).
    intros blk Hblk. discriminate Hblk.
  - apply (proj2 (proj2 (proj2 (X14_listen_does_not_panic nat (list nat) Z
                    (list (Block nat)) MoreExamples.envNoCandidate
                    (Examples.chainAt 1)
                    (CurrentChain.certificateChan MoreExamples.certMsg1))))
             MoreExamples.certMsg1 CurrentChain.NotCandidate eq_refl eq_refl).
    intros blk Hblk. discriminate Hblk.
Defined.

Lemma X15_checkBlockHeader_characterised_witness :
  snd (Examples.legacy_checkBlockHeader Examples.legacy_chain
         MoreExamples.legacy_good)
  = MoreExamples.legacy_good
  /\ fst (Examples.legacy_checkBlockHeader Examples.legacy_chain
            Examples.legacy_bad) <> None.
Proof.
  pose proof (X15_checkBlockHeader_characterised nat (list bytes)
                Examples.legacy_root Examples.legacy_chain
                MoreExamples.legacy_good) as Hgood.
  pose proof (X15_checkBlockHeader_characterised nat (list bytes)
                Examples.legacy_root Examples.legacy_chain
                Examples.legacy_bad) as Hbad.
  cbv zeta in Hgood, Hbad. split.
  - apply (proj2 Hgood). reflexivity.
  - intros Hnone. apply (proj1 (proj1 Hbad)) in Hnone.
    destruct Hnone as (_ & Hprev & _). vm_compute in Hprev. discriminate.
Defined.

Lemma X16_verifyBlock_checks_every_tx_witness :
  fst (MoreExamples.legacy_verifyBlock Examples.legacy_chain
         MoreExamples.legacy_good) = None.
Proof.
  apply (X16_verifyBlock_checks_every_tx nat nat (list bytes)
           Examples.legacy_root (fun _ => None) (fun n => Some n)
           (fun _ _ _ _ => None) Examples.legacy_chain
           MoreExamples.legacy_good eq_refl).
  split; [reflexivity|].
  intros k payload _. exists payload. split; reflexivity.
Defined.

Lemma X17_legacy_accept_outcomes_witness :
  Examples.legacy_AcceptBlock Examples.legacy_chain Examples.legacy_genesis
  = (Some (errors_New "block already exists"%string), Examples.legacy_chain)
  /\ Examples.legacy_AcceptBlock Examples.legacy_chain
       MoreExamples.legacy_good
     = (None,
        LegacyChain.mkChain nat (list bytes)
          [repeat x0a 32; repeat x0b 32] MoreExamples.legacy_good
          [LegacyChain.StoreBlock MoreExamples.legacy_good;
           LegacyChain.RemoveAccepted MoreExamples.legacy_good;
           LegacyChain.propagateBlock MoreExamples.legacy_good])
  /\ LegacyChain.PrevBlockOf nat (list bytes)
       (snd (Examples.legacy_AcceptBlock Examples.legacy_chain
               MoreExamples.legacy_wrong_root))
     = LegacyChain.mkBlock
         (LegacyChain.set_TxRoot (make_bytes 32)
            (LegacyChain.BHeader MoreExamples.legacy_wrong_root))
         [3%nat; 4%nat].
Proof.
  pose proof (X17_legacy_accept_outcomes nat nat (list bytes)
                Examples.legacy_Fetch Examples.legacy_Store
                Examples.legacy_root (fun _ => None) (fun n => Some n)
                (fun _ _ _ _ => None) (fun _ => None)
                Examples.legacy_chain Examples.legacy_genesis) as Hseen.
  pose proof (X17_legacy_accept_outcomes nat nat (list bytes)
                Examples.legacy_Fetch Examples.legacy_Store
                Examples.legacy_root (fun _ => None) (fun n => Some n)
                (fun _ _ _ _ => None) (fun _ => None)
                Examples.legacy_chain MoreExamples.legacy_good) as Hgood.
  pose proof (X17_legacy_accept_outcomes nat nat (list bytes)
                Examples.legacy_Fetch Examples.legacy_Store
                Examples.legacy_root (fun _ => None) (fun n => Some n)
                (fun _ _ _ _ => None) (fun _ => None)
                Examples.legacy_chain MoreExamples.legacy_wrong_root) as Hroot.
  cbv zeta in Hseen, Hgood, Hroot.
  destruct Hseen as (_ & Hseen & _).
  destruct Hgood as (_ & _ & _ & _ & _ & Hgood).
  destruct Hroot as (_ & _ & _ & _ & _ & Hroot).
  split; [apply Hseen; reflexivity|]. split.
  - unfold Examples.legacy_AcceptBlock.
    rewrite (Hgood eq_refl eq_refl eq_refl). reflexivity.
  - unfold Examples.legacy_AcceptBlock.
    rewrite (Hroot eq_refl eq_refl eq_refl). reflexivity.
Defined.

Lemma X18_forged_candidate_witness :
  MoreExamples.legacy_ForgeCandidateBlock Examples.legacy_chain
    [3%nat; 4%nat] 1001
  = Ok (LegacyChain.mkBlock
          (LegacyChain.mkHeader 0 1001 11 (repeat x0a 32) (make_bytes 32)
                                [] [] (repeat x0c 32))
          [3%nat; 4%nat])
  /\ MoreExamples.legacy_ForgeCandidateBlock Examples.legacy_chain
       [3%nat; 4%nat] 1000
     = Ok (LegacyChain.mkBlock
             (LegacyChain.mkHeader 0 1000 11 (repeat x0a 32) (make_bytes 32)
                                   [] [] (repeat x0c 32))
             [3%nat; 4%nat]).
Proof.
  split.
  - apply (proj1 (proj2 (X18_forged_candidate nat nat (list bytes)
                           Examples.legacy_root MoreExamples.legacy_hashOf
                           (fun _ => None) (fun n => Some n)
                           (fun _ _ _ _ => None) Examples.legacy_chain
                           [3%nat; 4%nat] 1001 (make_bytes 32)
                           (repeat x0c 32) eq_refl eq_refl)));
      reflexivity.
  - apply (proj2 (proj2 (X18_forged_candidate nat nat (list bytes)
                           Examples.legacy_root MoreExamples.legacy_hashOf
                           (fun _ => None) (fun n => Some n)
                           (fun _ _ _ _ => None) Examples.legacy_chain
                           [3%nat; 4%nat] 1000 (make_bytes 32)
                           (repeat x0c 32) eq_refl eq_refl))).
    vm_compute. discriminate.
Defined.

Lemma X19_midchain_checks_before_effects_witness :
  MoreExamples.mid_AcceptBlock false MoreExamples.mid_chain
    MoreExamples.mid_block5
  = (Return (Some (External 22)), MoreExamples.mid_chain)
  /\ MidChain.prevBlock nat
       (snd (MoreExamples.mid_AcceptBlock false MoreExamples.mid_chain
               MoreExamples.mid_block1))
     = MoreExamples.mid_block1.
Proof.
  split.
  - apply (proj1 (X19_midchain_checks_before_effects nat
                    (MoreExamples.mid_StoreBlock false)
                    MoreExamples.mid_DeleteCandidateBlocks
                    MoreExamples.mid_CheckBlock
                    MoreExamples.mid_CheckBlockCertificate
                    MoreExamples.mid_Encode MoreExamples.mid_Inv_Encode
                    MoreExamples.mid_AddTopic MoreExamples.mid_WriteVarBytes
                    MoreExamples.mid_commitmentAmount
                    MoreExamples.mid_CalculateX MoreExamples.mid_chain
                    MoreExamples.mid_block5)).
    reflexivity.
  - apply (proj2 (proj2 (X19_midchain_checks_before_effects nat
                    (MoreExamples.mid_StoreBlock false)
                    MoreExamples.mid_DeleteCandidateBlocks
                    MoreExamples.mid_CheckBlock
                    MoreExamples.mid_CheckBlockCertificate
                    MoreExamples.mid_Encode MoreExamples.mid_Inv_Encode
                    MoreExamples.mid_AddTopic MoreExamples.mid_WriteVarBytes
                    MoreExamples.mid_commitmentAmount
                    MoreExamples.mid_CalculateX MoreExamples.mid_chain
                    MoreExamples.mid_block1))
             (snd (MoreExamples.mid_AcceptBlock false MoreExamples.mid_chain
                     MoreExamples.mid_block1))).
    vm_compute. reflexivity.
Defined.

Lemma X20_stakers_announced_before_store_witness :
  fst (MoreExamples.mid_AcceptBlock true MoreExamples.mid_chain
         MoreExamples.mid_block1) = Return (Some (External 21))
  /\ MidChain.prevBlock nat
       (snd (MoreExamples.mid_AcceptBlock true MoreExamples.mid_chain
               MoreExamples.mid_block1))
     = MoreExamples.mid_genesis
  /\ In (MidChain.Publish MidChain.NewProvisionerTopic
           ([x01; x02; x02; x03]
            ++ [x0b; x00; x00; x00; x00; x00; x00; x00]
            ++ [x02; x00; x00; x00; x00; x00; x00; x00]))
        (MidChain.calls nat
           (snd (MoreExamples.mid_AcceptBlock true MoreExamples.mid_chain
                   MoreExamples.mid_block1))).
Proof.
  apply (X20_stakers_announced_before_store nat
           (MoreExamples.mid_StoreBlock true)
           MoreExamples.mid_DeleteCandidateBlocks
           MoreExamples.mid_CheckBlock
           MoreExamples.mid_CheckBlockCertificate
           MoreExamples.mid_Encode MoreExamples.mid_Inv_Encode
           MoreExamples.mid_AddTopic MoreExamples.mid_WriteVarBytes
           MoreExamples.mid_commitmentAmount
           MoreExamples.mid_CalculateX MoreExamples.mid_chain
           MoreExamples.mid_block1 MoreExamples.mid_stake
           [x01; x02; x02; x03] (External 21) 0%nat).
  - reflexivity.
  - reflexivity.
  - left. reflexivity.
  - reflexivity.
  - reflexivity.
Defined.

Lemma X21_midchain_accept_effects_witness :
  MoreExamples.mid_AcceptBlock false MoreExamples.mid_chain
    MoreExamples.mid_block1
  = (Return None,
     MidChain.mkChain nat 1%nat MoreExamples.mid_block1
       [MidChain.Publish MidChain.NewProvisionerTopic
          ([x01; x02; x02; x03]
           ++ [x0b; x00; x00; x00; x00; x00; x00; x00]
           ++ [x02; x00; x00; x00; x00; x00; x00; x00]);
        MidChain.Publish MidChain.BidListTopic [x04; x09];
        MidChain.StoreBlock MoreExamples.mid_block1;
        MidChain.Publish MidChain.AcceptedBlock (repeat x0b 32);
        MidChain.Stream MidChain.Gossip (x0e :: repeat x0b 32);
        MidChain.DeleteCandidateBlocks 1]).
Proof.
  apply (X21_midchain_accept_effects nat
           (MoreExamples.mid_StoreBlock false)
           MoreExamples.mid_DeleteCandidateBlocks
           MoreExamples.mid_CheckBlock
           MoreExamples.mid_CheckBlockCertificate
           MoreExamples.mid_Encode MoreExamples.mid_Inv_Encode
           MoreExamples.mid_AddTopic MoreExamples.mid_WriteVarBytes
           MoreExamples.mid_commitmentAmount
           MoreExamples.mid_CalculateX MoreExamples.mid_chain
           MoreExamples.mid_block1 1%nat (repeat x0b 32) (repeat x0b 32)
           (x0e :: repeat x0b 32));
    reflexivity.
Defined.

Lemma X22_store_then_contains_witness :
  StepCollector.Contains Z Z.eqb
    (snd (StepCollector.Store Z Z.eqb MoreExamples.collected 7 1)) 7 1 = true
  /\ fst (StepCollector.Store Z Z.eqb MoreExamples.collected 7 1) = 3.
Proof.
  pose proof (X22_store_then_contains Z Z.eqb MoreExamples.collected 7 1) as H.
  cbv zeta in H. destruct H as (Hn & _ & _ & Hin).
  split; [apply Hin; reflexivity|]. rewrite Hn. reflexivity.
Defined.

Lemma X23_store_is_idempotent_witness :
  StepCollector.Store Z Z.eqb MoreExamples.collected 5 1
  = (2, MoreExamples.collected)
  /\ StepCollector.Store Z Z.eqb
       (snd (StepCollector.Store Z Z.eqb MoreExamples.collected 7 1)) 7 1
     = StepCollector.Store Z Z.eqb MoreExamples.collected 7 1.
Proof.
  destruct (X23_store_is_idempotent Z Z.eqb MoreExamples.collected 5 1)
    as [Hdup _].
  destruct (X23_store_is_idempotent Z Z.eqb MoreExamples.collected 7 1)
    as [_ Hagain].
  split; [apply Hdup; reflexivity|apply Hagain; reflexivity].
Defined.

Lemma X25_stake_requests_are_well_formed_witness :
  In MoreExamples.stakeReq
     (StakeAutomaton.requests
        (StakeAutomaton.Listen MoreExamples.stakeCfg
           MoreExamples.rpcFirstFails StakeAutomaton.New [1; 2; 3]))
  /\ StakeAutomaton.Fee MoreExamples.stakeReq = 100
  /\ StakeAutomaton.Amount MoreExamples.stakeReq <> 0
  /\ StakeAutomaton.Locktime MoreExamples.stakeReq <= 250000.
Proof.
  assert (Hin : In MoreExamples.stakeReq
                  (StakeAutomaton.requests
                     (StakeAutomaton.Listen MoreExamples.stakeCfg
                        MoreExamples.rpcFirstFails StakeAutomaton.New
                        [1; 2; 3])))
    by (left; reflexivity).
  destruct (X25_stake_requests_are_well_formed MoreExamples.stakeCfg
              MoreExamples.rpcFirstFails [1; 2; 3] MoreExamples.stakeReq Hin)
    as (Hfee & _ & Hamount & _ & _ & Hlock).
  split; [exact Hin|]. split; [exact Hfee|]. split; [exact Hamount|exact Hlock].
Defined.

Lemma X26_no_restake_before_renewal_window_witness :
  StakeAutomaton.requests
    (StakeAutomaton.Listen MoreExamples.stakeCfg MoreExamples.rpcAccepts
       StakeAutomaton.New [5; 6; 7; 900])
  = [MoreExamples.stakeReq]
  /\ StakeAutomaton.stakeEndHeight
       (StakeAutomaton.Listen MoreExamples.stakeCfg MoreExamples.rpcAccepts
          StakeAutomaton.New [5; 6; 7; 900])
     = 1005.
Proof.
  apply (X26_no_restake_before_renewal_window MoreExamples.stakeCfg
           MoreExamples.rpcAccepts StakeAutomaton.New 5 [6; 7; 900]).
  - vm_compute. discriminate.
  - reflexivity.
  - lia.
  - reflexivity.
  - vm_compute. discriminate.
  - reflexivity.
  - repeat constructor; vm_compute; (reflexivity || discriminate).
Defined.

Lemma X27_refused_stake_is_retried_each_round_witness :
  List.length
    (StakeAutomaton.requests
       (StakeAutomaton.Listen MoreExamples.stakeCfg MoreExamples.rpcRefuses
          StakeAutomaton.New [1; 2; 3]))
  = 3%nat
  /\ StakeAutomaton.stakeEndHeight
       (StakeAutomaton.Listen MoreExamples.stakeCfg MoreExamples.rpcRefuses
          StakeAutomaton.New [1; 2; 3])
     = 1.
Proof.
  apply (X27_refused_stake_is_retried_each_round MoreExamples.stakeCfg
           MoreExamples.rpcRefuses [1; 2; 3]).
  - vm_compute. discriminate.
  - vm_compute. discriminate.
  - intros n req. discriminate.
  - repeat constructor; vm_compute; (reflexivity || discriminate).
Defined.

Lemma X28_compute_appends_and_composes_witness :
  Generators.Compute bytes MoreExamples.derive (fun p => p)
    (Generators.Compute bytes MoreExamples.derive (fun p => p)
       MoreExamples.generator0 2) 3
  = Generators.Compute bytes MoreExamples.derive (fun p => p)
      MoreExamples.generator0 5
  /\ Generators.data bytes
       (Generators.Compute bytes MoreExamples.derive (fun p => p)
          MoreExamples.generator0 2)
     = [x07].
Proof.
  destruct (X28_compute_appends_and_composes bytes MoreExamples.derive
              (fun p => p) MoreExamples.generator0 2 3
              ltac:(lia) ltac:(lia) ltac:(lia))
    as (Hcompose & Hdata & _).
  split; [exact Hcompose|exact Hdata].
Defined.

Lemma X30_write_dispatches_on_header_length_witness :
  Kadcli.Write (fun _ _ => Some (External 41)) (fun _ _ => Some (External 42))
    [xaa; xbb] [x05] x00
  = ((0, None), [Kadcli.Broadcast 5 [xaa; xbb]])
  /\ Kadcli.Write (fun _ _ => None) (fun _ _ => None) [xaa] [x05; x06] x00
     = ((0, None), [Kadcli.Send [x05; x06] [xaa]]).
Proof.
  split.
  - exact (proj1 (X30_write_dispatches_on_header_length
                    (fun _ _ => Some (External 41))
                    (fun _ _ => Some (External 42)) [xaa; xbb] [x05] x00)).
  - exact (proj1 (X30_write_dispatches_on_header_length
                    (fun _ _ => None) (fun _ _ => None) [xaa] [x05; x06] x00)).
Defined.
